(** * Gestionnaire de tâches : modèle Rocq de la couche métier

    Shallow embedding of the server side of the task manager
    (controllers and repositories over the Sequelize models).  Tables are
    finite maps from primary key to row, every handler is a function from
    the request and the database to a response and a new database. *)

From Stdlib Require Import ZArith String Ascii List Lia.
From stdpp Require Import base tactics option list sorting strings gmap.

Open Scope string_scope.
Open Scope Z_scope.
Open Scope list_scope.

Set Warnings "-clear-no-such-hyp".

(** ** Models (server/src/models) *)

Inductive Statut := A_FAIRE | EN_COURS | TERMINEE.
Inductive Priorite := BASSE | MOYENNE | HAUTE | URGENTE.

#[global] Instance Statut_eq_dec : EqDecision Statut.
Proof. solve_decision. Defined.
#[global] Instance Priorite_eq_dec : EqDecision Priorite.
Proof. solve_decision. Defined.

(** The strings stored in the [statut] and [priorite] columns. *)
Definition statut_nom (s : Statut) : string :=
  match s with
  | A_FAIRE => "A_FAIRE"
  | EN_COURS => "EN_COURS"
  | TERMINEE => "TERMINEE"
  end.

Definition priorite_nom (p : Priorite) : string :=
  match p with
  | BASSE => "BASSE"
  | MOYENNE => "MOYENNE"
  | HAUTE => "HAUTE"
  | URGENTE => "URGENTE"
  end.

(** Rows do not repeat their primary key: it is the key of the table. *)
Module Utilisateur.
Record t := Build {
  email : string;
  nom_affichage : string;
  mot_de_passe_hash : string;
  date_creation : Z;
  actif : bool;
  tentatives_echec : Z
}.

Definition avec_tentatives_echec (n : Z) (u : t) : t :=
  Build (email u) (nom_affichage u) (mot_de_passe_hash u)
        (date_creation u) (actif u) n.

Definition avec_mot_de_passe_hash (h : string) (u : t) : t :=
  Build (email u) (nom_affichage u) h
        (date_creation u) (actif u) (tentatives_echec u).
End Utilisateur.

Module Liste.
Record t := Build {
  nom : string;
  couleur : string;
  ordre : Z;
  utilisateur_id : string
}.
End Liste.

Module Tache.
Record t := Build {
  titre : string;
  description : option string;
  statut : Statut;
  priorite : Priorite;
  date_echeance : option Z;
  date_creation : Z;
  date_completion : option Z;
  utilisateur_id : string;
  liste_id : option string
}.

Definition avec_liste_id (l : option string) (x : t) : t :=
  Build (titre x) (description x) (statut x) (priorite x) (date_echeance x)
        (date_creation x) (date_completion x) (utilisateur_id x) l.
End Tache.

Module HistoriqueModification.
Record t := Build {
  tache_id : string;
  ancien_statut : Statut;
  nouveau_statut : Statut;
  date_modification : Z
}.
End HistoriqueModification.

(** ** Configuration (config/appConfig) *)

Module appConfig.
(** ['24h'] *)
Definition jwtExpiration : Z := 24 * 3600.
Definition bcryptSaltRounds : Z := 10.
Definition maxLoginAttempts : Z := 3.
Definition defaultPageLimit : Z := 20.
Definition defaultPage : Z := 1.
End appConfig.

(** ** External collaborators

    bcrypt and the JWT secret of the environment are not part of the
    repository; the controllers are parametric in them. *)
Class Externe := {
  (** [bcrypt.hash(data, rounds)], with the salt it draws made explicit *)
  bcrypt_hash : string → Z → string → string;
  (** [bcrypt.compare(data, hash)] *)
  bcrypt_compare : string → string → bool;
  (** [process.env.JWT_SECRET] or its default *)
  jwtSecret : string
}.

(** ** The database *)

(** Calls to the ORM that write to the database, in the order they are made;
    kept beside the tables to tell which write came first. *)
Inductive Ecriture :=
  | InsertUtilisateur (id : string)
  | UpdateUtilisateur (id : string)
  | InsertListe (id : string)
  | UpdateListe (id : string)
  | DeleteListe (id : string)
  | InsertTache (id : string)
  | UpdateTache (id : string)
  | UpdateTachesDeListe (liste_id : string)
  | DeleteTache (id : string)
  | InsertHistorique (tache_id : string).

Record BD := MkBD {
  utilisateurs : gmap string Utilisateur.t;
  listes : gmap string Liste.t;
  taches : gmap string Tache.t;
  historique : list HistoriqueModification.t;
  journal : list Ecriture
}.

Definition bd_vide : BD := MkBD ∅ ∅ ∅ [] [].

Definition avec_utilisateurs (e : Ecriture) (m : gmap string Utilisateur.t) (bd : BD) : BD :=
  MkBD m (listes bd) (taches bd) (historique bd) (journal bd ++ [e]).

Definition avec_listes (e : Ecriture) (m : gmap string Liste.t) (bd : BD) : BD :=
  MkBD (utilisateurs bd) m (taches bd) (historique bd) (journal bd ++ [e]).

Definition avec_taches (e : Ecriture) (m : gmap string Tache.t) (bd : BD) : BD :=
  MkBD (utilisateurs bd) (listes bd) m (historique bd) (journal bd ++ [e]).

(** ** HTTP responses *)

(** [{ id, email, nom_affichage, date_creation }] *)
Record UtilisateurPublic := MkUtilisateurPublic {
  pub_id : string;
  pub_email : string;
  pub_nom_affichage : string;
  pub_date_creation : Z
}.

(** Result of [jwt.sign({ id, email }, secret, { expiresIn })] at time [iat]. *)
Record Jeton := MkJeton {
  jeton_id : string;
  jeton_email : string;
  jeton_secret : string;
  jeton_iat : Z;
  jeton_exp : Z
}.

Definition jwt_sign (id email secret : string) (expiresIn maintenant : Z) : Jeton :=
  MkJeton id email secret maintenant (maintenant + expiresIn).


(** [{ id, nom, couleur }], the attributes of the included [liste]. *)
Record ListeResume := MkListeResume {
  resume_id : string;
  resume_nom : string;
  resume_couleur : string
}.

(** A task as the repository returns it: primary key, row and the
    association [liste] loaded with it. *)
Record TacheInstance := MkTacheInstance {
  inst_id : string;
  inst_ligne : Tache.t;
  inst_liste : option ListeResume
}.

(** A user loaded with [attributes: { exclude: ['mot_de_passe_hash'] }]. *)
Record Profil := MkProfil {
  profil_id : string;
  profil_email : string;
  profil_nom_affichage : string;
  profil_date_creation : Z;
  profil_actif : bool;
  profil_tentatives_echec : Z
}.

Record Compteurs := MkCompteurs {
  total : Z;
  nb_A_FAIRE : Z;
  nb_EN_COURS : Z;
  nb_TERMINEE : Z
}.

Record Pagination := MkPagination {
  pg_page : Z;
  pg_limit : Z;
  pg_total : Z;
  pg_totalPages : Z
}.

(** The [data] member of a successful response, one constructor per
    object literal of the controllers. *)
Inductive Donnees :=
  | DonneesInscription (utilisateur : UtilisateurPublic)
  | DonneesConnexion (token : Jeton) (utilisateur : UtilisateurPublic)
  | DonneesProfil (utilisateur : option Profil)
  | DonneesTache (tache : option TacheInstance)
  | DonneesTaches (taches : list TacheInstance) (compteurs : Compteurs)
                  (pagination : Pagination)
  | DonneesRecherche (taches : list TacheInstance)
  | DonneesListe (liste : option (string * Liste.t))
  | DonneesMessage (message : string).

(** [{ success: true, data }] or [{ success: false, error }] with the
    status code. *)
Inductive Reponse :=
  | Succes (status : Z) (data : Donnees)
  | Echec (status : Z) (error : string).

Definition status_de (r : Reponse) : Z :=
  match r with
  | Succes s _ => s
  | Echec s _ => s
  end.

(** Property names of the [data] object. *)
Definition cles (d : Donnees) : list string :=
  match d with
  | DonneesInscription _ => ["utilisateur"]
  | DonneesConnexion _ _ => ["token"; "utilisateur"]
  | DonneesProfil _ => ["utilisateur"]
  | DonneesTache _ => ["tache"]
  | DonneesTaches _ _ _ => ["taches"; "compteurs"; "pagination"]
  | DonneesRecherche _ => ["taches"]
  | DonneesListe _ => ["liste"]
  | DonneesMessage _ => ["message"]
  end.


Definition erreur_interne : Reponse := Echec 500 "Erreur interne du serveur.".

(** [res.status(400).json({ success: false, error: errors.array()[0].msg })] *)
Definition erreur_validation (erreurs : list string) : Reponse :=
  Echec 400 (hd "" erreurs).

(** ** JavaScript and SQL string operations *)

(** Truthiness of a value that is [undefined], [null] or a string. *)
Definition vrai (s : option string) : bool :=
  match s with
  | Some s => negb (String.eqb s "")
  | None => false
  end.

(** The strings of JavaScript are held here in UTF-8, as Rocq writes its
    strings: a character of the ASCII range is one byte, any other
    character two to four bytes of 128 and more.  A test for emptiness
    and a comparison of two strings read the same in either form; the
    number of characters does not, and is not taken from the bytes. *)
Definition octet (a : ascii) : nat := nat_of_ascii a.

(** White space and line terminators of ECMAScript, which
    [String.prototype.trim] and the class [\s] of a regular expression
    remove: U+0009 to U+000D and U+0020 on one byte; U+00A0 on two;
    U+1680, U+2000 to U+200A, U+2028, U+2029, U+202F, U+205F, U+3000 and
    U+FEFF on three. *)
Definition blanc1 (a : ascii) : bool :=
  let x := octet a in
  ((9 <=? x) && (x <=? 13))%nat || (x =? 32)%nat.

Definition blanc2 (a b : ascii) : bool :=
  ((octet a =? 194) && (octet b =? 160))%nat.

Definition blanc3 (a b c : ascii) : bool :=
  let x := octet a in
  let y := octet b in
  let z := octet c in
  (((x =? 225) && (y =? 154) && (z =? 128))
   || ((x =? 226) && (y =? 128)
       && (((128 <=? z) && (z <=? 138)) || (z =? 168) || (z =? 169) || (z =? 175)))
   || ((x =? 226) && (y =? 129) && (z =? 159))
   || ((x =? 227) && (y =? 128) && (z =? 128))
   || ((x =? 239) && (y =? 187) && (z =? 191)))%nat.

(** The string without the white space it starts with.  With [miroir] the
    string is read from its last byte to its first, and so are the bytes
    of a character. *)
Fixpoint sans_blancs (miroir : bool) (s : string) : string :=
  match s with
  | EmptyString => EmptyString
  | String a s1 =>
      if blanc1 a then sans_blancs miroir s1
      else
        match s1 with
        | EmptyString => s
        | String b s2 =>
            if (if miroir then blanc2 b a else blanc2 a b) then sans_blancs miroir s2
            else
              match s2 with
              | EmptyString => s
              | String c s3 =>
                  if (if miroir then blanc3 c b a else blanc3 a b c)
                  then sans_blancs miroir s3
                  else s
              end
        end
  end.

Definition trimStart (s : string) : string := sans_blancs false s.

Definition trimEnd (s : string) : string := String.rev (sans_blancs true (String.rev s)).

Definition trim (s : string) : string := trimEnd (trimStart s).

(** Lower case for the letters of the ASCII range. *)
Definition minuscule (c : ascii) : ascii :=
  let n := nat_of_ascii c in
  if ((65 <=? n) && (n <=? 90))%nat then ascii_of_nat (n + 32) else c.

Fixpoint minuscules (s : string) : string :=
  match s with
  | EmptyString => EmptyString
  | String c s' => String (minuscule c) (minuscules s')
  end.

(** [s.startsWith(k)] and [s.includes(k)], the plain reading of
    "s contains k". *)
Fixpoint commence_par (k s : string) : bool :=
  match k with
  | EmptyString => true
  | String c k' =>
      match s with
      | EmptyString => false
      | String d s' => Ascii.eqb c d && commence_par k' s'
      end
  end.

Fixpoint contient (k s : string) : bool :=
  commence_par k s ||
  match s with
  | EmptyString => false
  | String _ s' => contient k s'
  end.

(** ** Repositories (server/src/repositories) *)

Module utilisateurRepository.

(** [Utilisateur.findOne({ where: { email } })] *)
Definition trouverParEmail (email : string) (bd : BD) : option (string * Utilisateur.t) :=
  head (filter (λ p, Utilisateur.email p.2 = email) (map_to_list (utilisateurs bd))).

(** [Utilisateur.create(donnees)]: the primary key [id] and the creation
    date come from the column defaults; the insertion is refused ([None],
    an exception in the source) when the key or the unique [email] is
    already taken. *)
Definition creer (id : string) (maintenant : Z)
    (email nom_affichage mot_de_passe_hash : string) (bd : BD)
    : option (Utilisateur.t * BD) :=
  match utilisateurs bd !! id, trouverParEmail email bd with
  | None, None =>
      let u := Utilisateur.Build email nom_affichage mot_de_passe_hash
                 maintenant true 0 in
      Some (u, avec_utilisateurs (InsertUtilisateur id)
                 (<[id := u]> (utilisateurs bd)) bd)
  | _, _ => None
  end.

(** [Utilisateur.findByPk(id, { attributes: { exclude: [...] } })] *)
Definition trouverParId (id : string) (bd : BD) : option Profil :=
  u ← utilisateurs bd !! id;
  Some (MkProfil id (Utilisateur.email u) (Utilisateur.nom_affichage u)
          (Utilisateur.date_creation u) (Utilisateur.actif u)
          (Utilisateur.tentatives_echec u)).

Definition trouverParIdAvecMotDePasse (id : string) (bd : BD) : option Utilisateur.t :=
  utilisateurs bd !! id.

Definition mettreAJour (id nom_affichage : string) (bd : BD) : option Profil * BD :=
  let bd' :=
    avec_utilisateurs (UpdateUtilisateur id)
      (alter (λ u, Utilisateur.Build (Utilisateur.email u) nom_affichage
                     (Utilisateur.mot_de_passe_hash u)
                     (Utilisateur.date_creation u) (Utilisateur.actif u)
                     (Utilisateur.tentatives_echec u)) id (utilisateurs bd)) bd in
  (trouverParId id bd', bd').

Definition mettreAJourMotDePasse (id motDePasseHash : string) (bd : BD) : BD :=
  avec_utilisateurs (UpdateUtilisateur id)
    (alter (Utilisateur.avec_mot_de_passe_hash motDePasseHash) id (utilisateurs bd)) bd.

(** [Utilisateur.increment('tentatives_echec', { where: { id } })] *)
Definition incrementerTentativesEchec (id : string) (bd : BD) : BD :=
  avec_utilisateurs (UpdateUtilisateur id)
    (alter (λ u, Utilisateur.avec_tentatives_echec (Utilisateur.tentatives_echec u + 1) u)
       id (utilisateurs bd)) bd.

Definition reinitialiserTentativesEchec (id : string) (bd : BD) : BD :=
  avec_utilisateurs (UpdateUtilisateur id)
    (alter (Utilisateur.avec_tentatives_echec 0) id (utilisateurs bd)) bd.

End utilisateurRepository.

Module listeRepository.

(** [Liste.create(donnees)]; the foreign key [utilisateur_id] must name a
    stored user. *)
Definition creer (id : string) (donnees : Liste.t) (bd : BD) : option BD :=
  match listes bd !! id, utilisateurs bd !! Liste.utilisateur_id donnees with
  | None, Some _ =>
      Some (avec_listes (InsertListe id) (<[id := donnees]> (listes bd)) bd)
  | _, _ => None
  end.

Definition trouverParId (id : string) (bd : BD) : option Liste.t :=
  listes bd !! id.

(** The fields of a partial update of a list. *)
Record Donnees := MkDonnees {
  nom : option string;
  couleur : option string;
  ordre : option Z
}.

Definition appliquer (d : Donnees) (l : Liste.t) : Liste.t :=
  Liste.Build (default (Liste.nom l) (nom d)) (default (Liste.couleur l) (couleur d))
    (default (Liste.ordre l) (ordre d)) (Liste.utilisateur_id l).

Definition mettreAJour (id : string) (d : Donnees) (bd : BD) : option Liste.t * BD :=
  let bd' := avec_listes (UpdateListe id) (alter (appliquer d) id (listes bd)) bd in
  (trouverParId id bd', bd').

(** [Liste.destroy({ where: { id } })]; the foreign key of [taches] is
    declared [ON DELETE SET NULL]. *)
Definition supprimer (id : string) (bd : BD) : BD :=
  MkBD (utilisateurs bd) (delete id (listes bd))
    ((λ t, if decide (Tache.liste_id t = Some id)
           then Tache.avec_liste_id None t else t) <$> taches bd)
    (historique bd) (journal bd ++ [DeleteListe id]).

End listeRepository.

Module tacheRepository.

(** The row joined with [{ model: Liste, as: 'liste',
    attributes: ['id', 'nom', 'couleur'] }]. *)
Definition instance (bd : BD) (id : string) (t : Tache.t) : TacheInstance :=
  MkTacheInstance id t
    (l ← Tache.liste_id t;
     r ← listes bd !! l;
     Some (MkListeResume l (Liste.nom r) (Liste.couleur r))).

Definition instances (bd : BD) : list TacheInstance :=
  (λ p, instance bd p.1 p.2) <$> map_to_list (taches bd).

(** [Tache.create(donnees)]; the foreign key [utilisateur_id] must name a
    stored user. *)
Definition creer (id : string) (donnees : Tache.t) (bd : BD) : option BD :=
  match taches bd !! id, utilisateurs bd !! Tache.utilisateur_id donnees with
  | None, Some _ =>
      Some (avec_taches (InsertTache id) (<[id := donnees]> (taches bd)) bd)
  | _, _ => None
  end.

Definition trouverParId (id : string) (bd : BD) : option TacheInstance :=
  t ← taches bd !! id;
  Some (instance bd id t).

Record Options := MkOptions {
  page : Z;
  limit : Z;
  statut : option string;
  priorite : option string;
  liste_id : option string
}.

(** [if (f) where.colonne = f]: a filter that is absent or empty does not
    constrain the column. *)
Definition filtre (f : option string) (colonne : string → bool) : bool :=
  match f with
  | Some s => if vrai f then colonne s else true
  | None => true
  end.

Definition where_liste (utilisateurId : string) (o : Options) (i : TacheInstance) : bool :=
  let t := inst_ligne i in
  bool_decide (Tache.utilisateur_id t = utilisateurId)
  && filtre (statut o) (λ s, bool_decide (statut_nom (Tache.statut t) = s))
  && filtre (priorite o) (λ s, bool_decide (priorite_nom (Tache.priorite t) = s))
  && filtre (liste_id o) (λ s, bool_decide (Tache.liste_id t = Some s)).

(** Sort key of [date_echeance IS NULL ASC, date_echeance ASC,
    date_creation DESC]. *)
Definition cle_tri (t : Tache.t) : Z * Z * Z :=
  (if Tache.date_echeance t is Some _ then 0 else 1,
   default 0 (Tache.date_echeance t),
   - Tache.date_creation t).

Definition lex (a b : Z * Z * Z) : Prop :=
  a.1.1 < b.1.1
  ∨ (a.1.1 = b.1.1 ∧ (a.1.2 < b.1.2 ∨ (a.1.2 = b.1.2 ∧ a.2 ≤ b.2))).

Definition ordre_liste (a b : TacheInstance) : Prop :=
  lex (cle_tri (inst_ligne a)) (cle_tri (inst_ligne b)).

#[global] Instance ordre_liste_dec : RelDecision ordre_liste.
Proof. intros a b. unfold ordre_liste, lex. apply _. Defined.

(** The numbers of JavaScript are doubles.  [page] and [limit] come from
    [parseInt] and are integers that a double holds; a subtraction and a
    product give the double nearest to the exact result, the one with an
    even mantissa when two are as near.  Up to 2 ^ 53 every integer is a
    double. *)
Definition arrondi (z : Z) : Z :=
  let a := Z.abs z in
  if a <=? 2 ^ 53 then z
  else
    let pas := 2 ^ (Z.log2 a - 52) in
    let q := a / pas in
    let r := a mod pas in
    let q' :=
      if 2 * r <? pas then q
      else if pas <? 2 * r then q + 1
      else if Z.even q then q else q + 1 in
    Z.sgn z * (q' * pas).

(** What SQLite, the database of [config/database], takes after [LIMIT]:
    an integer of 64 bits.  Sequelize writes the number as JavaScript
    prints it, and SQLite reads a number that is not such an integer as
    a real and refuses it. *)
Definition entier_sqlite (z : Z) : bool := (- 2 ^ 63 <? z) && (z <? 2 ^ 63).

(** [Tache.findAndCountAll]: [count] is the number of rows that satisfy
    [where], [rows] the requested slice of them in order, written
    [LIMIT offset, limit].  For SQLite a negative [limit] is no limit and
    a negative [offset] is 0.  A table has fewer than 2 ^ 53 rows, so
    that [count] is exact and a limit or an offset beyond 2 ^ 53 is
    beyond the last row, as printed or as computed. *)
Definition listerParUtilisateur (utilisateurId : string) (o : Options) (bd : BD)
    : option (list TacheInstance * Z) :=
  let offset := arrondi (arrondi (page o - 1) * limit o) in
  let trouvees := filter (λ i, where_liste utilisateurId o i = true) (instances bd) in
  if entier_sqlite (limit o) && entier_sqlite offset then
    let suite := drop (Z.to_nat offset) (merge_sort ordre_liste trouvees) in
    Some (if limit o <? 0 then suite else take (Z.to_nat (limit o)) suite,
          Z.of_nat (length trouvees))
  else None.

(** The fields of a partial update of a task; [None] is a property that
    the object does not have. *)
Record Donnees := MkDonnees {
  titre : option string;
  description : option (option string);
  statut_maj : option Statut;
  priorite_maj : option Priorite;
  date_echeance : option (option Z);
  date_completion : option (option Z);
  liste_id_maj : option (option string)
}.

Definition appliquer (d : Donnees) (t : Tache.t) : Tache.t :=
  Tache.Build
    (default (Tache.titre t) (titre d))
    (default (Tache.description t) (description d))
    (default (Tache.statut t) (statut_maj d))
    (default (Tache.priorite t) (priorite_maj d))
    (default (Tache.date_echeance t) (date_echeance d))
    (Tache.date_creation t)
    (default (Tache.date_completion t) (date_completion d))
    (Tache.utilisateur_id t)
    (default (Tache.liste_id t) (liste_id_maj d)).

Definition mettreAJour (id : string) (d : Donnees) (bd : BD) : option TacheInstance * BD :=
  let bd' := avec_taches (UpdateTache id) (alter (appliquer d) id (taches bd)) bd in
  (trouverParId id bd', bd').

(** [Tache.destroy({ where: { id } })]; the foreign key of
    [historique_modifications] is declared [ON DELETE CASCADE]. *)
Definition supprimer (id : string) (bd : BD) : BD :=
  MkBD (utilisateurs bd) (listes bd) (delete id (taches bd))
    (filter (λ h, HistoriqueModification.tache_id h ≠ id) (historique bd))
    (journal bd ++ [DeleteTache id]).

(** [Tache.findAll] with [Op.iLike] on [titre] and on [description].
    Sequelize writes that operator [ILIKE] for every database; SQLite,
    the database of [config/database], has [LIKE] and no [ILIKE], refuses
    the statement with a syntax error whatever the tables hold, and the
    promise is rejected: [None]. *)
Definition rechercher (utilisateurId recherche : string) (bd : BD)
    : option (list TacheInstance) :=
  None.

(** [HistoriqueModification.create]; [date_modification] defaults to now. *)
Definition enregistrerHistorique (maintenant : Z) (tacheId : string)
    (ancienStatut nouveauStatut : Statut) (bd : BD) : BD :=
  MkBD (utilisateurs bd) (listes bd) (taches bd)
    (historique bd ++
       [HistoriqueModification.Build tacheId ancienStatut nouveauStatut maintenant])
    (journal bd ++ [InsertHistorique tacheId]).

(** [compteurs[t.statut]++] *)
Definition incrementer (c : Compteurs) (s : Statut) : Compteurs :=
  match s with
  | A_FAIRE => MkCompteurs (total c) (nb_A_FAIRE c + 1) (nb_EN_COURS c) (nb_TERMINEE c)
  | EN_COURS => MkCompteurs (total c) (nb_A_FAIRE c) (nb_EN_COURS c + 1) (nb_TERMINEE c)
  | TERMINEE => MkCompteurs (total c) (nb_A_FAIRE c) (nb_EN_COURS c) (nb_TERMINEE c + 1)
  end.

Definition compterParStatut (utilisateurId : string) (bd : BD) : Compteurs :=
  let taches :=
    filter (λ p, Tache.utilisateur_id p.2 = utilisateurId) (map_to_list (taches bd)) in
  foldl (λ c p, incrementer c (Tache.statut p.2))
    (MkCompteurs (Z.of_nat (length taches)) 0 0 0) taches.

(** [Tache.update({ liste_id: null }, { where: { liste_id: listeId } })] *)
Definition dissocierListe (listeId : string) (bd : BD) : BD :=
  avec_taches (UpdateTachesDeListe listeId)
    ((λ t, if decide (Tache.liste_id t = Some listeId)
           then Tache.avec_liste_id None t else t) <$> taches bd) bd.

End tacheRepository.

(** ** Controllers (server/src/controllers)

    [erreurs] is the outcome of [validationResult(req)], [moi] the
    [req.utilisateur.id] set by the authentication middleware, [uuid] the
    identifier drawn for a new row and [maintenant] the clock. *)

Module authController.
Section controleur.
Context `{!Externe}.

Definition register (erreurs : list string) (email mot_de_passe nom_affichage : string)
    (uuid sel : string) (maintenant : Z) (bd : BD) : Reponse * BD :=
  match erreurs with
  | _ :: _ => (erreur_validation erreurs, bd)
  | [] =>
      match utilisateurRepository.trouverParEmail email bd with
      | Some _ => (Echec 400 "Un compte avec cet email existe déjà.", bd)
      | None =>
          let motDePasseHash :=
            bcrypt_hash mot_de_passe appConfig.bcryptSaltRounds sel in
          match utilisateurRepository.creer uuid maintenant email nom_affichage
                  motDePasseHash bd with
          | None => (erreur_interne, bd)
          | Some (u, bd') =>
              (Succes 201
                 (DonneesInscription
                    (MkUtilisateurPublic uuid (Utilisateur.email u)
                       (Utilisateur.nom_affichage u) (Utilisateur.date_creation u))),
               bd')
          end
      end
  end.

Definition compte_verrouille : Reponse :=
  Echec 423
    "Compte verrouillé suite à trop de tentatives échouées. Contactez un administrateur.".

Definition identifiants_invalides : Reponse := Echec 401 "Identifiants invalides.".

Definition login (erreurs : list string) (email mot_de_passe : string)
    (maintenant : Z) (bd : BD) : Reponse * BD :=
  match erreurs with
  | _ :: _ => (erreur_validation erreurs, bd)
  | [] =>
      match utilisateurRepository.trouverParEmail email bd with
      | None => (identifiants_invalides, bd)
      | Some (id, utilisateur) =>
          if bool_decide (appConfig.maxLoginAttempts ≤ Utilisateur.tentatives_echec utilisateur)
          then (compte_verrouille, bd)
          else if negb (bcrypt_compare mot_de_passe (Utilisateur.mot_de_passe_hash utilisateur))
          then
            let bd1 := utilisateurRepository.incrementerTentativesEchec id bd in
            (* utilisateur.reload() *)
            match utilisateurs bd1 !! id with
            | None => (erreur_interne, bd1)
            | Some recharge =>
                if bool_decide (appConfig.maxLoginAttempts ≤ Utilisateur.tentatives_echec recharge)
                then (compte_verrouille, bd1)
                else (identifiants_invalides, bd1)
            end
          else
            let bd2 := utilisateurRepository.reinitialiserTentativesEchec id bd in
            let token :=
              jwt_sign id (Utilisateur.email utilisateur) jwtSecret
                appConfig.jwtExpiration maintenant in
            (Succes 200
               (DonneesConnexion token
                  (MkUtilisateurPublic id (Utilisateur.email utilisateur)
                     (Utilisateur.nom_affichage utilisateur)
                     (Utilisateur.date_creation utilisateur))),
             bd2)
      end
  end.

Definition updateProfil (erreurs : list string) (moi nom_affichage : string) (bd : BD)
    : Reponse * BD :=
  match erreurs with
  | _ :: _ => (erreur_validation erreurs, bd)
  | [] =>
      let '(utilisateur, bd') := utilisateurRepository.mettreAJour moi nom_affichage bd in
      (Succes 200 (DonneesProfil utilisateur), bd')
  end.

Definition changePassword (erreurs : list string)
    (moi ancien_mot_de_passe nouveau_mot_de_passe sel : string) (bd : BD)
    : Reponse * BD :=
  match erreurs with
  | _ :: _ => (erreur_validation erreurs, bd)
  | [] =>
      match utilisateurRepository.trouverParIdAvecMotDePasse moi bd with
      | None => (Echec 404 "Utilisateur non trouvé.", bd)
      | Some utilisateur =>
          if negb (bcrypt_compare ancien_mot_de_passe
                     (Utilisateur.mot_de_passe_hash utilisateur))
          then (Echec 400 "L'ancien mot de passe est incorrect.", bd)
          else
            let nouveauHash :=
              bcrypt_hash nouveau_mot_de_passe appConfig.bcryptSaltRounds sel in
            (Succes 200 (DonneesMessage "Mot de passe modifié avec succès."),
             utilisateurRepository.mettreAJourMotDePasse moi nouveauHash bd)
      end
  end.

(** [POST /api/auth/register] (routes/authRoutes): the validators and
    sanitizers of the route run on the body, then the controller.
    [isEmail], [normalizeEmail] and [isLength] are those of
    express-validator, [isLength s min max] being
    [isLength({ min, max })] on [s]; its [trim] removes the white space
    of [\s], as [String.prototype.trim] does. *)
Definition post_register (isEmail : string → bool) (normalizeEmail : string → string)
    (isLength : string → nat → option nat → bool)
    (email mot_de_passe nom_affichage : string)
    (uuid sel : string) (maintenant : Z) (bd : BD) : Reponse * BD :=
  let nom := trim nom_affichage in
  let erreurs :=
    ((if isEmail email then [] else ["L'email doit être valide."])
     ++ (if isLength mot_de_passe 6%nat None then []
         else ["Le mot de passe doit contenir au moins 6 caractères."])
     ++ (if isLength nom 1%nat (Some 100%nat) then []
         else ["Le nom d'affichage est requis (1-100 caractères)."]))%list in
  register erreurs (normalizeEmail email) mot_de_passe nom uuid sel maintenant bd.

End controleur.
End authController.

Module taskController.

(** Body of [POST /api/taches]; [autres] holds every other property the
    client sent, such as a [statut]. *)
Record CorpsCreation := MkCorpsCreation {
  titre : string;
  description : option string;
  priorite : option Priorite;
  date_echeance : option Z;
  liste_id : option string;
  autres : list (string * string)
}.

(** [x || null] on a value that is [undefined], [null] or a string. *)
Definition ou_null (s : option string) : option string :=
  if vrai s then s else None.

Definition liste_refusee : Reponse := Echec 403 "Liste non trouvée ou non autorisée.".

(** [!liste || liste.utilisateur_id !== req.utilisateur.id] *)
Definition liste_interdite (moi liste_id : string) (bd : BD) : bool :=
  match listeRepository.trouverParId liste_id bd with
  | None => true
  | Some liste => negb (bool_decide (Liste.utilisateur_id liste = moi))
  end.

Definition creerTache (erreurs : list string) (moi : string) (corps : CorpsCreation)
    (uuid : string) (maintenant : Z) (bd : BD) : Reponse * BD :=
  match erreurs with
  | _ :: _ => (erreur_validation erreurs, bd)
  | [] =>
      if vrai (liste_id corps)
         && liste_interdite moi (default "" (liste_id corps)) bd
      then (liste_refusee, bd)
      else
        match tacheRepository.creer uuid
                (Tache.Build (titre corps) (ou_null (description corps)) A_FAIRE
                   (default MOYENNE (priorite corps)) (date_echeance corps)
                   maintenant None moi (ou_null (liste_id corps))) bd with
        | None => (erreur_interne, bd)
        | Some bd' =>
            (Succes 201 (DonneesTache (tacheRepository.trouverParId uuid bd')), bd')
        end
  end.

(** Query of [GET /api/taches]; [page] and [limit] are the results of
    [parseInt], [None] standing for [NaN]. *)
Record RequeteListe := MkRequeteListe {
  q_page : option Z;
  q_limit : option Z;
  q_statut : option string;
  q_priorite : option string;
  q_liste_id : option string
}.

(** [n || d] on a number. *)
Definition ou_defaut (n : option Z) (d : Z) : Z :=
  match n with
  | Some n => if n =? 0 then d else n
  | None => d
  end.

(** [Math.ceil(total / limit)].  The quotient is a double; for a count
    under 2 ^ 53 and a page size that SQLite accepts, its ceiling is the
    ceiling of the exact quotient. *)
Definition plafond_quotient (total limit : Z) : Z := - ((- total) / limit).

Definition listerTaches (moi : string) (q : RequeteListe) (bd : BD) : Reponse * BD :=
  let page := ou_defaut (q_page q) appConfig.defaultPage in
  let limit := ou_defaut (q_limit q) appConfig.defaultPageLimit in
  match tacheRepository.listerParUtilisateur moi
          (tacheRepository.MkOptions page limit (q_statut q) (q_priorite q)
             (q_liste_id q)) bd with
  | None => (erreur_interne, bd)
  | Some (taches, total) =>
      let compteurs := tacheRepository.compterParStatut moi bd in
      (Succes 200
         (DonneesTaches taches compteurs
            (MkPagination page limit total (plafond_quotient total limit))),
       bd)
  end.

Definition tache_introuvable : Reponse := Echec 404 "Tâche non trouvée.".
Definition tache_interdite : Reponse := Echec 403 "Accès non autorisé à cette tâche.".

Definition detailTache (moi id : string) (bd : BD) : Reponse * BD :=
  match tacheRepository.trouverParId id bd with
  | None => (tache_introuvable, bd)
  | Some tache =>
      if negb (bool_decide (Tache.utilisateur_id (inst_ligne tache) = moi))
      then (tache_interdite, bd)
      else (Succes 200 (DonneesTache (Some tache)), bd)
  end.

(** Body of [PATCH /api/taches/:id]; the outer [None] is [undefined], an
    inner [None] is [null]. *)
Record CorpsModification := MkCorpsModification {
  m_titre : option string;
  m_description : option (option string);
  m_statut : option Statut;
  m_priorite : option Priorite;
  m_date_echeance : option (option Z);
  m_liste_id : option (option string)
}.

Definition modifierTache (erreurs : list string) (moi id : string)
    (corps : CorpsModification) (maintenant : Z) (bd : BD) : Reponse * BD :=
  match erreurs with
  | _ :: _ => (erreur_validation erreurs, bd)
  | [] =>
      match tacheRepository.trouverParId id bd with
      | None => (tache_introuvable, bd)
      | Some tache =>
          let ligne := inst_ligne tache in
          if negb (bool_decide (Tache.utilisateur_id ligne = moi))
          then (tache_interdite, bd)
          else
            let refus :=
              match m_liste_id corps with
              | Some (Some l) => liste_interdite moi l bd
              | _ => false
              end in
            if refus then (liste_refusee, bd)
            else
              let donneesMAJ :=
                tacheRepository.MkDonnees (m_titre corps) (m_description corps) None
                  (m_priorite corps) (m_date_echeance corps) None (m_liste_id corps) in
              let '(donneesMAJ, bd1) :=
                match m_statut corps with
                | Some statut =>
                    if bool_decide (statut ≠ Tache.statut ligne) then
                      (tacheRepository.MkDonnees (m_titre corps) (m_description corps)
                         (Some statut) (m_priorite corps) (m_date_echeance corps)
                         (if bool_decide (statut = TERMINEE) then Some (Some maintenant)
                          else if bool_decide (Tache.statut ligne = TERMINEE)
                               then Some None else None)
                         (m_liste_id corps),
                       tacheRepository.enregistrerHistorique maintenant (inst_id tache)
                         (Tache.statut ligne) statut bd)
                    else (donneesMAJ, bd)
                | None => (donneesMAJ, bd)
                end in
              let '(tacheMAJ, bd2) := tacheRepository.mettreAJour id donneesMAJ bd1 in
              (Succes 200 (DonneesTache tacheMAJ), bd2)
      end
  end.

Definition supprimerTache (moi id : string) (bd : BD) : Reponse * BD :=
  match tacheRepository.trouverParId id bd with
  | None => (tache_introuvable, bd)
  | Some tache =>
      if negb (bool_decide (Tache.utilisateur_id (inst_ligne tache) = moi))
      then (tache_interdite, bd)
      else (Succes 200 (DonneesMessage "Tâche supprimée avec succès."),
            tacheRepository.supprimer id bd)
  end.

Definition guillemet : string := String (ascii_of_nat 34) EmptyString.

Definition recherche_requise : Reponse :=
  Echec 400
    ("Le paramètre de recherche " +:+ guillemet +:+ "q" +:+ guillemet +:+ " est requis.").

Definition rechercher (moi : string) (q : option string) (bd : BD) : Reponse * BD :=
  if negb (vrai q) || (String.length (trim (default "" q)) =? 0)%nat
  then (recherche_requise, bd)
  else
    match tacheRepository.rechercher moi (trim (default "" q)) bd with
    | Some taches => (Succes 200 (DonneesRecherche taches), bd)
    | None => (erreur_interne, bd)
    end.

Definition creerListe (erreurs : list string) (moi nom : string)
    (couleur : option string) (ordre : option Z) (uuid : string) (bd : BD)
    : Reponse * BD :=
  match erreurs with
  | _ :: _ => (erreur_validation erreurs, bd)
  | [] =>
      let liste :=
        Liste.Build nom (if vrai couleur then default "" couleur else "#3B82F6")
          (ou_defaut ordre 0) moi in
      match listeRepository.creer uuid liste bd with
      | None => (erreur_interne, bd)
      | Some bd' => (Succes 201 (DonneesListe (Some (uuid, liste))), bd')
      end
  end.

Definition liste_introuvable : Reponse := Echec 404 "Liste non trouvée.".
Definition liste_non_autorisee : Reponse := Echec 403 "Accès non autorisé à cette liste.".

Definition modifierListe (erreurs : list string) (moi id : string)
    (corps : listeRepository.Donnees) (bd : BD) : Reponse * BD :=
  match erreurs with
  | _ :: _ => (erreur_validation erreurs, bd)
  | [] =>
      match listeRepository.trouverParId id bd with
      | None => (liste_introuvable, bd)
      | Some liste =>
          if negb (bool_decide (Liste.utilisateur_id liste = moi))
          then (liste_non_autorisee, bd)
          else
            let '(listeMAJ, bd') := listeRepository.mettreAJour id corps bd in
            (Succes 200 (DonneesListe (pair id <$> listeMAJ)), bd')
      end
  end.

Definition supprimerListe (moi id : string) (bd : BD) : Reponse * BD :=
  match listeRepository.trouverParId id bd with
  | None => (liste_introuvable, bd)
  | Some liste =>
      if negb (bool_decide (Liste.utilisateur_id liste = moi))
      then (liste_non_autorisee, bd)
      else
        let bd1 := tacheRepository.dissocierListe id bd in
        let bd2 := listeRepository.supprimer id bd1 in
        (Succes 200 (DonneesMessage "Liste supprimée avec succès."), bd2)
  end.

End taskController.

(** ** Requests as data

    One constructor per handler that takes part in the claims below or
    writes to the database; [getProfil] and [listerListes], the two
    handlers left, only read. *)
Inductive Operation :=
  | OpRegister (erreurs : list string) (email mot_de_passe nom_affichage : string)
               (uuid sel : string) (maintenant : Z)
  | OpLogin (erreurs : list string) (email mot_de_passe : string) (maintenant : Z)
  | OpUpdateProfil (erreurs : list string) (moi nom_affichage : string)
  | OpChangePassword (erreurs : list string) (moi ancien nouveau sel : string)
  | OpCreerTache (erreurs : list string) (moi : string)
                 (corps : taskController.CorpsCreation) (uuid : string) (maintenant : Z)
  | OpListerTaches (moi : string) (q : taskController.RequeteListe)
  | OpDetailTache (moi id : string)
  | OpModifierTache (erreurs : list string) (moi id : string)
                    (corps : taskController.CorpsModification) (maintenant : Z)
  | OpSupprimerTache (moi id : string)
  | OpRechercher (moi : string) (q : option string)
  | OpCreerListe (erreurs : list string) (moi nom : string) (couleur : option string)
                 (ordre : option Z) (uuid : string)
  | OpModifierListe (erreurs : list string) (moi id : string)
                    (corps : listeRepository.Donnees)
  | OpSupprimerListe (moi id : string).

Definition executer `{!Externe} (op : Operation) (bd : BD) : Reponse * BD :=
  match op with
  | OpRegister e email mdp nom uuid sel t =>
      authController.register e email mdp nom uuid sel t bd
  | OpLogin e email mdp t => authController.login e email mdp t bd
  | OpUpdateProfil e moi nom => authController.updateProfil e moi nom bd
  | OpChangePassword e moi ancien nouveau sel =>
      authController.changePassword e moi ancien nouveau sel bd
  | OpCreerTache e moi corps uuid t => taskController.creerTache e moi corps uuid t bd
  | OpListerTaches moi q => taskController.listerTaches moi q bd
  | OpDetailTache moi id => taskController.detailTache moi id bd
  | OpModifierTache e moi id corps t => taskController.modifierTache e moi id corps t bd
  | OpSupprimerTache moi id => taskController.supprimerTache moi id bd
  | OpRechercher moi q => taskController.rechercher moi q bd
  | OpCreerListe e moi nom couleur ordre uuid =>
      taskController.creerListe e moi nom couleur ordre uuid bd
  | OpModifierListe e moi id corps => taskController.modifierListe e moi id corps bd
  | OpSupprimerListe moi id => taskController.supprimerListe moi id bd
  end.

(** The database after a sequence of requests. *)
Definition derouler `{!Externe} (ops : list Operation) (bd : BD) : BD :=
  foldl (λ bd op, (executer op bd).2) bd ops.

(** ** Invariants of the database *)

(** The unique index on [utilisateurs.email]. *)
Definition email_unique (bd : BD) : Prop :=
  ∀ i j u v,
    utilisateurs bd !! i = Some u → utilisateurs bd !! j = Some v →
    Utilisateur.email u = Utilisateur.email v → i = j.

(** [date_completion] is set exactly on the tasks that are [TERMINEE]. *)
Definition completion_coherente (t : Tache.t) : Prop :=
  Tache.date_completion t ≠ None ↔ Tache.statut t = TERMINEE.

Definition invariant_completion (bd : BD) : Prop :=
  ∀ id t, taches bd !! id = Some t → completion_coherente t.

(** ** Stand-ins for the external collaborators, for closed examples *)

Definition externe_essai : Externe := {|
  bcrypt_hash data rounds sel := sel +:+ "$" +:+ data;
  bcrypt_compare data hash :=
    commence_par (String.rev ("$" +:+ data)) (String.rev hash);
  jwtSecret := "secret"
|}.

Definition alice : Utilisateur.t :=
  Utilisateur.Build "a@x.com" "Alice" "sel$secret1" 1000 true 0.

Definition bob : Utilisateur.t :=
  Utilisateur.Build "b@x.com" "Bob" "sel$secret2" 1001 true 0.

Definition bd_essai : BD :=
  MkBD {[ "u1" := alice; "u2" := bob ]}
       {[ "l1" := Liste.Build "Work" "#FF0000" 0 "u1" ]}
       {[ "t1" := Tache.Build "Buy milk" None A_FAIRE MOYENNE (Some 19723) 2000 None
                    "u1" (Some "l1");
          "t2" := Tache.Build "abc" (Some "Call Bob") TERMINEE HAUTE None 2001
                    (Some 2500) "u1" (Some "l1");
          "t3" := Tache.Build "Pay rent" None EN_COURS BASSE (Some 19754) 2002 None
                    "u2" None ]}
       [] [].

(** ** Notions used by the statements *)

(** The rule of the claim for a resource whose stored owner is
    [proprietaire] ([None] when the resource is not stored): [introuvable]
    is answered exactly when it is missing, [interdit] exactly when it is
    there and owned by somebody else. *)
Definition existence_puis_propriete (rep introuvable interdit : Reponse)
    (proprietaire : option string) (moi : string) : Prop :=
  (rep = introuvable ↔ proprietaire = None)
  ∧ (rep = interdit ↔ ∃ o, proprietaire = Some o ∧ o ≠ moi).

Definition proprietaire_tache (id : string) (bd : BD) : option string :=
  Tache.utilisateur_id <$> taches bd !! id.

Definition proprietaire_liste (id : string) (bd : BD) : option string :=
  Liste.utilisateur_id <$> listes bd !! id.

(** The list named [l] is stored and belongs to [moi]. *)
Definition liste_de (moi l : string) (bd : BD) : Prop :=
  ∃ r, listes bd !! l = Some r ∧ Liste.utilisateur_id r = moi.

(** The list that a partial update asks for, if any. *)
Definition liste_demandee (corps : taskController.CorpsModification) : option string :=
  match taskController.m_liste_id corps with
  | Some (Some l) => Some l
  | _ => None
  end.

(** The list that a creation asks for, if any. *)
Definition liste_fournie (corps : taskController.CorpsCreation) : option string :=
  if vrai (taskController.liste_id corps) then taskController.liste_id corps else None.

(** The object [donneesMAJ] that [modifierTache] has built, when it calls
    [mettreAJour], for a body [corps] and the stored row [x]. *)
Definition donneesMAJ_de (corps : taskController.CorpsModification) (maintenant : Z)
    (x : Tache.t) : tacheRepository.Donnees :=
  match taskController.m_statut corps with
  | Some statut =>
      if bool_decide (statut ≠ Tache.statut x) then
        tacheRepository.MkDonnees (taskController.m_titre corps)
          (taskController.m_description corps) (Some statut)
          (taskController.m_priorite corps) (taskController.m_date_echeance corps)
          (if bool_decide (statut = TERMINEE) then Some (Some maintenant)
           else if bool_decide (Tache.statut x = TERMINEE) then Some None else None)
          (taskController.m_liste_id corps)
      else
        tacheRepository.MkDonnees (taskController.m_titre corps)
          (taskController.m_description corps) None
          (taskController.m_priorite corps) (taskController.m_date_echeance corps)
          None (taskController.m_liste_id corps)
  | None =>
      tacheRepository.MkDonnees (taskController.m_titre corps)
        (taskController.m_description corps) None
        (taskController.m_priorite corps) (taskController.m_date_echeance corps)
        None (taskController.m_liste_id corps)
  end.

(** The status change that a body asks of the stored row [x], if any. *)
Definition changement_statut (corps : taskController.CorpsModification) (x : Tache.t)
    : option (Statut * Statut) :=
  match taskController.m_statut corps with
  | Some statut =>
      if bool_decide (statut ≠ Tache.statut x) then Some (Tache.statut x, statut)
      else None
  | None => None
  end.

(** The request is one that [modifierTache] carries out: it passed
    validation, the task [id] is stored as [x] and owned by the requester,
    and the list it names, if any, is the requester's. *)
Definition modification_acceptee (erreurs : list string) (moi id : string)
    (corps : taskController.CorpsModification) (bd : BD) (x : Tache.t) : Prop :=
  erreurs = [] ∧ taches bd !! id = Some x ∧ Tache.utilisateur_id x = moi
  ∧ ∀ l, liste_demandee corps = Some l → liste_de moi l bd.

(** Stand-ins for the validators of express-validator.  Its
    [normalizeEmail], with the default options, puts the whole address in
    lower case; what it also does to the addresses of some mail providers
    plays no part here.  Its [isLength] counts characters, here the bytes
    that start one. *)
Definition isEmail_essai (s : string) : bool := contient "@" s.

Definition normalizeEmail_essai (s : string) : string := minuscules s.

Fixpoint caracteres (s : string) : nat :=
  match s with
  | EmptyString => 0%nat
  | String a s' =>
      ((if (128 <=? octet a) && (octet a <? 192) then 0 else 1) + caracteres s')%nat
  end.

Definition isLength_essai (s : string) (min : nat) (max : option nat) : bool :=
  ((min <=? caracteres s)
   && match max with
      | Some m => caracteres s <=? m
      | None => true
      end)%nat.

(** The order of the claim on ListTasks: [a] may come before [b] when [b]
    has no due date or both have one and that of [a] is not the later, and,
    the due dates being the same (or both absent), [a] was not created
    before [b]. *)
Definition ordre_attendu (a b : Tache.t) : Prop :=
  (Tache.date_echeance b ≠ None → Tache.date_echeance a ≠ None)
  ∧ (∀ da db, Tache.date_echeance a = Some da → Tache.date_echeance b = Some db → da ≤ db)
  ∧ (Tache.date_echeance a = Tache.date_echeance b →
     Tache.date_creation b ≤ Tache.date_creation a).

(** The page and the page size that [listerTaches] uses for a query. *)
Definition page_de (q : taskController.RequeteListe) : Z :=
  taskController.ou_defaut (taskController.q_page q) 1.

Definition limit_de (q : taskController.RequeteListe) : Z :=
  taskController.ou_defaut (taskController.q_limit q) 20.

(** Due 2024-01-01, due 2024-02-01, and two tasks without due date. *)
Definition bd_tri : BD :=
  MkBD {[ "u1" := alice ]} ∅
       {[ "t1" := Tache.Build "sans date, ancienne" None A_FAIRE MOYENNE None 100 None
                    "u1" None;
          "t2" := Tache.Build "fevrier" None A_FAIRE MOYENNE (Some 19754) 200 None
                    "u1" None;
          "t3" := Tache.Build "sans date, recente" None EN_COURS MOYENNE None 300 None
                    "u1" None;
          "t4" := Tache.Build "janvier" None TERMINEE MOYENNE (Some 19723) 400 (Some 500)
                    "u1" None ]}
       [] [].

(** The tasks that [moi] owns. *)
Definition possedees (moi : string) (bd : BD) : list (string * Tache.t) :=
  filter (λ p, Tache.utilisateur_id p.2 = moi) (map_to_list (taches bd)).

(** How many of them have status [s]. *)
Definition nombre_avec_statut (s : Statut) (moi : string) (bd : BD) : Z :=
  Z.of_nat (length (filter (λ p, Tache.statut p.2 = s) (possedees moi bd))).

(** A filter of the query holds of the value [v] of a column: it is
    absent, empty, or equal to [v]. *)
Definition filtre_satisfait {V} (f : option string) (v : V) (nom : V → option string) : Prop :=
  match f with
  | Some s => s = "" ∨ nom v = Some s
  | None => True
  end.

#[global] Instance filtre_satisfait_dec {V} f (v : V) nom : Decision (filtre_satisfait f v nom).
Proof. unfold filtre_satisfait. destruct f; apply _. Defined.

(** The task is owned by [moi] and satisfies every filter of the query. *)
Definition correspond (moi : string) (q : taskController.RequeteListe) (t : Tache.t) : Prop :=
  Tache.utilisateur_id t = moi
  ∧ filtre_satisfait (taskController.q_statut q) (Tache.statut t) (λ s, Some (statut_nom s))
  ∧ filtre_satisfait (taskController.q_priorite q) (Tache.priorite t)
      (λ p, Some (priorite_nom p))
  ∧ filtre_satisfait (taskController.q_liste_id q) (Tache.liste_id t) (λ l, l).

#[global] Instance correspond_dec moi q t : Decision (correspond moi q t).
Proof. unfold correspond. apply _. Defined.

(** How many stored tasks match the query. *)
Definition nombre_correspondant (moi : string) (q : taskController.RequeteListe) (bd : BD) : Z :=
  Z.of_nat (length (filter (λ p, correspond moi q p.2) (map_to_list (taches bd)))).

(** The offset that [listerParUtilisateur] computes for a query. *)
Definition offset_de (q : taskController.RequeteListe) : Z :=
  tacheRepository.arrondi (tacheRepository.arrondi (page_de q - 1) * limit_de q).

(** The title or the description of the task contains the keyword. *)
Definition mentionne (k : string) (t : Tache.t) : Prop :=
  contient k (Tache.titre t) = true
  ∨ ∃ d, Tache.description t = Some d ∧ contient k d = true.

(** ** The rest of the authentication layer *)

Module authProfil.

(** [AuthController.getProfil] *)
Definition getProfil (moi : string) (bd : BD) : Reponse * BD :=
  match utilisateurRepository.trouverParId moi bd with
  | None => (Echec 404 "Utilisateur non trouvé.", bd)
  | Some utilisateur => (Succes 200 (DonneesProfil (Some utilisateur)), bd)
  end.

End authProfil.

Module authRoutes.


End authRoutes.

Module authMiddleware.

(** What [jwt.verify(token, secret)] does: it returns the decoded payload
    or throws [TokenExpiredError], [JsonWebTokenError] or something
    else. *)
Inductive Verdict :=
  | Valide (id email : string)
  | TokenExpiredError
  | JsonWebTokenError
  | AutreErreur.

(** The middleware calls [next()] with [req.utilisateur] set, or answers. *)
Inductive Passage :=
  | Suivant (id email : string)
  | Refus (r : Reponse).

(** The characters of [s] before its first space. *)
Fixpoint avant_espace (s : string) : string :=
  match s with
  | EmptyString => EmptyString
  | String c s' => if Ascii.eqb c " " then EmptyString else String c (avant_espace s')
  end.

(** The characters of [s] after its first space, if it has one. *)
Fixpoint apres_espace (s : string) : option string :=
  match s with
  | EmptyString => None
  | String c s' => if Ascii.eqb c " " then Some s' else apres_espace s'
  end.

(** [s.split(' ')[1]] *)
Definition deuxieme_segment (s : string) : option string :=
  avant_espace <$> apres_espace s.

Definition authMiddleware `{!Externe} (jwt_verify : string → string → Verdict)
    (authorization : option string) : Passage :=
  if negb (vrai authorization)
     || negb (commence_par "Bearer " (default "" authorization))
  then Refus (Echec 401 "Token d'authentification manquant ou invalide.")
  else
    match deuxieme_segment (default "" authorization) with
    | None => Refus (Echec 401 "Token invalide.")
    | Some token =>
        match jwt_verify token jwtSecret with
        | Valide id email => Suivant id email
        | TokenExpiredError => Refus (Echec 401 "Le token a expiré. Veuillez vous reconnecter.")
        | JsonWebTokenError => Refus (Echec 401 "Token invalide.")
        | AutreErreur => Refus (Echec 500 "Erreur lors de la vérification du token.")
        end
    end.

End authMiddleware.

(** ** Notions used by the further statements *)

(** One request takes the users table from [m] to [m']: it leaves it as
    it is, adds one user under a fresh key with an email nobody has and
    a counter at 0, or rewrites one user, keeping the email and either
    keeping the counter or, the counter being under 3, adding one to it
    or setting it to 0. *)
Definition evolution_utilisateurs (m m' : gmap string Utilisateur.t) : Prop :=
  m' = m
  ∨ (∃ id u, m !! id = None
             ∧ (∀ j v, m !! j = Some v → Utilisateur.email v ≠ Utilisateur.email u)
             ∧ Utilisateur.tentatives_echec u = 0
             ∧ m' = <[id := u]> m)
  ∨ (∃ id u u', m !! id = Some u
                ∧ Utilisateur.email u' = Utilisateur.email u
                ∧ (Utilisateur.tentatives_echec u' = Utilisateur.tentatives_echec u
                   ∨ (Utilisateur.tentatives_echec u < 3
                      ∧ (Utilisateur.tentatives_echec u'
                         = Utilisateur.tentatives_echec u + 1
                         ∨ Utilisateur.tentatives_echec u' = 0)))
                ∧ m' = <[id := u']> m).

(** Every failed-login counter is between 0 and 3. *)
Definition compteurs_bornes (bd : BD) : Prop :=
  ∀ id u, utilisateurs bd !! id = Some u → 0 ≤ Utilisateur.tentatives_echec u ≤ 3.

(** Alice after three wrong passwords. *)
Definition bd_verrou : BD :=
  MkBD {[ "u1" := Utilisateur.Build "a@x.com" "Alice" "sel$secret1" 1000 true 3 ]}
       ∅ ∅ [] [].

(** Every task that names a list names a stored list of its own owner. *)
Definition reference_coherente (bd : BD) : Prop :=
  ∀ id x l,
    taches bd !! id = Some x → Tache.liste_id x = Some l →
    ∃ r, listes bd !! l = Some r ∧ Liste.utilisateur_id r = Tache.utilisateur_id x.

(** The authenticated user on whose behalf a request is executed;
    registration and login have none. *)
Definition demandeur (op : Operation) : option string :=
  match op with
  | OpRegister _ _ _ _ _ _ _ => None
  | OpLogin _ _ _ _ => None
  | OpUpdateProfil _ moi _ => Some moi
  | OpChangePassword _ moi _ _ _ => Some moi
  | OpCreerTache _ moi _ _ _ => Some moi
  | OpListerTaches moi _ => Some moi
  | OpDetailTache moi _ => Some moi
  | OpModifierTache _ moi _ _ _ => Some moi
  | OpSupprimerTache moi _ => Some moi
  | OpRechercher moi _ => Some moi
  | OpCreerListe _ moi _ _ _ _ => Some moi
  | OpModifierListe _ moi _ _ => Some moi
  | OpSupprimerListe moi _ => Some moi
  end.

(** The status that the history gives the task [id]: the new status of
    its last entry, [A_FAIRE] when it has none. *)
Definition rejouer (id : string) (h : list HistoriqueModification.t) : Statut :=
  foldl (λ s e, if decide (HistoriqueModification.tache_id e = id)
                then HistoriqueModification.nouveau_statut e else s)
    A_FAIRE h.

(** The history tells the statuses: every entry is about a stored task and
    records a real change, from the status that the entries before it give
    that task; and the status of every stored task is the one that the
    whole history gives it. *)
Definition historique_fidele (bd : BD) : Prop :=
  (∀ (i : nat) e,
     historique bd !! i = Some e →
     is_Some (taches bd !! HistoriqueModification.tache_id e)
     ∧ HistoriqueModification.ancien_statut e ≠ HistoriqueModification.nouveau_statut e
     ∧ HistoriqueModification.ancien_statut e
       = rejouer (HistoriqueModification.tache_id e) (take i (historique bd)))
  ∧ (∀ id x, taches bd !! id = Some x → rejouer id (historique bd) = Tache.statut x).

(** The counter of a status in the object of [compterParStatut]. *)
Definition compte_de (c : Compteurs) (s : Statut) : Z :=
  match s with
  | A_FAIRE => nb_A_FAIRE c
  | EN_COURS => nb_EN_COURS c
  | TERMINEE => nb_TERMINEE c
  end.

(** 1 if the statuses are the same, 0 otherwise. *)
Definition un_si (s s' : Statut) : Z := if decide (s = s') then 1 else 0.

(** How many rows of a tasks table satisfy [P]. *)
Definition nombre (P : string * Tache.t → Prop) `{!∀ p, Decision (P p)}
    (m : gmap string Tache.t) : Z :=
  Z.of_nat (length (filter P (map_to_list m))).

(** What the row under the key [i], if there is one, adds to that
    number. *)
Definition poids (P : string * Tache.t → Prop) `{!∀ p, Decision (P p)}
    (i : string) (x : option Tache.t) : Z :=
  match x with
  | Some x => if decide (P (i, x)) then 1 else 0
  | None => 0
  end.

(** What a row, if there is one, adds to the counter [total] of [qui], and
    to the counter of the status [s] of [qui]. *)
Definition part_total (qui : string) (x : option Tache.t) : Z :=
  match x with
  | Some x => if decide (Tache.utilisateur_id x = qui) then 1 else 0
  | None => 0
  end.

Definition part_statut (qui : string) (s : Statut) (x : option Tache.t) : Z :=
  match x with
  | Some x => if decide (Tache.utilisateur_id x = qui) then un_si (Tache.statut x) s else 0
  | None => 0
  end.

(** * Properties *)

(** ** Tables *)

Lemma alter_lookup_Some {A} (f : A → A) (m : gmap string A) i x :
  m !! i = Some x → alter f i m = <[i := f x]> m.
Proof.
  intros Hx. apply map_eq. intros j.
  rewrite lookup_alter, lookup_insert.
  destruct (decide (i = j)) as [->|]; [by rewrite Hx|done].
Qed.

Lemma alter_lookup_None {A} (f : A → A) (m : gmap string A) i :
  m !! i = None → alter f i m = m.
Proof.
  intros Hx. apply map_eq. intros j.
  rewrite lookup_alter.
  destruct (decide (i = j)) as [->|]; [by rewrite Hx|done].
Qed.

(** ** Looking a user up by email *)

Lemma trouverParEmail_Some email bd id u :
  utilisateurRepository.trouverParEmail email bd = Some (id, u) →
  utilisateurs bd !! id = Some u ∧ Utilisateur.email u = email.
Proof.
  unfold utilisateurRepository.trouverParEmail. intros Hh.
  apply head_Some_elem_of in Hh.
  apply list_elem_of_filter in Hh as [He Hin].
  by apply elem_of_map_to_list in Hin.
Qed.

Lemma trouverParEmail_None email bd :
  utilisateurRepository.trouverParEmail email bd = None ↔
  ∀ id u, utilisateurs bd !! id = Some u → Utilisateur.email u ≠ email.
Proof.
  unfold utilisateurRepository.trouverParEmail. rewrite head_None. split.
  - intros Hnil id u Hu He.
    apply (filter_nil_not_elem_of _ _ (id, u) Hnil He).
    by apply elem_of_map_to_list.
  - intros Hall.
    destruct (filter _ _) as [|[id u] l] eqn:Hf; [done|].
    assert (Hin : (id, u) ∈ filter (λ p, Utilisateur.email p.2 = email)
                     (map_to_list (utilisateurs bd))) by (rewrite Hf; left).
    apply list_elem_of_filter in Hin as [He Hin].
    apply elem_of_map_to_list in Hin. by destruct (Hall id u Hin).
Qed.

Lemma trouverParEmail_unique email bd id u :
  email_unique bd →
  utilisateurs bd !! id = Some u → Utilisateur.email u = email →
  utilisateurRepository.trouverParEmail email bd = Some (id, u).
Proof.
  intros Huniq Hu He.
  destruct (utilisateurRepository.trouverParEmail email bd) as [[j v]|] eqn:Hf.
  - apply trouverParEmail_Some in Hf as [Hv Hve].
    assert (j = id) as -> by (eapply Huniq; eauto; congruence).
    congruence.
  - rewrite trouverParEmail_None in Hf. by destruct (Hf id u Hu).
Qed.

(** ** Login *)

Section proprietes_login.
Context `{!Externe}.

Lemma login_inconnu email mdp t bd :
  (∀ id u, utilisateurs bd !! id = Some u → Utilisateur.email u ≠ email) →
  authController.login [] email mdp t bd = (authController.identifiants_invalides, bd).
Proof.
  intros Hnone. apply trouverParEmail_None in Hnone.
  unfold authController.login. by rewrite Hnone.
Qed.

Lemma login_verrouille email mdp t bd id u :
  email_unique bd →
  utilisateurs bd !! id = Some u → Utilisateur.email u = email →
  appConfig.maxLoginAttempts ≤ Utilisateur.tentatives_echec u →
  authController.login [] email mdp t bd = (authController.compte_verrouille, bd).
Proof.
  intros Huniq Hu He Hn.
  unfold authController.login.
  rewrite (trouverParEmail_unique _ _ _ _ Huniq Hu He).
  by rewrite bool_decide_eq_true_2.
Qed.

Lemma login_mauvais_mot_de_passe email mdp t bd id u :
  email_unique bd →
  utilisateurs bd !! id = Some u → Utilisateur.email u = email →
  Utilisateur.tentatives_echec u < appConfig.maxLoginAttempts →
  bcrypt_compare mdp (Utilisateur.mot_de_passe_hash u) = false →
  authController.login [] email mdp t bd =
    (if bool_decide (appConfig.maxLoginAttempts ≤ Utilisateur.tentatives_echec u + 1)
     then authController.compte_verrouille
     else authController.identifiants_invalides,
     MkBD (<[id := Utilisateur.avec_tentatives_echec
                      (Utilisateur.tentatives_echec u + 1) u]> (utilisateurs bd))
          (listes bd) (taches bd) (historique bd)
          (journal bd ++ [UpdateUtilisateur id])).
Proof.
  intros Huniq Hu He Hn Hc.
  unfold authController.login.
  rewrite (trouverParEmail_unique _ _ _ _ Huniq Hu He).
  rewrite bool_decide_eq_false_2 by lia.
  rewrite Hc. cbn [negb].
  unfold utilisateurRepository.incrementerTentativesEchec, avec_utilisateurs.
  cbn [utilisateurs].
  rewrite lookup_alter_eq, Hu. cbn.
  rewrite (alter_lookup_Some _ _ _ _ Hu).
  by case_bool_decide.
Qed.

Lemma login_reussi email mdp t bd id u :
  email_unique bd →
  utilisateurs bd !! id = Some u → Utilisateur.email u = email →
  Utilisateur.tentatives_echec u < appConfig.maxLoginAttempts →
  bcrypt_compare mdp (Utilisateur.mot_de_passe_hash u) = true →
  authController.login [] email mdp t bd =
    (Succes 200
       (DonneesConnexion
          (MkJeton id email jwtSecret t (t + appConfig.jwtExpiration))
          (MkUtilisateurPublic id email (Utilisateur.nom_affichage u)
             (Utilisateur.date_creation u))),
     MkBD (<[id := Utilisateur.avec_tentatives_echec 0 u]> (utilisateurs bd))
          (listes bd) (taches bd) (historique bd)
          (journal bd ++ [UpdateUtilisateur id])).
Proof.
  intros Huniq Hu He Hn Hc.
  unfold authController.login.
  rewrite (trouverParEmail_unique _ _ _ _ Huniq Hu He).
  rewrite bool_decide_eq_false_2 by lia.
  rewrite Hc. cbn [negb].
  unfold utilisateurRepository.reinitialiserTentativesEchec, avec_utilisateurs, jwt_sign.
  rewrite (alter_lookup_Some _ _ _ _ Hu). by rewrite He.
Qed.

(** Rewriting the counter of a stored user keeps the emails unique. *)
Lemma email_unique_tentatives bd id u n e :
  email_unique bd → utilisateurs bd !! id = Some u →
  email_unique
    (MkBD (<[id := Utilisateur.avec_tentatives_echec n u]> (utilisateurs bd))
       (listes bd) (taches bd) (historique bd) (journal bd ++ [e])).
Proof.
  intros Huniq Hu i j v w. cbn [utilisateurs].
  rewrite !lookup_insert.
  repeat case_decide; intros Hv Hw Hvw; simplify_eq; cbn in *; eauto.
Qed.

(** A failed attempt leaves the user in place, with the same hash, and a
    counter that has moved one step towards the threshold. *)
Lemma login_echec_progresse email mdp t bd id u :
  email_unique bd →
  utilisateurs bd !! id = Some u → Utilisateur.email u = email →
  bcrypt_compare mdp (Utilisateur.mot_de_passe_hash u) = false →
  let bd' := (authController.login [] email mdp t bd).2 in
  email_unique bd' ∧
  ∃ u', utilisateurs bd' !! id = Some u' ∧ Utilisateur.email u' = email
        ∧ Utilisateur.mot_de_passe_hash u' = Utilisateur.mot_de_passe_hash u
        ∧ Z.min 3 (Utilisateur.tentatives_echec u + 1) ≤ Utilisateur.tentatives_echec u'.
Proof.
  intros Huniq Hu He Hc.
  destruct (decide (appConfig.maxLoginAttempts ≤ Utilisateur.tentatives_echec u)) as [Hn|Hn].
  - rewrite (login_verrouille _ _ _ _ _ _ Huniq Hu He Hn). cbn.
    split; [done|]. exists u. unfold appConfig.maxLoginAttempts in Hn.
    repeat split; [done..|lia].
  - rewrite (login_mauvais_mot_de_passe _ _ _ _ _ _ Huniq Hu He) by (done || lia).
    cbn [snd]. split; [by apply email_unique_tentatives|].
    eexists. cbn [utilisateurs]. rewrite lookup_insert_eq.
    split; [done|]. cbn. repeat split; [done|lia].
Qed.

End proprietes_login.

Lemma email_unique_bd_essai : email_unique bd_essai.
Proof.
  intros i j u v Hi Hj He. cbn [utilisateurs bd_essai] in Hi, Hj.
  apply lookup_insert_Some in Hi as [[<- <-]|[? Hi]];
    apply lookup_insert_Some in Hj as [[<- <-]|[? Hj]]; try done;
    try (apply lookup_singleton_Some in Hi as [<- <-]);
    try (apply lookup_singleton_Some in Hj as [<- <-]); done.
Qed.

(** C1.  Login, for a request that passed validation, on a database whose
    emails are unique.  With no user of that email the answer is 401
    "Identifiants invalides." and nothing is written.  For the user of that
    email with failed-login counter [n]: if [3 ≤ n] the answer is 423
    (account locked) and nothing is written, whatever the password; else
    if the password is wrong the counter becomes [n + 1] and the answer is
    423 when [3 ≤ n + 1], 401 otherwise; else the counter becomes [0] and
    the answer is 200 with a token that carries the id and the email and
    expires 24 hours after it was issued.  After three wrong passwords in a
    row any further attempt, also with the right password, is answered
    423. *)
Theorem login_conforme `{!Externe} (email mdp : string) (t : Z) (bd : BD) :
  email_unique bd →
  ((∀ id u, utilisateurs bd !! id = Some u → Utilisateur.email u ≠ email) →
   authController.login [] email mdp t bd = (Echec 401 "Identifiants invalides.", bd))
  ∧ (∀ id u,
       utilisateurs bd !! id = Some u → Utilisateur.email u = email →
       let n := Utilisateur.tentatives_echec u in
       let compteur k :=
         MkBD (<[id := Utilisateur.avec_tentatives_echec k u]> (utilisateurs bd))
           (listes bd) (taches bd) (historique bd)
           (journal bd ++ [UpdateUtilisateur id]) in
       authController.login [] email mdp t bd =
         if bool_decide (3 ≤ n) then (authController.compte_verrouille, bd)
         else if bcrypt_compare mdp (Utilisateur.mot_de_passe_hash u) then
           (Succes 200
              (DonneesConnexion (MkJeton id email jwtSecret t (t + 24 * 3600))
                 (MkUtilisateurPublic id email (Utilisateur.nom_affichage u)
                    (Utilisateur.date_creation u))),
            compteur 0)
         else
           (if bool_decide (3 ≤ n + 1) then authController.compte_verrouille
            else Echec 401 "Identifiants invalides.",
            compteur (n + 1)))
  ∧ (∀ id u m1 m2 m3 t1 t2 t3,
       utilisateurs bd !! id = Some u → Utilisateur.email u = email →
       0 ≤ Utilisateur.tentatives_echec u →
       bcrypt_compare m1 (Utilisateur.mot_de_passe_hash u) = false →
       bcrypt_compare m2 (Utilisateur.mot_de_passe_hash u) = false →
       bcrypt_compare m3 (Utilisateur.mot_de_passe_hash u) = false →
       let bd3 :=
         derouler [OpLogin [] email m1 t1; OpLogin [] email m2 t2;
                   OpLogin [] email m3 t3] bd in
       (authController.login [] email mdp t bd3).1 = authController.compte_verrouille
       ∧ status_de authController.compte_verrouille = 423).
Proof.
  intros Huniq. split; [|split].
  - apply login_inconnu.
  - intros id u Hu He n compteur. subst n compteur.
    case_bool_decide as Hn.
    + by apply (login_verrouille _ _ _ _ id u).
    + destruct (bcrypt_compare mdp _) eqn:Hc.
      * rewrite (login_reussi _ _ _ _ id u); try done.
        unfold appConfig.maxLoginAttempts. lia.
      * rewrite (login_mauvais_mot_de_passe _ _ _ _ id u); try done.
        unfold appConfig.maxLoginAttempts. lia.
  - intros id u m1 m2 m3 t1 t2 t3 Hu He Hn H1 H2 H3 bd3. split; [|done].
    subst bd3. unfold derouler. cbn [foldl executer].
    destruct (login_echec_progresse email m1 t1 bd id u) as (Hq1 & u1 & Hu1 & He1 & Hh1 & Hn1);
      try done.
    destruct (login_echec_progresse email m2 t2 _ id u1 Hq1 Hu1 He1) as (Hq2 & u2 & Hu2 & He2 & Hh2 & Hn2);
      [congruence|].
    destruct (login_echec_progresse email m3 t3 _ id u2 Hq2 Hu2 He2) as (Hq3 & u3 & Hu3 & He3 & Hh3 & Hn3);
      [congruence|].
    rewrite (login_verrouille _ _ _ _ id u3); try done.
    unfold appConfig.maxLoginAttempts. lia.
Qed.

Lemma login_conforme_temoin :
  email_unique bd_essai
  ∧ (@authController.login externe_essai [] "a@x.com" "secret1" 5000 bd_essai).1
    = Succes 200
        (DonneesConnexion (MkJeton "u1" "a@x.com" "secret" 5000 91400)
           (MkUtilisateurPublic "u1" "a@x.com" "Alice" 1000)).
Proof.
  split; [exact email_unique_bd_essai|].
  pose proof (@login_conforme externe_essai "a@x.com" "secret1" 5000 bd_essai
                email_unique_bd_essai) as (_ & Hcas & _).
  rewrite (Hcas "u1" alice); [reflexivity|reflexivity|reflexivity].
Defined.

(** ** Existence and ownership *)

Lemma liste_interdite_false moi l bd :
  taskController.liste_interdite moi l bd = false ↔ liste_de moi l bd.
Proof.
  unfold taskController.liste_interdite, listeRepository.trouverParId, liste_de.
  destruct (listes bd !! l) as [r|]; [|naive_solver].
  case_bool_decide; naive_solver.
Qed.

Lemma liste_interdite_true moi l bd :
  taskController.liste_interdite moi l bd = true ↔ ¬ liste_de moi l bd.
Proof.
  rewrite <- liste_interdite_false.
  destruct (taskController.liste_interdite moi l bd); naive_solver.
Qed.

Lemma detailTache_existence moi id bd :
  existence_puis_propriete (taskController.detailTache moi id bd).1
    (Echec 404 "Tâche non trouvée.") (Echec 403 "Accès non autorisé à cette tâche.")
    (proprietaire_tache id bd) moi.
Proof.
  unfold existence_puis_propriete, proprietaire_tache, taskController.detailTache,
    tacheRepository.trouverParId.
  destruct (taches bd !! id) as [t|]; cbn; [|naive_solver].
  case_bool_decide; cbn; naive_solver.
Qed.

Lemma supprimerTache_existence moi id bd :
  existence_puis_propriete (taskController.supprimerTache moi id bd).1
    (Echec 404 "Tâche non trouvée.") (Echec 403 "Accès non autorisé à cette tâche.")
    (proprietaire_tache id bd) moi.
Proof.
  unfold existence_puis_propriete, proprietaire_tache, taskController.supprimerTache,
    tacheRepository.trouverParId.
  destruct (taches bd !! id) as [t|]; cbn; [|naive_solver].
  case_bool_decide; cbn; naive_solver.
Qed.

Lemma modifierListe_existence moi id corps bd :
  existence_puis_propriete (taskController.modifierListe [] moi id corps bd).1
    (Echec 404 "Liste non trouvée.") (Echec 403 "Accès non autorisé à cette liste.")
    (proprietaire_liste id bd) moi.
Proof.
  unfold existence_puis_propriete, proprietaire_liste, taskController.modifierListe,
    listeRepository.trouverParId.
  destruct (listes bd !! id) as [l|]; cbn; [|naive_solver].
  case_bool_decide; cbn; naive_solver.
Qed.

Lemma supprimerListe_existence moi id bd :
  existence_puis_propriete (taskController.supprimerListe moi id bd).1
    (Echec 404 "Liste non trouvée.") (Echec 403 "Accès non autorisé à cette liste.")
    (proprietaire_liste id bd) moi.
Proof.
  unfold existence_puis_propriete, proprietaire_liste, taskController.supprimerListe,
    listeRepository.trouverParId.
  destruct (listes bd !! id) as [l|]; cbn; [|naive_solver].
  case_bool_decide; cbn; naive_solver.
Qed.

(** The four ways [modifierTache] answers a request that passed
    validation. *)
Lemma modifierTache_cas moi id corps t bd :
  let rep := (taskController.modifierTache [] moi id corps t bd).1 in
  (rep = taskController.tache_introuvable ∧ taches bd !! id = None)
  ∨ (rep = taskController.tache_interdite
     ∧ ∃ x, taches bd !! id = Some x ∧ Tache.utilisateur_id x ≠ moi)
  ∨ (rep = taskController.liste_refusee
     ∧ (∃ x, taches bd !! id = Some x ∧ Tache.utilisateur_id x = moi)
     ∧ ∃ l, liste_demandee corps = Some l ∧ ¬ liste_de moi l bd)
  ∨ ((∃ r, rep = Succes 200 (DonneesTache r))
     ∧ (∃ x, taches bd !! id = Some x ∧ Tache.utilisateur_id x = moi)
     ∧ ∀ l, liste_demandee corps = Some l → liste_de moi l bd).
Proof.
  unfold taskController.modifierTache, tacheRepository.trouverParId, liste_demandee.
  destruct (taches bd !! id) as [x|] eqn:Hx; cbn; [|by left].
  case_bool_decide as Ho; cbn; [|right; left; eauto].
  right; right.
  destruct (taskController.m_liste_id corps) as [[l|]|] eqn:Hl.
  - destruct (taskController.liste_interdite moi l bd) eqn:Hi.
    + left. apply liste_interdite_true in Hi. eauto 10.
    + right. apply liste_interdite_false in Hi.
      split; [|split; [eauto|by intros ? [= <-]]].
      destruct (taskController.m_statut corps) as [s|]; [case_bool_decide|]; cbn; eauto.
  - right. split; [|split; [eauto|done]].
    destruct (taskController.m_statut corps) as [s|]; [case_bool_decide|]; cbn; eauto.
  - right. split; [|split; [eauto|done]].
    destruct (taskController.m_statut corps) as [s|]; [case_bool_decide|]; cbn; eauto.
Qed.

(** The ways [creerTache] answers a request that passed validation. *)
Lemma creerTache_cas moi corps uuid t bd :
  let rep := (taskController.creerTache [] moi corps uuid t bd).1 in
  (rep = taskController.liste_refusee
   ∧ ∃ l, liste_fournie corps = Some l ∧ ¬ liste_de moi l bd)
  ∨ ((rep = erreur_interne ∨ ∃ r, rep = Succes 201 (DonneesTache r))
     ∧ ∀ l, liste_fournie corps = Some l → liste_de moi l bd).
Proof.
  unfold taskController.creerTache, liste_fournie.
  destruct (vrai (taskController.liste_id corps)) eqn:Hv; cbn.
  - destruct (taskController.liste_id corps) as [l|] eqn:Hl; [|done]. cbn.
    destruct (taskController.liste_interdite moi l bd) eqn:Hi.
    + left. apply liste_interdite_true in Hi. eauto.
    + right. apply liste_interdite_false in Hi.
      split; [|by intros ? [= <-]].
      destruct (tacheRepository.creer _ _ _); cbn; eauto.
  - right. split; [|done].
    destruct (tacheRepository.creer _ _ _); cbn; eauto.
Qed.

Lemma modifierTache_existence moi id corps t bd :
  existence_puis_propriete (taskController.modifierTache [] moi id corps t bd).1
    (Echec 404 "Tâche non trouvée.") (Echec 403 "Accès non autorisé à cette tâche.")
    (proprietaire_tache id bd) moi.
Proof.
  unfold existence_puis_propriete, proprietaire_tache.
  destruct (modifierTache_cas moi id corps t bd)
    as [[-> Hx]|[[-> (x & Hx & Ho)]|[[-> [(x & Hx & Ho) _]]|[[r ->] [(x & Hx & Ho) _]]]]];
    rewrite Hx; cbn; unfold taskController.tache_introuvable,
      taskController.tache_interdite, taskController.liste_refusee; naive_solver.
Qed.

(** C2, as amended.  For GetTask, UpdateTask, DeleteTask, UpdateList and
    DeleteList (the requests with a body having passed validation) the
    "not found" answer (404) is given exactly when the task or list is not
    stored, and the "access denied" answer (403) exactly when it is stored
    with an owner other than the requester.  The check of the list named in
    CreateTask and UpdateTask does not separate the two cases: it answers
    403 "Liste non trouvée ou non autorisée." exactly when a list is named
    that is missing or owned by somebody else, and never 404 for it. *)
Theorem existence_avant_propriete (moi id : string) (t : Z) (bd : BD)
    (corpsT : taskController.CorpsModification) (corpsL : listeRepository.Donnees)
    (corpsC : taskController.CorpsCreation) (uuid : string) :
  existence_puis_propriete (taskController.detailTache moi id bd).1
    (Echec 404 "Tâche non trouvée.") (Echec 403 "Accès non autorisé à cette tâche.")
    (proprietaire_tache id bd) moi
  ∧ existence_puis_propriete (taskController.modifierTache [] moi id corpsT t bd).1
      (Echec 404 "Tâche non trouvée.") (Echec 403 "Accès non autorisé à cette tâche.")
      (proprietaire_tache id bd) moi
  ∧ existence_puis_propriete (taskController.supprimerTache moi id bd).1
      (Echec 404 "Tâche non trouvée.") (Echec 403 "Accès non autorisé à cette tâche.")
      (proprietaire_tache id bd) moi
  ∧ existence_puis_propriete (taskController.modifierListe [] moi id corpsL bd).1
      (Echec 404 "Liste non trouvée.") (Echec 403 "Accès non autorisé à cette liste.")
      (proprietaire_liste id bd) moi
  ∧ existence_puis_propriete (taskController.supprimerListe moi id bd).1
      (Echec 404 "Liste non trouvée.") (Echec 403 "Accès non autorisé à cette liste.")
      (proprietaire_liste id bd) moi
  ∧ (let rep := (taskController.creerTache [] moi corpsC uuid t bd).1 in
     (rep = Echec 403 "Liste non trouvée ou non autorisée."
      ↔ ∃ l, liste_fournie corpsC = Some l ∧ ¬ liste_de moi l bd)
     ∧ status_de rep ≠ 404)
  ∧ (let rep := (taskController.modifierTache [] moi id corpsT t bd).1 in
     rep = Echec 403 "Liste non trouvée ou non autorisée."
     ↔ proprietaire_tache id bd = Some moi
       ∧ ∃ l, liste_demandee corpsT = Some l ∧ ¬ liste_de moi l bd).
Proof.
  split; [apply detailTache_existence|].
  split; [apply modifierTache_existence|].
  split; [apply supprimerTache_existence|].
  split; [apply modifierListe_existence|].
  split; [apply supprimerListe_existence|].
  split.
  - destruct (creerTache_cas moi corpsC uuid t bd)
      as [[-> Hl]|[[->|[r ->]] Hl]]; cbn;
      unfold taskController.liste_refusee, erreur_interne; split; naive_solver.
  - unfold proprietaire_tache.
    destruct (modifierTache_cas moi id corpsT t bd)
      as [[-> Hx]|[[-> (x & Hx & Ho)]|[[-> [(x & Hx & Ho) Hl]]|[[r ->] [(x & Hx & Ho) Hl]]]]];
      rewrite Hx; cbn; unfold taskController.tache_introuvable,
        taskController.tache_interdite, taskController.liste_refusee; naive_solver.
Qed.

(** C2, as stated, fails for the list named in CreateTask: a list that is
    not stored is answered 403, not 404. *)
Lemma creerTache_liste_absente_403 :
  let corps := taskController.MkCorpsCreation "Buy milk" None None None (Some "l9") [] in
  let rep := (taskController.creerTache [] "u1" corps "t9" 3000 bd_essai).1 in
  proprietaire_liste "l9" bd_essai = None
  ∧ status_de rep = 403
  ∧ ¬ existence_puis_propriete rep
        (Echec 404 "Liste non trouvée.") (Echec 403 "Liste non trouvée ou non autorisée.")
        (proprietaire_liste "l9" bd_essai) "u1".
Proof.
  cbn zeta. split; [reflexivity|]. split; [reflexivity|].
  intros [[_ Habs] _].
  specialize (Habs eq_refl). vm_compute in Habs. discriminate Habs.
Qed.

(** ** Completion date and status *)

Lemma invariant_completion_meme_taches bd bd' :
  taches bd' = taches bd → invariant_completion bd → invariant_completion bd'.
Proof. unfold invariant_completion. intros ->. done. Qed.

Lemma completion_coherente_avec_liste_id l x :
  completion_coherente x → completion_coherente (Tache.avec_liste_id l x).
Proof. done. Qed.

Lemma invariant_completion_dissocier (m : gmap string Tache.t) l :
  (∀ id x, m !! id = Some x → completion_coherente x) →
  ∀ id x,
    ((λ t, if decide (Tache.liste_id t = Some l)
           then Tache.avec_liste_id None t else t) <$> m) !! id = Some x →
    completion_coherente x.
Proof.
  intros Hinv id x Hx. apply lookup_fmap_Some in Hx as (y & <- & Hy).
  case_decide; [apply completion_coherente_avec_liste_id|]; eauto.
Qed.

(** The update that [modifierTache] builds keeps a coherent row coherent. *)
Lemma completion_coherente_maj (corps : taskController.CorpsModification)
    (maintenant : Z) (x : Tache.t) :
  completion_coherente x →
  completion_coherente (tacheRepository.appliquer (donneesMAJ_de corps maintenant x) x).
Proof.
  unfold completion_coherente, donneesMAJ_de. intros Hx.
  destruct (taskController.m_statut corps) as [s|]; [|done].
  case_bool_decide as Hs; [|done]. cbn.
  case_bool_decide as Ht; cbn; [done|].
  case_bool_decide as Ho; cbn; [done|].
  split; [intros Hd; by apply Hx in Hd|done].
Qed.

(** What [modifierTache] writes when it carries the request out: one
    history entry if the status changes, then the update of the row. *)
Lemma modifierTache_acceptee erreurs moi id corps t bd x :
  modification_acceptee erreurs moi id corps bd x →
  let entree :=
    match changement_statut corps x with
    | Some (ancien, nouveau) => Some (HistoriqueModification.Build id ancien nouveau t)
    | None => None
    end in
  taskController.modifierTache erreurs moi id corps t bd =
    (Succes 200
       (DonneesTache
          (Some (tacheRepository.instance bd id
                   (tacheRepository.appliquer (donneesMAJ_de corps t x) x)))),
     MkBD (utilisateurs bd) (listes bd)
       (<[id := tacheRepository.appliquer (donneesMAJ_de corps t x) x]> (taches bd))
       (historique bd ++ option_list entree)
       (journal bd ++ (if entree is Some _ then [InsertHistorique id] else [])
          ++ [UpdateTache id])).
Proof.
  intros (-> & Hx & Ho & Hl).
  unfold taskController.modifierTache, tacheRepository.trouverParId,
    donneesMAJ_de, changement_statut.
  rewrite Hx. cbn. rewrite bool_decide_eq_true_2 by done. cbn.
  assert (match taskController.m_liste_id corps with
          | Some (Some l) => taskController.liste_interdite moi l bd
          | _ => false
          end = false) as ->.
  { unfold liste_demandee in Hl.
    destruct (taskController.m_liste_id corps) as [[l|]|]; try done.
    apply liste_interdite_false. by apply Hl. }
  destruct (taskController.m_statut corps) as [s|]; [case_bool_decide|];
    unfold tacheRepository.mettreAJour, tacheRepository.trouverParId, avec_taches,
      tacheRepository.enregistrerHistorique; cbn;
    rewrite (alter_lookup_Some _ _ _ _ Hx), lookup_insert_eq; cbn;
    rewrite ?app_nil_r, <- ?app_assoc; done.
Qed.

(** A request that [modifierTache] does not carry out writes nothing. *)
Lemma modifierTache_refusee erreurs moi id corps t bd :
  (∀ x, ¬ modification_acceptee erreurs moi id corps bd x) →
  (taskController.modifierTache erreurs moi id corps t bd).2 = bd.
Proof.
  intros Hnon. unfold taskController.modifierTache, tacheRepository.trouverParId.
  destruct erreurs; [|done].
  destruct (taches bd !! id) as [x|] eqn:Hx; cbn; [|done].
  case_bool_decide as Ho; cbn; [|done].
  destruct (taskController.m_liste_id corps) as [[l|]|] eqn:Hm.
  - destruct (taskController.liste_interdite moi l bd) eqn:Hi; [done|].
    destruct (Hnon x). repeat split; try done.
    unfold liste_demandee. rewrite Hm. intros ? [= <-].
    by apply liste_interdite_false.
  - destruct (Hnon x). repeat split; try done.
    unfold liste_demandee. by rewrite Hm.
  - destruct (Hnon x). repeat split; try done.
    unfold liste_demandee. by rewrite Hm.
Qed.

Lemma modification_acceptee_dec erreurs moi id corps bd :
  (∃ x, modification_acceptee erreurs moi id corps bd x)
  ∨ (∀ x, ¬ modification_acceptee erreurs moi id corps bd x).
Proof.
  unfold modification_acceptee.
  destruct erreurs; [|right; naive_solver].
  destruct (taches bd !! id) as [x|] eqn:Hx; [|right; naive_solver].
  destruct (decide (Tache.utilisateur_id x = moi)); [|right; naive_solver].
  destruct (liste_demandee corps) as [l|] eqn:Hl; [|left; naive_solver].
  destruct (taskController.liste_interdite moi l bd) eqn:Hi.
  - apply liste_interdite_true in Hi. right. naive_solver.
  - apply liste_interdite_false in Hi. left. naive_solver.
Qed.

Lemma modifierTache_invariant erreurs moi id corps t bd :
  invariant_completion bd →
  invariant_completion (taskController.modifierTache erreurs moi id corps t bd).2.
Proof.
  intros Hinv.
  destruct (modification_acceptee_dec erreurs moi id corps bd) as [[x Hacc]|Hnon].
  - rewrite (modifierTache_acceptee _ _ _ _ t _ _ Hacc).
    destruct Hacc as (_ & Hx & _).
    intros j y. cbn. rewrite lookup_insert. destruct (decide (id = j)) as [Hj|Hj].
    + intros Hy. apply (inj Some) in Hy. rewrite <- Hy.
      apply completion_coherente_maj. eauto.
    + apply Hinv.
  - by rewrite modifierTache_refusee.
Qed.

Lemma creerTache_invariant erreurs moi corps uuid t bd :
  invariant_completion bd →
  invariant_completion (taskController.creerTache erreurs moi corps uuid t bd).2.
Proof.
  intros Hinv. unfold taskController.creerTache.
  destruct erreurs; [|done].
  destruct (_ && _); [done|].
  unfold tacheRepository.creer.
  destruct (taches bd !! uuid) eqn:Hu; [done|].
  destruct (utilisateurs bd !! _); [|done]. cbn.
  intros j y. unfold avec_taches. cbn [taches snd].
  rewrite lookup_insert. destruct (decide (uuid = j)); [|apply Hinv].
  intros Hy. apply (inj Some) in Hy. rewrite <- Hy. done.
Qed.

Lemma supprimerTache_invariant moi id bd :
  invariant_completion bd →
  invariant_completion (taskController.supprimerTache moi id bd).2.
Proof.
  intros Hinv. unfold taskController.supprimerTache.
  destruct (tacheRepository.trouverParId id bd); [|done].
  case_bool_decide; cbn; [|done].
  intros j y Hy. cbn in Hy. apply lookup_delete_Some in Hy as [_ Hy]. eauto.
Qed.

Lemma supprimerListe_invariant moi id bd :
  invariant_completion bd →
  invariant_completion (taskController.supprimerListe moi id bd).2.
Proof.
  intros Hinv. unfold taskController.supprimerListe.
  destruct (listeRepository.trouverParId id bd); [|done].
  case_bool_decide; cbn; [|done].
  unfold invariant_completion. cbn.
  apply invariant_completion_dissocier, invariant_completion_dissocier, Hinv.
Qed.

Lemma executer_invariant `{!Externe} op bd :
  invariant_completion bd → invariant_completion (executer op bd).2.
Proof.
  intros Hinv. destruct op; cbn [executer].
  - apply (invariant_completion_meme_taches bd); [|done].
    unfold authController.register, utilisateurRepository.creer.
    destruct erreurs; [|done].
    destruct (utilisateurRepository.trouverParEmail _ _); [done|].
    destruct (utilisateurs bd !! uuid); done.
  - apply (invariant_completion_meme_taches bd); [|done].
    unfold authController.login.
    destruct erreurs; [|done].
    destruct (utilisateurRepository.trouverParEmail _ _) as [[i u]|]; [|done].
    case_bool_decide; [done|].
    destruct (negb _); [|done]. cbn.
    destruct (alter _ _ _ !! i); [case_bool_decide|]; done.
  - apply (invariant_completion_meme_taches bd); [|done].
    unfold authController.updateProfil. by destruct erreurs.
  - apply (invariant_completion_meme_taches bd); [|done].
    unfold authController.changePassword.
    destruct erreurs; [|done].
    destruct (utilisateurRepository.trouverParIdAvecMotDePasse _ _); [|done].
    by destruct (negb _).
  - by apply creerTache_invariant.
  - apply (invariant_completion_meme_taches bd); [|done].
    unfold taskController.listerTaches.
    by destruct (tacheRepository.listerParUtilisateur _ _ _) as [[??]|].
  - apply (invariant_completion_meme_taches bd); [|done].
    unfold taskController.detailTache.
    destruct (tacheRepository.trouverParId _ _); [by destruct (negb _)|done].
  - by apply modifierTache_invariant.
  - by apply supprimerTache_invariant.
  - apply (invariant_completion_meme_taches bd); [|done].
    unfold taskController.rechercher. by destruct (_ || _).
  - apply (invariant_completion_meme_taches bd); [|done].
    unfold taskController.creerListe, listeRepository.creer.
    destruct erreurs; [|done].
    destruct (listes bd !! uuid); [done|].
    by destruct (utilisateurs bd !! _).
  - apply (invariant_completion_meme_taches bd); [|done].
    unfold taskController.modifierListe.
    destruct erreurs; [|done].
    destruct (listeRepository.trouverParId _ _); [by destruct (negb _)|done].
  - by apply supprimerListe_invariant.
Qed.

Lemma derouler_invariant `{!Externe} ops bd :
  invariant_completion bd → invariant_completion (derouler ops bd).
Proof.
  revert bd. induction ops as [|op ops IH]; intros bd Hinv; [done|].
  apply IH. by apply executer_invariant.
Qed.

Lemma creerTache_historique erreurs moi corps uuid t bd :
  historique (taskController.creerTache erreurs moi corps uuid t bd).2 = historique bd.
Proof.
  unfold taskController.creerTache, tacheRepository.creer.
  destruct erreurs; [|done].
  destruct (_ && _); [done|].
  destruct (taches bd !! uuid); [done|].
  by destruct (utilisateurs bd !! _).
Qed.

Lemma creerTache_nouvelle_ligne erreurs moi corps uuid t bd x :
  taches bd !! uuid = None →
  taches (taskController.creerTache erreurs moi corps uuid t bd).2 !! uuid = Some x →
  Tache.statut x = A_FAIRE ∧ Tache.date_completion x = None.
Proof.
  intros Hfrais. unfold taskController.creerTache, tacheRepository.creer.
  destruct erreurs; [|cbn; congruence].
  destruct (_ && _); [cbn; congruence|].
  rewrite Hfrais.
  destruct (utilisateurs bd !! _); [|cbn; congruence].
  cbn. rewrite lookup_insert_eq. intros Hx. apply (inj Some) in Hx. by rewrite <- Hx.
Qed.

(** C3.  Every request keeps the invariant "the completion date is set if
    and only if the status is TERMINEE", so it holds of every database
    reached from the empty one.  A task just created is A_FAIRE with no
    completion date.  A modification that is carried out and changes the
    status to TERMINEE sets the completion date to the current time; one
    that changes the status away from TERMINEE clears it; one that does not
    change the status leaves status and completion date as they were. *)
Theorem completion_ssi_terminee `{!Externe} :
  (∀ op bd, invariant_completion bd → invariant_completion (executer op bd).2)
  ∧ (∀ ops, invariant_completion (derouler ops bd_vide))
  ∧ (∀ erreurs moi corps uuid t bd x,
       taches bd !! uuid = None →
       taches (taskController.creerTache erreurs moi corps uuid t bd).2 !! uuid = Some x →
       Tache.statut x = A_FAIRE ∧ Tache.date_completion x = None)
  ∧ (∀ erreurs moi id corps t bd x,
       modification_acceptee erreurs moi id corps bd x →
       ∃ y, taches (taskController.modifierTache erreurs moi id corps t bd).2 !! id = Some y
            ∧ match changement_statut corps x with
              | Some (ancien, nouveau) =>
                  Tache.statut y = nouveau
                  ∧ (nouveau = TERMINEE → Tache.date_completion y = Some t)
                  ∧ (ancien = TERMINEE → Tache.date_completion y = None)
              | None =>
                  Tache.statut y = Tache.statut x
                  ∧ Tache.date_completion y = Tache.date_completion x
              end).
Proof.
  split; [intros; by apply executer_invariant|].
  split; [intros; by apply derouler_invariant|].
  split; [apply creerTache_nouvelle_ligne|].
  intros erreurs moi id corps t bd x Hacc.
  rewrite (modifierTache_acceptee _ _ _ _ t _ _ Hacc). cbn.
  rewrite lookup_insert_eq. eexists; split; [done|].
  unfold changement_statut, donneesMAJ_de.
  destruct (taskController.m_statut corps) as [s|]; [|done].
  case_bool_decide as Hs; [|done]. cbn.
  split; [done|]. split.
  - intros ->. by rewrite bool_decide_eq_true_2.
  - intros Ho. rewrite bool_decide_eq_false_2 by congruence.
    by rewrite bool_decide_eq_true_2.
Qed.

(** Completing "Buy milk" at time 3000, and reopening a completed task. *)
Example completion_exemple :
  let terminer := taskController.MkCorpsModification None None (Some TERMINEE) None None None in
  let rouvrir := taskController.MkCorpsModification None None (Some EN_COURS) None None None in
  (Tache.date_completion <$>
     taches (taskController.modifierTache [] "u1" "t1" terminer 3000 bd_essai).2 !! "t1")
  = Some (Some 3000)
  ∧ (Tache.date_completion <$>
       taches (taskController.modifierTache [] "u1" "t2" rouvrir 3000 bd_essai).2 !! "t2")
    = Some None.
Proof. by vm_compute. Qed.

(** ** Status history *)

Lemma modifierTache_historique erreurs moi id corps t bd :
  let bd' := (taskController.modifierTache erreurs moi id corps t bd).2 in
  historique bd' =
    historique bd ++
    match Tache.statut <$> taches bd !! id, Tache.statut <$> taches bd' !! id with
    | Some avant, Some apres =>
        if decide (avant = apres) then []
        else [HistoriqueModification.Build id avant apres t]
    | _, _ => []
    end.
Proof.
  cbn zeta.
  destruct (modification_acceptee_dec erreurs moi id corps bd) as [[x Hacc]|Hnon].
  - rewrite (modifierTache_acceptee _ _ _ _ t _ _ Hacc).
    destruct Hacc as (_ & Hx & _). cbn [snd historique taches].
    rewrite Hx, lookup_insert_eq. cbn [fmap option_fmap option_map].
    unfold changement_statut, donneesMAJ_de.
    destruct (taskController.m_statut corps) as [s|]; [|by rewrite decide_True].
    case_bool_decide as Hs; cbn.
    + by rewrite decide_False.
    + by rewrite decide_True.
  - rewrite modifierTache_refusee by done.
    destruct (Tache.statut <$> taches bd !! id) as [a|]; [|by rewrite app_nil_r].
    rewrite decide_True by done. by rewrite app_nil_r.
Qed.

(** C4.  Whatever the request, [modifierTache] appends one history entry
    (status before, status after) when the stored status of the task is
    not the same after the request as before, and none when it is the same
    or the task is not stored.  A modification that is carried out and
    whose status differs from the stored one appends exactly one entry
    (stored status, new status), inserted before the task is updated; one
    whose status equals the stored one, or that has no status, leaves the
    history as it is.  A modification that is not carried out writes
    nothing, and creating a task adds no entry. *)
Theorem historique_une_entree_par_changement :
  (∀ erreurs moi id corps t bd,
     let bd' := (taskController.modifierTache erreurs moi id corps t bd).2 in
     historique bd' =
       historique bd ++
       match Tache.statut <$> taches bd !! id, Tache.statut <$> taches bd' !! id with
       | Some avant, Some apres =>
           if decide (avant = apres) then []
           else [HistoriqueModification.Build id avant apres t]
       | _, _ => []
       end)
  ∧ (∀ erreurs moi id corps t bd x,
     modification_acceptee erreurs moi id corps bd x →
     let bd' := (taskController.modifierTache erreurs moi id corps t bd).2 in
     match taskController.m_statut corps with
     | Some statut =>
         if decide (statut = Tache.statut x) then
           historique bd' = historique bd
           ∧ journal bd' = journal bd ++ [UpdateTache id]
         else
           historique bd' =
             historique bd ++ [HistoriqueModification.Build id (Tache.statut x) statut t]
           ∧ journal bd' = journal bd ++ [InsertHistorique id; UpdateTache id]
     | None =>
         historique bd' = historique bd
         ∧ journal bd' = journal bd ++ [UpdateTache id]
     end)
  ∧ (∀ erreurs moi id corps t bd,
       (∀ x, ¬ modification_acceptee erreurs moi id corps bd x) →
       (taskController.modifierTache erreurs moi id corps t bd).2 = bd)
  ∧ (∀ erreurs moi corps uuid t bd,
       historique (taskController.creerTache erreurs moi corps uuid t bd).2
       = historique bd).
Proof.
  split; [apply modifierTache_historique|].
  split; [|split; [apply modifierTache_refusee|apply creerTache_historique]].
  intros erreurs moi id corps t bd x Hacc bd'. subst bd'.
  rewrite (modifierTache_acceptee _ _ _ _ t _ _ Hacc). cbn.
  unfold changement_statut.
  destruct (taskController.m_statut corps) as [s|]; [|by rewrite app_nil_r].
  destruct (decide (s = Tache.statut x)) as [Hs|Hs].
  - rewrite bool_decide_eq_false_2 by (intros Hn; by apply Hn).
    cbn. by rewrite app_nil_r.
  - by rewrite bool_decide_eq_true_2.
Qed.

(** The history after completing "Buy milk", after asking for the status
    it already has, and after a request by somebody else. *)
Example historique_exemple :
  let corps s := taskController.MkCorpsModification None None (Some s) None None None in
  historique (taskController.modifierTache [] "u1" "t1" (corps TERMINEE) 3000 bd_essai).2
  = [HistoriqueModification.Build "t1" A_FAIRE TERMINEE 3000]
  ∧ historique (taskController.modifierTache [] "u1" "t1" (corps A_FAIRE) 3000 bd_essai).2
    = []
  ∧ historique (taskController.modifierTache [] "u2" "t1" (corps TERMINEE) 3000 bd_essai).2
    = [].
Proof. by vm_compute. Qed.

(** ** Creating a task *)

(** [creerTache] on a request that passed validation, from a stored user,
    with a fresh identifier. *)
Lemma creerTache_resultat moi corps uuid t bd :
  is_Some (utilisateurs bd !! moi) → taches bd !! uuid = None →
  let ligne :=
    Tache.Build (taskController.titre corps)
      (taskController.ou_null (taskController.description corps)) A_FAIRE
      (default MOYENNE (taskController.priorite corps))
      (taskController.date_echeance corps) t None moi (liste_fournie corps) in
  let bd' :=
    MkBD (utilisateurs bd) (listes bd) (<[uuid := ligne]> (taches bd)) (historique bd)
      (journal bd ++ [InsertTache uuid]) in
  taskController.creerTache [] moi corps uuid t bd =
    match liste_fournie corps with
    | Some l =>
        if taskController.liste_interdite moi l bd
        then (Echec 403 "Liste non trouvée ou non autorisée.", bd)
        else (Succes 201 (DonneesTache (Some (tacheRepository.instance bd uuid ligne))), bd')
    | None =>
        (Succes 201 (DonneesTache (Some (tacheRepository.instance bd uuid ligne))), bd')
    end.
Proof.
  intros [u Hu] Hfrais ligne bd'. subst ligne bd'.
  unfold taskController.creerTache, liste_fournie, taskController.ou_null,
    tacheRepository.creer, tacheRepository.trouverParId, avec_taches.
  destruct (vrai (taskController.liste_id corps)) eqn:Hv; cbn.
  - destruct (taskController.liste_id corps) as [l|] eqn:Hl; [|done]. cbn.
    destruct (taskController.liste_interdite moi l bd); [done|].
    rewrite Hfrais. cbn. rewrite Hu. cbn. by rewrite lookup_insert_eq.
  - rewrite Hfrais. cbn. rewrite Hu. cbn. by rewrite lookup_insert_eq.
Qed.

Lemma ou_null_description (d : option string) :
  taskController.ou_null d = if decide (d = Some "") then None else d.
Proof.
  unfold taskController.ou_null, vrai.
  destruct d as [s|]; [|done].
  destruct (String.eqb_spec s ""); case_decide; naive_solver.
Qed.

(** C5, as amended.  CreateTask by a stored user, on a request that passed
    validation and with a fresh identifier: if a list is named that is not
    the requester's (missing, or owned by somebody else) the answer is 403
    "Liste non trouvée ou non autorisée." and nothing is written;
    otherwise the task is created, and GetTask by the owner returns the
    task that the creation answered, with the title, due date and list as
    supplied, the priority as supplied (MOYENNE when none was), the
    description as supplied except that an empty description has become
    null, status A_FAIRE whatever else the body held, no completion date,
    the requester as owner and the clock as creation date. *)
Theorem creation_puis_detail (moi : string) (corps : taskController.CorpsCreation)
    (uuid : string) (t : Z) (bd : BD) :
  is_Some (utilisateurs bd !! moi) → taches bd !! uuid = None →
  let rep := (taskController.creerTache [] moi corps uuid t bd).1 in
  let bd' := (taskController.creerTache [] moi corps uuid t bd).2 in
  ((∃ l, liste_fournie corps = Some l ∧ ¬ liste_de moi l bd) →
   rep = Echec 403 "Liste non trouvée ou non autorisée." ∧ bd' = bd)
  ∧ ((∀ l, liste_fournie corps = Some l → liste_de moi l bd) →
     ∃ inst,
       rep = Succes 201 (DonneesTache (Some inst))
       ∧ (taskController.detailTache moi uuid bd').1 = Succes 200 (DonneesTache (Some inst))
       ∧ inst_id inst = uuid
       ∧ Tache.titre (inst_ligne inst) = taskController.titre corps
       ∧ Tache.description (inst_ligne inst)
         = (if decide (taskController.description corps = Some "") then None
            else taskController.description corps)
       ∧ Tache.statut (inst_ligne inst) = A_FAIRE
       ∧ Tache.priorite (inst_ligne inst) = default MOYENNE (taskController.priorite corps)
       ∧ Tache.date_echeance (inst_ligne inst) = taskController.date_echeance corps
       ∧ Tache.date_creation (inst_ligne inst) = t
       ∧ Tache.date_completion (inst_ligne inst) = None
       ∧ Tache.utilisateur_id (inst_ligne inst) = moi
       ∧ Tache.liste_id (inst_ligne inst) = liste_fournie corps).
Proof.
  intros Hmoi Hfrais rep bd'. subst rep bd'.
  rewrite (creerTache_resultat _ _ _ t _ Hmoi Hfrais).
  split.
  - intros (l & Hl & Hnon). rewrite Hl.
    apply liste_interdite_true in Hnon. by rewrite Hnon.
  - intros Hl.
    assert (match liste_fournie corps with
            | Some l => taskController.liste_interdite moi l bd
            | None => false
            end = false) as Hok.
    { destruct (liste_fournie corps) as [l|]; [|done].
      apply liste_interdite_false. by apply Hl. }
    exists (tacheRepository.instance bd uuid
              (Tache.Build (taskController.titre corps)
                 (taskController.ou_null (taskController.description corps)) A_FAIRE
                 (default MOYENNE (taskController.priorite corps))
                 (taskController.date_echeance corps) t None moi (liste_fournie corps))).
    split.
    { destruct (liste_fournie corps) as [l|]; [rewrite Hok|]; reflexivity. }
    split.
    { destruct (liste_fournie corps) as [l|]; [rewrite Hok|];
        unfold taskController.detailTache, tacheRepository.trouverParId; cbn;
        rewrite lookup_insert_eq; cbn; by rewrite bool_decide_eq_true_2. }
    cbn. rewrite ou_null_description. done.
Qed.

Lemma creation_puis_detail_temoin :
  let corps :=
    taskController.MkCorpsCreation "Call Bob" (Some "today") (Some HAUTE) (Some 19800)
      (Some "l1") [("statut", "TERMINEE")] in
  is_Some (utilisateurs bd_essai !! "u1") ∧ taches bd_essai !! "t9" = None
  ∧ ∃ inst,
      (taskController.detailTache "u1" "t9"
         (taskController.creerTache [] "u1" corps "t9" 3000 bd_essai).2).1
      = Succes 200 (DonneesTache (Some inst))
      ∧ Tache.statut (inst_ligne inst) = A_FAIRE
      ∧ Tache.description (inst_ligne inst) = Some "today".
Proof.
  cbn zeta.
  assert (H1 : is_Some (utilisateurs bd_essai !! "u1")) by (by eexists).
  assert (H2 : taches bd_essai !! "t9" = None) by reflexivity.
  split; [exact H1|]. split; [exact H2|].
  destruct (creation_puis_detail "u1"
              (taskController.MkCorpsCreation "Call Bob" (Some "today") (Some HAUTE)
                 (Some 19800) (Some "l1") [("statut", "TERMINEE")])
              "t9" 3000 bd_essai H1 H2) as [_ Hcree].
  destruct Hcree as (inst & _ & Hdetail & _ & _ & Hdesc & Hstatut & _).
  - intros l [= <-]. by eexists.
  - exists inst. split; [exact Hdetail|]. split; [exact Hstatut|exact Hdesc].
Defined.

(** C5, as stated, fails for an empty description: the task is stored, and
    returned by GetTask, with a null description. *)
Lemma creation_description_vide :
  let corps := taskController.MkCorpsCreation "Buy milk" (Some "") None None None [] in
  let bd' := (taskController.creerTache [] "u1" corps "t9" 3000 bd_essai).2 in
  ∃ inst,
    (taskController.detailTache "u1" "t9" bd').1 = Succes 200 (DonneesTache (Some inst))
    ∧ Tache.description (inst_ligne inst) = None
    ∧ Tache.description (inst_ligne inst) ≠ taskController.description corps.
Proof. cbn zeta. eexists. split; [by vm_compute|]. by split. Qed.

(** ** Registration *)

Section proprietes_register.
Context `{!Externe}.




End proprietes_register.




(** A password of five characters is refused, however many bytes it
    takes. *)
Example inscription_mot_de_passe_court :
  @authController.post_register externe_essai isEmail_essai normalizeEmail_essai
    isLength_essai "c@x.com" "ééééé" "Carol" "u3" "sel" 4000 bd_essai
  = (Echec 400 "Le mot de passe doit contenir au moins 6 caractères.", bd_essai).
Proof. by vm_compute. Qed.

(** ** Deleting a list *)

(** What list deletion does to a task. *)
Lemma dissocier_deux_fois (m : gmap string Tache.t) l :
  let f := λ t : Tache.t,
    if decide (Tache.liste_id t = Some l) then Tache.avec_liste_id None t else t in
  f <$> (f <$> m) = f <$> m.
Proof.
  intros f. rewrite <- map_fmap_compose. apply map_fmap_ext.
  intros i x _. unfold f, compose.
  destruct (decide (Tache.liste_id x = Some l)) as [Hx|Hx]; cbn.
  - by rewrite decide_False.
  - by rewrite decide_False.
Qed.

(** C7.  DeleteList by the owner of the list answers 200.  Every task
    stored before is stored after, under the same key: with [liste_id] null
    and its other fields as they were if it referred to the list, entirely
    as it was if not; no task is added or removed; the list is gone and the
    other lists are as they were.  The tasks are dissociated by a statement
    sent before the one that deletes the list, and that first statement
    already leaves the tasks as they end up. *)
Theorem suppression_liste_dissocie (moi id : string) (bd : BD) (l : Liste.t) :
  listes bd !! id = Some l → Liste.utilisateur_id l = moi →
  let rep := (taskController.supprimerListe moi id bd).1 in
  let bd' := (taskController.supprimerListe moi id bd).2 in
  rep = Succes 200 (DonneesMessage "Liste supprimée avec succès.")
  ∧ (∀ j x, taches bd !! j = Some x →
       taches bd' !! j =
         Some (if decide (Tache.liste_id x = Some id)
               then Tache.Build (Tache.titre x) (Tache.description x) (Tache.statut x)
                      (Tache.priorite x) (Tache.date_echeance x) (Tache.date_creation x)
                      (Tache.date_completion x) (Tache.utilisateur_id x) None
               else x))
  ∧ (∀ j, taches bd !! j = None → taches bd' !! j = None)
  ∧ size (taches bd') = size (taches bd)
  ∧ (∀ j x, taches bd' !! j = Some x → Tache.liste_id x ≠ Some id)
  ∧ listes bd' !! id = None
  ∧ (∀ k, k ≠ id → listes bd' !! k = listes bd !! k)
  ∧ journal bd' = journal bd ++ [UpdateTachesDeListe id; DeleteListe id]
  ∧ taches (tacheRepository.dissocierListe id bd) = taches bd'
  ∧ listes (tacheRepository.dissocierListe id bd) !! id = Some l.
Proof.
  intros Hl Ho rep bd'. subst rep bd'.
  unfold taskController.supprimerListe, listeRepository.trouverParId.
  rewrite Hl. rewrite bool_decide_eq_true_2 by done. cbn.
  rewrite dissocier_deux_fois.
  split; [done|]. split.
  { intros j x Hx. rewrite lookup_fmap, Hx. cbn. by case_decide. }
  split.
  { intros j Hj. by rewrite lookup_fmap, Hj. }
  split; [by rewrite map_size_fmap|]. split.
  { intros j x Hx. apply lookup_fmap_Some in Hx as (y & <- & Hy).
    case_decide as Hd; [done|]. done. }
  split; [by rewrite lookup_delete_eq|]. split.
  { intros k Hk. by rewrite lookup_delete_ne. }
  split; [by rewrite <- app_assoc|]. done.
Qed.

Lemma suppression_liste_dissocie_temoin :
  listes bd_essai !! "l1" = Some (Liste.Build "Work" "#FF0000" 0 "u1")
  ∧ Liste.utilisateur_id (Liste.Build "Work" "#FF0000" 0 "u1") = "u1"
  ∧ taches (taskController.supprimerListe "u1" "l1" bd_essai).2 !! "t1"
    = Some (Tache.Build "Buy milk" None A_FAIRE MOYENNE (Some 19723) 2000 None "u1" None)
  ∧ listes (taskController.supprimerListe "u1" "l1" bd_essai).2 !! "l1" = None.
Proof.
  assert (H1 : listes bd_essai !! "l1" = Some (Liste.Build "Work" "#FF0000" 0 "u1"))
    by reflexivity.
  assert (H2 : Liste.utilisateur_id (Liste.Build "Work" "#FF0000" 0 "u1") = "u1")
    by reflexivity.
  split; [exact H1|]. split; [exact H2|].
  destruct (suppression_liste_dissocie "u1" "l1" bd_essai _ H1 H2)
    as (_ & Htaches & _ & _ & _ & Hliste & _).
  split; [|exact Hliste].
  rewrite (Htaches "t1" _ eq_refl). reflexivity.
Defined.

(** ** Listing tasks: order *)

Section tri.
Context {A : Type} (R : relation A).

Lemma StronglySorted_take (l : list A) n :
  StronglySorted R l → StronglySorted R (take n l).
Proof.
  intros Hl. rewrite <- (take_drop n l) in Hl.
  by apply StronglySorted_app_1_l in Hl.
Qed.

Lemma StronglySorted_drop (l : list A) n :
  StronglySorted R l → StronglySorted R (drop n l).
Proof.
  intros Hl. rewrite <- (take_drop n l) in Hl.
  by apply StronglySorted_app_1_r in Hl.
Qed.

Lemma StronglySorted_lookup (l : list A) (i j : nat) a b :
  StronglySorted R l → (i < j)%nat → l !! i = Some a → l !! j = Some b → R a b.
Proof.
  intros Hl Hij Ha Hb. rewrite <- (take_drop j l) in Hl.
  apply (StronglySorted_app_1_elem_of _ _ _ a b Hl).
  - apply list_elem_of_lookup. exists i. by rewrite lookup_take_lt.
  - apply list_elem_of_lookup. exists 0%nat. rewrite lookup_drop.
    by rewrite Nat.add_0_r.
Qed.

End tri.

#[global] Instance ordre_liste_total : Total tacheRepository.ordre_liste.
Proof.
  intros a b. unfold tacheRepository.ordre_liste, tacheRepository.lex. lia.
Qed.

#[global] Instance ordre_liste_trans : Transitive tacheRepository.ordre_liste.
Proof.
  intros a b c. unfold tacheRepository.ordre_liste, tacheRepository.lex. lia.
Qed.

Lemma ordre_liste_attendu a b :
  tacheRepository.ordre_liste a b → ordre_attendu (inst_ligne a) (inst_ligne b).
Proof.
  unfold tacheRepository.ordre_liste, tacheRepository.lex, tacheRepository.cle_tri,
    ordre_attendu. cbn.
  destruct (Tache.date_echeance (inst_ligne a)) as [da|],
           (Tache.date_echeance (inst_ligne b)) as [db|]; cbn;
    intros Hlex; (split; [|split]); try done; try lia.
  - intros ?? [= <-] [= <-]. lia.
  - intros [= ->]. lia.
Qed.

Lemma listerParUtilisateur_trie moi o bd rows n :
  tacheRepository.listerParUtilisateur moi o bd = Some (rows, n) →
  StronglySorted tacheRepository.ordre_liste rows.
Proof.
  unfold tacheRepository.listerParUtilisateur. cbn zeta.
  destruct (_ && _); [|done]. intros Hr. apply (inj Some) in Hr.
  injection Hr as <- _.
  destruct (tacheRepository.limit o <? 0).
  - apply StronglySorted_drop, StronglySorted_merge_sort; apply _.
  - apply StronglySorted_take, StronglySorted_drop, StronglySorted_merge_sort; apply _.
Qed.

(** [listerTaches] answers 500 when the database refuses the page size or
    the offset and 200 with the tasks, the counters and the pagination
    otherwise. *)
Lemma listerTaches_reponse moi q bd :
  let o := tacheRepository.MkOptions (page_de q) (limit_de q) (taskController.q_statut q)
             (taskController.q_priorite q) (taskController.q_liste_id q) in
  taskController.listerTaches moi q bd =
    match tacheRepository.listerParUtilisateur moi o bd with
    | None => (erreur_interne, bd)
    | Some (taches, total) =>
        (Succes 200
           (DonneesTaches taches (tacheRepository.compterParStatut moi bd)
              (MkPagination (page_de q) (limit_de q) total
                 (taskController.plafond_quotient total (limit_de q)))), bd)
    end.
Proof. done. Qed.

Lemma listerParUtilisateur_defini moi o bd :
  tacheRepository.entier_sqlite (tacheRepository.limit o) = true →
  tacheRepository.entier_sqlite
    (tacheRepository.arrondi
       (tacheRepository.arrondi (tacheRepository.page o - 1) * tacheRepository.limit o))
  = true →
  is_Some (tacheRepository.listerParUtilisateur moi o bd).
Proof.
  intros Hl Ho. unfold tacheRepository.listerParUtilisateur. cbn zeta.
  rewrite Hl, Ho. by eexists.
Qed.

Lemma listerTaches_repond moi q bd :
  tacheRepository.entier_sqlite (limit_de q) = true →
  tacheRepository.entier_sqlite (offset_de q) = true →
  ∃ taches c p,
    (taskController.listerTaches moi q bd).1 = Succes 200 (DonneesTaches taches c p).
Proof.
  intros Hl Ho. rewrite listerTaches_reponse. cbn zeta.
  destruct (listerParUtilisateur_defini moi
              (tacheRepository.MkOptions (page_de q) (limit_de q)
                 (taskController.q_statut q) (taskController.q_priorite q)
                 (taskController.q_liste_id q)) bd Hl Ho) as [[rows n] ->].
  cbn. eauto.
Qed.

Lemma listerTaches_refuse moi q bd :
  tacheRepository.entier_sqlite (limit_de q) && tacheRepository.entier_sqlite (offset_de q)
  = false →
  taskController.listerTaches moi q bd = (erreur_interne, bd).
Proof.
  intros Hr. rewrite listerTaches_reponse. cbn zeta.
  unfold tacheRepository.listerParUtilisateur. cbn zeta.
  cbn [tacheRepository.page tacheRepository.limit].
  fold (offset_de q). by rewrite Hr.
Qed.

(** C8.  When ListTasks answers with tasks, any task of the answer and any
    task after it are in the expected order: a task with a due date never
    follows one without, due dates never decrease, and among tasks with the
    same due date, or all without one, creation times never increase.  It
    answers with tasks exactly when the page size and the offset it
    computes are integers that SQLite accepts, strictly between - 2 ^ 63
    and 2 ^ 63, a negative page size included; otherwise it answers
    500. *)
Theorem liste_triee (moi : string) (q : taskController.RequeteListe) (bd : BD) :
  (∀ taches c p,
     (taskController.listerTaches moi q bd).1 = Succes 200 (DonneesTaches taches c p) →
     ∀ (i j : nat) a b,
       (i < j)%nat → taches !! i = Some a → taches !! j = Some b →
       ordre_attendu (inst_ligne a) (inst_ligne b))
  ∧ (tacheRepository.entier_sqlite (limit_de q) = true →
     tacheRepository.entier_sqlite (offset_de q) = true →
     ∃ taches c p,
       (taskController.listerTaches moi q bd).1 = Succes 200 (DonneesTaches taches c p))
  ∧ (tacheRepository.entier_sqlite (limit_de q) && tacheRepository.entier_sqlite (offset_de q)
     = false →
     (taskController.listerTaches moi q bd).1 = erreur_interne).
Proof.
  split; [|split].
  - rewrite listerTaches_reponse. cbn zeta.
    intros taches c p Hrep i j a b Hij Ha Hb.
    destruct (tacheRepository.listerParUtilisateur _ _ _) as [[rows n]|] eqn:Hl;
      [|done].
    cbn in Hrep. injection Hrep as <- _ _.
    apply ordre_liste_attendu.
    eapply StronglySorted_lookup; [|done..].
    by eapply listerParUtilisateur_trie.
  - apply listerTaches_repond.
  - intros Hr. by rewrite (listerTaches_refuse _ _ _ Hr).
Qed.

(** January, then February, then the tasks without due date, the newer
    first. *)
Example liste_triee_exemple :
  match (taskController.listerTaches "u1"
           (taskController.MkRequeteListe None None None None None) bd_tri).1 with
  | Succes 200 (DonneesTaches taches _ _) => inst_id <$> taches = ["t4"; "t2"; "t3"; "t1"]
  | _ => False
  end.
Proof. by vm_compute. Qed.

(** A negative page size lifts the limit: page 1 of size -5 is every task,
    in order, and the number of pages is the ceiling of 4 / -5. *)
Example liste_triee_sans_limite :
  match (taskController.listerTaches "u1"
           (taskController.MkRequeteListe (Some 1) (Some (-5)) None None None) bd_tri).1 with
  | Succes 200 (DonneesTaches taches _ p) =>
      inst_id <$> taches = ["t4"; "t2"; "t3"; "t1"] ∧ p = MkPagination 1 (-5) 4 0
  | _ => False
  end.
Proof. by vm_compute. Qed.

(** A page size of 2 ^ 63 is refused. *)
Example liste_triee_hors_bornes :
  (taskController.listerTaches "u1"
     (taskController.MkRequeteListe (Some 1) (Some (2 ^ 63)) None None None) bd_tri).1
  = erreur_interne.
Proof. by vm_compute. Qed.

Lemma liste_triee_temoin :
  let q := taskController.MkRequeteListe (Some 1) (Some 3) None None None in
  ∃ taches c p,
    (taskController.listerTaches "u1" q bd_tri).1 = Succes 200 (DonneesTaches taches c p)
    ∧ ∀ (i j : nat) a b,
        (i < j)%nat → taches !! i = Some a → taches !! j = Some b →
        ordre_attendu (inst_ligne a) (inst_ligne b).
Proof.
  cbn zeta.
  destruct (liste_triee "u1" (taskController.MkRequeteListe (Some 1) (Some 3) None None None)
              bd_tri) as (Htri & Hdef & _).
  destruct Hdef as (taches & c & p & Hrep); [by vm_compute|by vm_compute|].
  exists taches, c, p. split; [exact Hrep|exact (Htri taches c p Hrep)].
Defined.

(** ** Listing tasks: counters and pagination *)

Lemma compter_foldl (l : list (string * Tache.t)) n a b c :
  foldl (λ c p, tacheRepository.incrementer c (Tache.statut p.2)) (MkCompteurs n a b c) l
  = MkCompteurs n
      (a + Z.of_nat (length (filter (λ p, Tache.statut p.2 = A_FAIRE) l)))
      (b + Z.of_nat (length (filter (λ p, Tache.statut p.2 = EN_COURS) l)))
      (c + Z.of_nat (length (filter (λ p, Tache.statut p.2 = TERMINEE) l))).
Proof.
  revert a b c. induction l as [|[i x] l IH]; intros a b c.
  - cbn. f_equal; lia.
  - cbn [foldl]. rewrite !filter_cons. cbn [snd].
    destruct (Tache.statut x) eqn:Hs; cbn [tacheRepository.incrementer
      total nb_A_FAIRE nb_EN_COURS nb_TERMINEE]; rewrite IH;
      repeat (case_decide; try done); cbn [length]; f_equal; lia.
Qed.

Lemma compterParStatut_valeur moi bd :
  tacheRepository.compterParStatut moi bd
  = MkCompteurs (Z.of_nat (length (possedees moi bd)))
      (nombre_avec_statut A_FAIRE moi bd) (nombre_avec_statut EN_COURS moi bd)
      (nombre_avec_statut TERMINEE moi bd).
Proof.
  unfold tacheRepository.compterParStatut. rewrite compter_foldl. done.
Qed.


Lemma filtre_satisfait_iff {V} (f : option string) (v : V) (nom : V → option string)
    (colonne : string → bool) :
  (∀ s, colonne s = true ↔ nom v = Some s) →
  tacheRepository.filtre f colonne = true ↔ filtre_satisfait f v nom.
Proof.
  intros Hc. unfold tacheRepository.filtre, filtre_satisfait, vrai.
  destruct f as [s|]; [|done].
  destruct (String.eqb_spec s "") as [->|Hs]; cbn.
  - naive_solver.
  - rewrite Hc. naive_solver.
Qed.

Lemma where_liste_correspond moi (q : taskController.RequeteListe) page limit bd i x :
  tacheRepository.where_liste moi
    (tacheRepository.MkOptions page limit (taskController.q_statut q)
       (taskController.q_priorite q) (taskController.q_liste_id q))
    (tacheRepository.instance bd i x) = true
  ↔ correspond moi q x.
Proof.
  unfold tacheRepository.where_liste, correspond. cbn.
  rewrite !andb_true_iff, bool_decide_eq_true.
  rewrite (filtre_satisfait_iff _ (Tache.statut x) (λ s, Some (statut_nom s))).
  2:{ intros s. rewrite bool_decide_eq_true. naive_solver. }
  rewrite (filtre_satisfait_iff _ (Tache.priorite x) (λ p, Some (priorite_nom p))).
  2:{ intros s. rewrite bool_decide_eq_true. naive_solver. }
  rewrite (filtre_satisfait_iff _ (Tache.liste_id x) (λ l, l)).
  2:{ intros s. by rewrite bool_decide_eq_true. }
  naive_solver.
Qed.

Lemma length_filter_fmap {A B} (f : A → B) (P : B → Prop) (Q : A → Prop)
    `{!∀ b, Decision (P b)} `{!∀ a, Decision (Q a)} (l : list A) :
  (∀ a, P (f a) ↔ Q a) →
  length (filter P (f <$> l)) = length (filter Q l).
Proof.
  intros HPQ. induction l as [|a l IH]; [done|].
  cbn [fmap list_fmap]. rewrite !filter_cons.
  destruct (decide (P (f a))) as [HP|HP], (decide (Q a)) as [HQ|HQ]; cbn;
    try (by rewrite IH); by (apply HPQ in HP || apply HPQ in HQ).
Qed.

Lemma listerParUtilisateur_total moi (q : taskController.RequeteListe) page limit bd rows n :
  tacheRepository.listerParUtilisateur moi
    (tacheRepository.MkOptions page limit (taskController.q_statut q)
       (taskController.q_priorite q) (taskController.q_liste_id q)) bd
  = Some (rows, n) →
  n = nombre_correspondant moi q bd.
Proof.
  unfold tacheRepository.listerParUtilisateur. cbn zeta.
  destruct (_ && _); [|done]. intros Hr. apply (inj Some) in Hr.
  injection Hr as _ <-.
  unfold nombre_correspondant, tacheRepository.instances. f_equal.
  apply length_filter_fmap. intros [i x]. cbn. apply where_liste_correspond.
Qed.

Lemma plafond_quotient_plafond total limit :
  1 ≤ limit →
  let pages := taskController.plafond_quotient total limit in
  (pages - 1) * limit < total ≤ pages * limit.
Proof.
  intros Hl. unfold taskController.plafond_quotient. cbn zeta.
  pose proof (Z.div_mod (- total) limit ltac:(lia)) as Hdm.
  pose proof (Z.mod_pos_bound (- total) limit ltac:(lia)) as Hb.
  nia.
Qed.



Lemma listerTaches_succes moi q bd taches c p :
  (taskController.listerTaches moi q bd).1 = Succes 200 (DonneesTaches taches c p) →
  c = tacheRepository.compterParStatut moi bd
  ∧ p = MkPagination (page_de q) (limit_de q) (nombre_correspondant moi q bd)
          (taskController.plafond_quotient (nombre_correspondant moi q bd) (limit_de q)).
Proof.
  rewrite listerTaches_reponse. cbn zeta.
  destruct (tacheRepository.listerParUtilisateur _ _ _) as [[rows n]|] eqn:Hl; [|done].
  apply listerParUtilisateur_total in Hl as ->.
  cbn. intros [= _ <- <-]. by split.
Qed.



(** Two tasks owned, one of them kept by the filter, on pages of one. *)
Example compteurs_et_pagination_exemple :
  (taskController.listerTaches "u1"
     (taskController.MkRequeteListe (Some 1) (Some 1) (Some "TERMINEE") None None)
     bd_essai).1
  = Succes 200
      (DonneesTaches
         [tacheRepository.instance bd_essai "t2"
            (Tache.Build "abc" (Some "Call Bob") TERMINEE HAUTE None 2001 (Some 2500)
               "u1" (Some "l1"))]
         (MkCompteurs 2 1 0 1) (MkPagination 1 1 1 1)).
Proof. by vm_compute. Qed.

(** ** Stored tasks as the queries return them *)

Lemma instances_elem bd i :
  i ∈ tacheRepository.instances bd
  ↔ ∃ id x, taches bd !! id = Some x ∧ i = tacheRepository.instance bd id x.
Proof.
  unfold tacheRepository.instances. rewrite list_elem_of_fmap. split.
  - intros ([id x] & -> & Hin). apply elem_of_map_to_list in Hin. eauto.
  - intros (id & x & Hx & ->). exists (id, x). split; [done|].
    by apply elem_of_map_to_list.
Qed.

Lemma instances_NoDup bd : NoDup (tacheRepository.instances bd).
Proof.
  unfold tacheRepository.instances.
  apply (NoDup_fmap_2_strong _); [|apply NoDup_map_to_list].
  intros [i x] [j y] _ _ Heq. cbn in Heq.
  unfold tacheRepository.instance in Heq. by injection Heq as -> ->.
Qed.

(** ** Search *)

Lemma length_zero_vide s : (String.length s =? 0)%nat = true ↔ s = "".
Proof. destruct s; cbn; split; done. Qed.

Lemma rechercher_reponse moi q bd :
  taskController.rechercher moi q bd
  = (if negb (vrai q) || (String.length (trim (default "" q)) =? 0)%nat
     then taskController.recherche_requise
     else erreur_interne,
     bd).
Proof. unfold taskController.rechercher. by destruct (_ || _). Qed.

Lemma rechercher_requise moi q bd :
  (taskController.rechercher moi q bd).1 = taskController.recherche_requise
  ↔ q = None ∨ ∃ s, q = Some s ∧ trim s = "".
Proof.
  rewrite rechercher_reponse. cbn [fst].
  destruct q as [s|]; [|cbn; naive_solver].
  change (default "" (Some s)) with s.
  pose proof (length_zero_vide (trim s)) as Hz.
  remember (trim s) as k eqn:Hk.
  unfold vrai.
  destruct (String.eqb_spec s "") as [Hs|Hs]; cbn [negb orb].
  - split; [intros _; right; exists s; split; [done|]|done].
    rewrite Hs. reflexivity.
  - destruct (String.length k =? 0)%nat eqn:Hl.
    + split; [intros _; right; exists s; split; [done|]|done].
      rewrite <- Hk. by apply Hz.
    + split; [done|]. intros [|(s' & Hs' & Hb)]; [done|].
      apply (inj Some) in Hs'. subst s'. rewrite <- Hk in Hb.
      apply Hz in Hb. congruence.
Qed.

(** C10, where the code is wrong.  Search answers 400 exactly when the
    keyword is missing, empty, or empty once the white space at its two
    ends is removed, as the claim says; for every other keyword it answers
    500 "Erreur interne du serveur.", whatever the tasks are.  So it
    never returns a task, and never writes.  The user "u1" who owns the
    task "Buy milk" and searches for "milk" is answered 500. *)
Theorem recherche_en_echec :
  (∀ (moi : string) (q : option string) (bd : BD),
     ((taskController.rechercher moi q bd).1 = taskController.recherche_requise
      ↔ q = None ∨ ∃ s, q = Some s ∧ trim s = "")
     ∧ ((taskController.rechercher moi q bd).1 = erreur_interne
        ↔ ∃ s, q = Some s ∧ trim s ≠ "")
     ∧ (∀ resultat,
          (taskController.rechercher moi q bd).1 ≠ Succes 200 (DonneesRecherche resultat))
     ∧ (taskController.rechercher moi q bd).2 = bd)
  ∧ status_de taskController.recherche_requise = 400
  ∧ status_de erreur_interne = 500
  ∧ (∃ x, taches bd_essai !! "t1" = Some x ∧ Tache.utilisateur_id x = "u1"
          ∧ Tache.titre x = "Buy milk" ∧ mentionne "milk" x)
  ∧ taskController.rechercher "u1" (Some "milk") bd_essai = (erreur_interne, bd_essai).
Proof.
  split; [|split; [done|split; [done|split]]].
  - intros moi q bd. split; [apply rechercher_requise|].
    pose proof (rechercher_requise moi q bd) as Hreq.
    rewrite rechercher_reponse in *. cbn [fst snd] in *.
    destruct (negb (vrai q) || _) eqn:Hb.
    + split; [|split; [done|done]]. split; [done|].
      intros (s & -> & Hs). destruct Hreq as [Hreq _].
      destruct (Hreq eq_refl) as [|(s' & Hs' & Hvide)]; [done|].
      apply (inj Some) in Hs'. by subst s'.
    + split; [|split; [done|done]]. split; [|done]. intros _.
      destruct q as [s|]; [|done]. exists s. split; [done|].
      intros Hvide. destruct Hreq as [_ Hreq].
      assert (taskController.recherche_requise = erreur_interne) as Habs; [|done].
      symmetry. apply Hreq. right. by exists s.
  - eexists. split; [by vm_compute|]. split; [done|]. split; [done|]. by left.
  - by vm_compute.
Qed.

(** White space beyond the ASCII range is removed as well: a no-break space
    (U+00A0) before the keyword and a line separator (U+2028) after it;
    a keyword made of a no-break space only is answered 400. *)
Example trim_unicode :
  let nbsp := String (ascii_of_nat 194) (String (ascii_of_nat 160) EmptyString) in
  let ls :=
    String (ascii_of_nat 226)
      (String (ascii_of_nat 128) (String (ascii_of_nat 168) EmptyString)) in
  trim (nbsp +:+ " Buy milk" +:+ ls) = "Buy milk"
  ∧ taskController.rechercher "u1" (Some nbsp) bd_essai
    = (taskController.recherche_requise, bd_essai).
Proof. by vm_compute. Qed.

(** ** The statements at work on the sample database *)

Lemma modification_acceptee_essai :
  modification_acceptee [] "u1" "t1"
    (taskController.MkCorpsModification None None (Some TERMINEE) None None None)
    bd_essai
    (Tache.Build "Buy milk" None A_FAIRE MOYENNE (Some 19723) 2000 None "u1" (Some "l1")).
Proof. repeat split. intros l Hl. discriminate Hl. Defined.

Lemma existence_avant_propriete_temoin :
  (taskController.detailTache "u2" "t1" bd_essai).1
  = Echec 403 "Accès non autorisé à cette tâche."
  ∧ (taskController.detailTache "u2" "t7" bd_essai).1 = Echec 404 "Tâche non trouvée.".
Proof.
  pose (corpsT := taskController.MkCorpsModification None None None None None None).
  pose (corpsL := listeRepository.MkDonnees None None None).
  pose (corpsC := taskController.MkCorpsCreation "Buy milk" None None None None []).
  split.
  - destruct (existence_avant_propriete "u2" "t1" 0 bd_essai corpsT corpsL corpsC "t9")
      as [[_ Hinterdit] _].
    apply Hinterdit. exists "u1". split; [reflexivity|discriminate].
  - destruct (existence_avant_propriete "u2" "t7" 0 bd_essai corpsT corpsL corpsC "t9")
      as [[Hintrouvable _] _].
    apply Hintrouvable. reflexivity.
Defined.

Lemma completion_ssi_terminee_temoin :
  ∃ y,
    taches (taskController.modifierTache [] "u1" "t1"
              (taskController.MkCorpsModification None None (Some TERMINEE) None None None)
              3000 bd_essai).2 !! "t1" = Some y
    ∧ Tache.statut y = TERMINEE ∧ Tache.date_completion y = Some 3000.
Proof.
  destruct (@completion_ssi_terminee externe_essai) as (_ & _ & _ & Hmaj).
  destruct (Hmaj [] "u1" "t1" _ 3000 bd_essai _ modification_acceptee_essai)
    as (y & Hy & Hs & Hd & _).
  exists y. split; [exact Hy|]. split; [exact Hs|]. apply Hd. reflexivity.
Defined.

Lemma historique_une_entree_par_changement_temoin :
  historique (taskController.modifierTache [] "u1" "t1"
                (taskController.MkCorpsModification None None (Some TERMINEE) None None None)
                3000 bd_essai).2
  = [HistoriqueModification.Build "t1" A_FAIRE TERMINEE 3000].
Proof.
  destruct historique_une_entree_par_changement as (_ & Hmaj & _ & _).
  exact (proj1 (Hmaj [] "u1" "t1" _ 3000 bd_essai _ modification_acceptee_essai)).
Defined.

(** * Further properties *)

(** ** The users table along the requests *)

Section evolution.
Context `{!Externe}.

Lemma register_evolution erreurs email mdp nom uuid sel t bd :
  evolution_utilisateurs (utilisateurs bd)
    (utilisateurs (authController.register erreurs email mdp nom uuid sel t bd).2).
Proof.
  unfold authController.register, utilisateurRepository.creer.
  destruct erreurs; [|by left].
  destruct (utilisateurRepository.trouverParEmail email bd) eqn:Hf; [by left|].
  destruct (utilisateurs bd !! uuid) eqn:Hu; [by left|].
  right; left. rewrite trouverParEmail_None in Hf.
  eexists uuid, _. split; [done|]. split; [|split; [|reflexivity]]; [|done].
  intros j v Hv. cbn. by apply (Hf j v).
Qed.

Lemma login_evolution erreurs email mdp t bd :
  evolution_utilisateurs (utilisateurs bd)
    (utilisateurs (authController.login erreurs email mdp t bd).2).
Proof.
  unfold authController.login.
  destruct erreurs; [|by left].
  destruct (utilisateurRepository.trouverParEmail email bd) as [[id u]|] eqn:Hf;
    [|by left].
  apply trouverParEmail_Some in Hf as [Hu He].
  case_bool_decide as Hn; [by left|].
  unfold appConfig.maxLoginAttempts in Hn.
  assert (Hevo : ∀ k, (k = Utilisateur.tentatives_echec u + 1 ∨ k = 0) →
            evolution_utilisateurs (utilisateurs bd)
              (alter (Utilisateur.avec_tentatives_echec k) id (utilisateurs bd))).
  { intros k Hk. right; right. exists id, u, (Utilisateur.avec_tentatives_echec k u).
    split; [done|]. split; [done|]. split; [right; split; [lia|done]|].
    by apply alter_lookup_Some. }
  destruct (negb _); cbn.
  - unfold utilisateurRepository.incrementerTentativesEchec, avec_utilisateurs.
    cbn [utilisateurs].
    assert (alter (λ u0, Utilisateur.avec_tentatives_echec
                           (Utilisateur.tentatives_echec u0 + 1) u0) id (utilisateurs bd)
            = alter (Utilisateur.avec_tentatives_echec
                       (Utilisateur.tentatives_echec u + 1)) id (utilisateurs bd)) as Heq.
    { by rewrite !(alter_lookup_Some _ _ _ _ Hu). }
    rewrite Heq.
    destruct (alter _ _ _ !! id); [case_bool_decide|]; cbn [snd utilisateurs];
      apply Hevo; by left.
  - apply Hevo. by right.
Qed.

Lemma alter_evolution (f : Utilisateur.t → Utilisateur.t) id (m : gmap string Utilisateur.t) :
  (∀ u, Utilisateur.email (f u) = Utilisateur.email u
        ∧ Utilisateur.tentatives_echec (f u) = Utilisateur.tentatives_echec u) →
  evolution_utilisateurs m (alter f id m).
Proof.
  intros Hf. destruct (m !! id) as [u|] eqn:Hu.
  - right; right. exists id, u, (f u). destruct (Hf u) as [He Hn].
    split; [done|]. split; [done|]. split; [by left|]. by apply alter_lookup_Some.
  - left. by apply alter_lookup_None.
Qed.

Lemma updateProfil_evolution erreurs moi nom bd :
  evolution_utilisateurs (utilisateurs bd)
    (utilisateurs (authController.updateProfil erreurs moi nom bd).2).
Proof.
  unfold authController.updateProfil. destruct erreurs; [|by left].
  cbn. by apply alter_evolution.
Qed.

Lemma changePassword_evolution erreurs moi ancien nouveau sel bd :
  evolution_utilisateurs (utilisateurs bd)
    (utilisateurs (authController.changePassword erreurs moi ancien nouveau sel bd).2).
Proof.
  unfold authController.changePassword. destruct erreurs; [|by left].
  destruct (utilisateurRepository.trouverParIdAvecMotDePasse moi bd); [|by left].
  destruct (negb _); [by left|]. cbn. by apply alter_evolution.
Qed.

End evolution.

(** The handlers of the task controller do not write to the users table. *)
Lemma creerTache_utilisateurs erreurs moi corps uuid t bd :
  utilisateurs (taskController.creerTache erreurs moi corps uuid t bd).2 = utilisateurs bd.
Proof.
  unfold taskController.creerTache, tacheRepository.creer.
  destruct erreurs; [|done]. destruct (_ && _); [done|].
  destruct (taches bd !! uuid); [done|]. by destruct (utilisateurs bd !! _).
Qed.

Lemma modifierTache_utilisateurs erreurs moi id corps t bd :
  utilisateurs (taskController.modifierTache erreurs moi id corps t bd).2 = utilisateurs bd.
Proof.
  destruct (modification_acceptee_dec erreurs moi id corps bd) as [[x Hacc]|Hnon].
  - by rewrite (modifierTache_acceptee _ _ _ _ t _ _ Hacc).
  - by rewrite modifierTache_refusee.
Qed.

Lemma supprimerTache_utilisateurs moi id bd :
  utilisateurs (taskController.supprimerTache moi id bd).2 = utilisateurs bd.
Proof.
  unfold taskController.supprimerTache.
  destruct (tacheRepository.trouverParId id bd); [|done]. by destruct (negb _).
Qed.

Lemma creerListe_utilisateurs erreurs moi nom couleur ordre uuid bd :
  utilisateurs (taskController.creerListe erreurs moi nom couleur ordre uuid bd).2
  = utilisateurs bd.
Proof.
  unfold taskController.creerListe, listeRepository.creer.
  destruct erreurs; [|done].
  destruct (listes bd !! uuid); [done|]. by destruct (utilisateurs bd !! _).
Qed.

Lemma modifierListe_utilisateurs erreurs moi id corps bd :
  utilisateurs (taskController.modifierListe erreurs moi id corps bd).2 = utilisateurs bd.
Proof.
  unfold taskController.modifierListe. destruct erreurs; [|done].
  destruct (listeRepository.trouverParId id bd); [|done]. by destruct (negb _).
Qed.

Lemma supprimerListe_utilisateurs moi id bd :
  utilisateurs (taskController.supprimerListe moi id bd).2 = utilisateurs bd.
Proof.
  unfold taskController.supprimerListe.
  destruct (listeRepository.trouverParId id bd); [|done]. by destruct (negb _).
Qed.

Lemma listerTaches_inchange moi q bd : (taskController.listerTaches moi q bd).2 = bd.
Proof.
  unfold taskController.listerTaches.
  by destruct (tacheRepository.listerParUtilisateur _ _ _) as [[??]|].
Qed.

Lemma detailTache_inchange moi id bd : (taskController.detailTache moi id bd).2 = bd.
Proof.
  unfold taskController.detailTache.
  destruct (tacheRepository.trouverParId id bd); [|done]. by destruct (negb _).
Qed.

Lemma rechercher_inchange moi q bd : (taskController.rechercher moi q bd).2 = bd.
Proof. unfold taskController.rechercher. by destruct (_ || _). Qed.

Lemma executer_evolution `{!Externe} op bd :
  evolution_utilisateurs (utilisateurs bd) (utilisateurs (executer op bd).2).
Proof.
  destruct op; cbn [executer].
  - apply register_evolution.
  - apply login_evolution.
  - apply updateProfil_evolution.
  - apply changePassword_evolution.
  - left. apply creerTache_utilisateurs.
  - left. by rewrite listerTaches_inchange.
  - left. by rewrite detailTache_inchange.
  - left. apply modifierTache_utilisateurs.
  - left. apply supprimerTache_utilisateurs.
  - left. by rewrite rechercher_inchange.
  - left. apply creerListe_utilisateurs.
  - left. apply modifierListe_utilisateurs.
  - left. apply supprimerListe_utilisateurs.
Qed.

Lemma email_unique_evolution bd bd' :
  evolution_utilisateurs (utilisateurs bd) (utilisateurs bd') →
  email_unique bd → email_unique bd'.
Proof.
  unfold email_unique.
  intros [->|[(id & u & Hid & Hnew & _ & ->)|(id & u & u' & Hid & He & _ & ->)]] Huniq;
    [done| |]; intros i j v w; rewrite !lookup_insert;
    destruct (decide (id = i)) as [Hi|Hi]; destruct (decide (id = j)) as [Hj|Hj];
    intros Hv Hw Hvw; simplify_eq; try done.
  - by destruct (Hnew j w Hw).
  - by destruct (Hnew i v Hv).
  - eauto.
  - apply (Huniq i j u w); [done|done|congruence].
  - apply (Huniq i j v u); [done|done|congruence].
  - eauto.
Qed.

Lemma compteurs_bornes_evolution bd bd' :
  evolution_utilisateurs (utilisateurs bd) (utilisateurs bd') →
  compteurs_bornes bd → compteurs_bornes bd'.
Proof.
  unfold compteurs_bornes.
  intros [->|[(id & u & Hid & _ & Hz & ->)|(id & u & u' & Hid & _ & Hn & ->)]] Hb;
    [done| |]; intros i v; rewrite lookup_insert;
    destruct (decide (id = i)) as [Hi|Hi]; intros Hv; simplify_eq; eauto; try lia.
  specialize (Hb _ _ Hid). lia.
Qed.

Lemma derouler_snoc `{!Externe} ops op bd :
  derouler (ops ++ [op]) bd = (executer op (derouler ops bd)).2.
Proof. unfold derouler. by rewrite foldl_app. Qed.

Lemma emails_uniques_pas `{!Externe} op bd :
  email_unique bd → email_unique (executer op bd).2.
Proof. apply email_unique_evolution, executer_evolution. Qed.

(** X1.  Every request keeps the emails of the stored users pairwise
    distinct; they are so in every database reached from the empty
    one. *)
Theorem emails_uniques_toujours `{!Externe} :
  (∀ op bd, email_unique bd → email_unique (executer op bd).2)
  ∧ (∀ ops, email_unique (derouler ops bd_vide)).
Proof.
  assert (Hpas : ∀ op bd, email_unique bd → email_unique (executer op bd).2).
  { intros op bd. apply email_unique_evolution, executer_evolution. }
  split; [done|].
  intros ops. induction ops as [|op ops IH] using rev_ind.
  - intros i j u v Hu. cbn in Hu. by rewrite lookup_empty in Hu.
  - rewrite derouler_snoc. by apply Hpas.
Qed.

(** X2.  Every request keeps the failed-login counters between 0 and 3;
    they are so in every database reached from the empty one. *)
Theorem compteurs_bornes_toujours `{!Externe} :
  (∀ op bd, compteurs_bornes bd → compteurs_bornes (executer op bd).2)
  ∧ (∀ ops, compteurs_bornes (derouler ops bd_vide)).
Proof.
  assert (Hpas : ∀ op bd, compteurs_bornes bd → compteurs_bornes (executer op bd).2).
  { intros op bd. apply compteurs_bornes_evolution, executer_evolution. }
  split; [done|].
  intros ops. induction ops as [|op ops IH] using rev_ind.
  - intros i u Hu. cbn in Hu. by rewrite lookup_empty in Hu.
  - rewrite derouler_snoc. by apply Hpas.
Qed.

Lemma verrou_evolution (m m' : gmap string Utilisateur.t) id u :
  evolution_utilisateurs m m' →
  m !! id = Some u → 3 ≤ Utilisateur.tentatives_echec u →
  ∃ u', m' !! id = Some u' ∧ Utilisateur.email u' = Utilisateur.email u
        ∧ 3 ≤ Utilisateur.tentatives_echec u'.
Proof.
  intros [->|[(j & v & Hj & _ & _ & ->)|(j & v & v' & Hj & He & Hn & ->)]] Hu Hverrou.
  - eauto.
  - exists u. rewrite lookup_insert_ne by congruence. done.
  - destruct (decide (j = id)) as [->|Hne].
    + exists v'. rewrite lookup_insert_eq. simplify_eq.
      split; [done|]. split; [done|]. lia.
    + exists u. by rewrite lookup_insert_ne.
Qed.

(** X3.  A locked account stays locked: if a stored user's counter has
    reached 3, then after any sequence of requests the user is still
    stored, with the same email and a counter of at least 3, and, the
    emails being unique, a login with that email is answered 423 whatever
    the password. *)
Theorem verrou_permanent `{!Externe} (ops : list Operation) (bd : BD)
    (id : string) (u : Utilisateur.t) (mdp : string) (t : Z) :
  email_unique bd →
  utilisateurs bd !! id = Some u → 3 ≤ Utilisateur.tentatives_echec u →
  (∃ u', utilisateurs (derouler ops bd) !! id = Some u'
         ∧ Utilisateur.email u' = Utilisateur.email u
         ∧ 3 ≤ Utilisateur.tentatives_echec u')
  ∧ (authController.login [] (Utilisateur.email u) mdp t (derouler ops bd)).1
    = Echec 423
        "Compte verrouillé suite à trop de tentatives échouées. Contactez un administrateur.".
Proof.
  intros Huniq Hu Hverrou.
  assert (Hfin : email_unique (derouler ops bd)
                 ∧ ∃ u', utilisateurs (derouler ops bd) !! id = Some u'
                         ∧ Utilisateur.email u' = Utilisateur.email u
                         ∧ 3 ≤ Utilisateur.tentatives_echec u').
  { induction ops as [|op ops IH] using rev_ind; [by eauto|].
    rewrite derouler_snoc. destruct IH as (Hq & u' & Hu' & He' & Hn').
    split; [by apply emails_uniques_pas|].
    destruct (verrou_evolution _ _ id u' (executer_evolution op (derouler ops bd)) Hu' Hn')
      as (u'' & Hu'' & He'' & Hn'').
    exists u''. split; [done|]. split; [congruence|done]. }
  destruct Hfin as (Hq & u' & Hu' & He' & Hn'). split; [by eauto|].
  by rewrite (login_verrouille _ _ _ _ id u' Hq Hu' He' Hn').
Qed.

Lemma email_unique_singleton id u l t h j :
  email_unique (MkBD {[ id := u ]} l t h j).
Proof.
  intros i k v w Hi Hk _. cbn in Hi, Hk.
  apply lookup_singleton_Some in Hi as [<- _].
  by apply lookup_singleton_Some in Hk as [<- _].
Qed.

Lemma verrou_permanent_temoin :
  let ops := [OpChangePassword [] "u1" "secret1" "secret2" "sel";
              OpLogin [] "a@x.com" "secret2" 2000] in
  email_unique bd_verrou
  ∧ utilisateurs bd_verrou !! "u1"
    = Some (Utilisateur.Build "a@x.com" "Alice" "sel$secret1" 1000 true 3)
  ∧ (@authController.login externe_essai [] "a@x.com" "secret2" 3000
       (@derouler externe_essai ops bd_verrou)).1
    = Echec 423
        "Compte verrouillé suite à trop de tentatives échouées. Contactez un administrateur.".
Proof.
  cbn zeta.
  assert (H1 : email_unique bd_verrou) by apply email_unique_singleton.
  split; [exact H1|]. split; [reflexivity|].
  refine (proj2 (@verrou_permanent externe_essai _ bd_verrou "u1" _ "secret2" 3000
                   H1 eq_refl _)).
  cbn. lia.
Defined.

(** ** Registration, login and password change together *)

Section comptes.
Context `{!Externe}.



End comptes.



Lemma changePassword_resultat `{!Externe} moi ancien nouveau sel bd u :
  utilisateurs bd !! moi = Some u →
  authController.changePassword [] moi ancien nouveau sel bd
  = if bcrypt_compare ancien (Utilisateur.mot_de_passe_hash u) then
      (Succes 200 (DonneesMessage "Mot de passe modifié avec succès."),
       MkBD (<[moi := Utilisateur.avec_mot_de_passe_hash (bcrypt_hash nouveau 10 sel) u]>
               (utilisateurs bd))
         (listes bd) (taches bd) (historique bd) (journal bd ++ [UpdateUtilisateur moi]))
    else (Echec 400 "L'ancien mot de passe est incorrect.", bd).
Proof.
  intros Hu.
  unfold authController.changePassword, utilisateurRepository.trouverParIdAvecMotDePasse.
  rewrite Hu. destruct (bcrypt_compare _ _); cbn; [|done].
  unfold utilisateurRepository.mettreAJourMotDePasse, avec_utilisateurs.
  by rewrite (alter_lookup_Some _ _ _ _ Hu).
Qed.

(** X5.  Changing the password, for a request that passed validation, on
    a database whose emails are unique.  A requester that is not stored is
    answered 404, a wrong old password 400, and neither writes.  With the
    right old password the answer is 200 and only the hash of the requester
    changes, to bcrypt's hash of the new password; the failed-login
    counter is not reset.  Afterwards a login with the new password is
    answered 200, or 423 if the account was locked, and a login with a
    password that bcrypt does not recognise in the new hash, such as the
    old one, is never answered 200. *)
Theorem changement_mot_de_passe `{!Externe} (moi ancien nouveau sel : string) (bd : BD)
    (t : Z) :
  email_unique bd →
  let res := authController.changePassword [] moi ancien nouveau sel bd in
  (utilisateurs bd !! moi = None → res = (Echec 404 "Utilisateur non trouvé.", bd))
  ∧ (∀ u, utilisateurs bd !! moi = Some u →
       let h := bcrypt_hash nouveau 10 sel in
       (bcrypt_compare ancien (Utilisateur.mot_de_passe_hash u) = false →
        res = (Echec 400 "L'ancien mot de passe est incorrect.", bd))
       ∧ (bcrypt_compare ancien (Utilisateur.mot_de_passe_hash u) = true →
          res.1 = Succes 200 (DonneesMessage "Mot de passe modifié avec succès.")
          ∧ utilisateurs res.2
            = <[moi := Utilisateur.Build (Utilisateur.email u) (Utilisateur.nom_affichage u)
                         h (Utilisateur.date_creation u) (Utilisateur.actif u)
                         (Utilisateur.tentatives_echec u)]> (utilisateurs bd)
          ∧ (bcrypt_compare nouveau h = true →
             status_de (authController.login [] (Utilisateur.email u) nouveau t res.2).1
             = if bool_decide (3 ≤ Utilisateur.tentatives_echec u) then 423 else 200)
          ∧ (∀ mdp, bcrypt_compare mdp h = false →
               status_de (authController.login [] (Utilisateur.email u) mdp t res.2).1
               ≠ 200))).
Proof.
  intros Huniq res. subst res. split.
  { intros Hnon.
    unfold authController.changePassword, utilisateurRepository.trouverParIdAvecMotDePasse.
    by rewrite Hnon. }
  intros u Hu h. rewrite (changePassword_resultat _ _ _ _ _ _ Hu). split.
  { by intros ->. }
  intros ->. cbn [fst snd utilisateurs]. split; [done|]. split; [done|].
  set (u' := Utilisateur.avec_mot_de_passe_hash (bcrypt_hash nouveau 10 sel) u).
  set (bd1 := MkBD _ _ _ _ _).
  assert (Huniq1 : email_unique bd1).
  { apply (email_unique_evolution bd); [|done]. right; right.
    exists moi, u, u'. split; [done|]. split; [done|]. split; [by left|done]. }
  assert (Hu1 : utilisateurs bd1 !! moi = Some u') by apply lookup_insert_eq.
  split.
  - intros Hnouveau. case_bool_decide as Hn.
    + by rewrite (login_verrouille _ _ _ _ moi u' Huniq1 Hu1).
    + rewrite (login_reussi _ _ _ _ moi u' Huniq1 Hu1); try done.
      cbn. unfold appConfig.maxLoginAttempts. lia.
  - intros mdp Hmdp.
    destruct (decide (3 ≤ Utilisateur.tentatives_echec u)) as [Hn|Hn].
    + by rewrite (login_verrouille _ _ _ _ moi u' Huniq1 Hu1).
    + rewrite (login_mauvais_mot_de_passe _ _ _ _ moi u' Huniq1 Hu1); try done.
      * cbn [fst]. by case_bool_decide.
      * cbn. unfold appConfig.maxLoginAttempts. lia.
Qed.

Lemma changement_mot_de_passe_temoin :
  let bd1 :=
    (@authController.changePassword externe_essai [] "u1" "secret1" "secret9" "sel"
       bd_essai).2 in
  email_unique bd_essai
  ∧ status_de (@authController.login externe_essai [] "a@x.com" "secret9" 5000 bd1).1 = 200
  ∧ status_de (@authController.login externe_essai [] "a@x.com" "secret1" 5000 bd1).1 ≠ 200.
Proof.
  cbn zeta. split; [exact email_unique_bd_essai|].
  destruct (@changement_mot_de_passe externe_essai "u1" "secret1" "secret9" "sel" bd_essai
              5000 email_unique_bd_essai) as [_ Hstocke].
  destruct (Hstocke alice eq_refl) as [_ Hbon].
  destruct (Hbon eq_refl) as (_ & _ & Hnouveau & Hautre).
  split; [exact (Hnouveau eq_refl)|exact (Hautre "secret1" eq_refl)].
Defined.

(** ** Profile *)

(** X6.  Updating the display name, for a request that passed validation.
    For a stored requester the answer is 200 with the profile carrying the
    new name, only the display name of that user changes, and GetProfile
    then gives the same profile.  For a requester that is not stored the
    answer is still 200, with a null user, and no row changes, whereas
    GetProfile answers 404.  Lists, tasks and history are never
    touched. *)
Theorem profil_mis_a_jour (moi nom : string) (bd : BD) :
  let res := authController.updateProfil [] moi nom bd in
  (utilisateurs bd !! moi = None →
   res.1 = Succes 200 (DonneesProfil None)
   ∧ utilisateurs res.2 = utilisateurs bd
   ∧ (authProfil.getProfil moi res.2).1 = Echec 404 "Utilisateur non trouvé.")
  ∧ (∀ u, utilisateurs bd !! moi = Some u →
       let profil :=
         MkProfil moi (Utilisateur.email u) nom (Utilisateur.date_creation u)
           (Utilisateur.actif u) (Utilisateur.tentatives_echec u) in
       res.1 = Succes 200 (DonneesProfil (Some profil))
       ∧ (authProfil.getProfil moi res.2).1 = Succes 200 (DonneesProfil (Some profil))
       ∧ utilisateurs res.2
         = <[moi := Utilisateur.Build (Utilisateur.email u) nom
                      (Utilisateur.mot_de_passe_hash u) (Utilisateur.date_creation u)
                      (Utilisateur.actif u) (Utilisateur.tentatives_echec u)]>
             (utilisateurs bd))
  ∧ listes res.2 = listes bd ∧ taches res.2 = taches bd
  ∧ historique res.2 = historique bd.
Proof.
  cbn zeta.
  unfold authController.updateProfil, utilisateurRepository.mettreAJour,
    authProfil.getProfil, utilisateurRepository.trouverParId, avec_utilisateurs.
  cbn [fst snd utilisateurs listes taches historique].
  split; [|split; [|done]].
  - intros Hnon. rewrite (alter_lookup_None _ _ _ Hnon), Hnon. done.
  - intros u Hu. rewrite (alter_lookup_Some _ _ _ _ Hu), lookup_insert_eq. done.
Qed.

(** ** What each request writes to lists, tasks and history *)

Lemma creerTache_effet erreurs moi corps uuid t bd :
  let bd' := (taskController.creerTache erreurs moi corps uuid t bd).2 in
  bd' = bd
  ∨ ∃ x, taches bd !! uuid = None
         ∧ Tache.utilisateur_id x = moi ∧ Tache.statut x = A_FAIRE
         ∧ (∀ l, Tache.liste_id x = Some l → liste_de moi l bd)
         ∧ bd' = MkBD (utilisateurs bd) (listes bd) (<[uuid := x]> (taches bd))
                   (historique bd) (journal bd ++ [InsertTache uuid]).
Proof.
  cbn zeta. unfold taskController.creerTache, tacheRepository.creer.
  destruct erreurs; [|by left].
  destruct (vrai (taskController.liste_id corps)
            && taskController.liste_interdite moi
                 (default "" (taskController.liste_id corps)) bd) eqn:Hl; [by left|].
  destruct (taches bd !! uuid) eqn:Hu; [by left|].
  destruct (utilisateurs bd !! _); [|by left].
  right.
  exists (Tache.Build (taskController.titre corps)
            (taskController.ou_null (taskController.description corps)) A_FAIRE
            (default MOYENNE (taskController.priorite corps))
            (taskController.date_echeance corps) t None moi
            (taskController.ou_null (taskController.liste_id corps))).
  split; [done|]. split; [done|]. split; [done|]. split; [|done].
  cbn. unfold taskController.ou_null. intros l Hx.
  destruct (vrai (taskController.liste_id corps)); [|done].
  rewrite Hx in Hl. cbn in Hl. by apply liste_interdite_false.
Qed.

Lemma supprimerTache_effet moi id bd :
  let bd' := (taskController.supprimerTache moi id bd).2 in
  bd' = bd
  ∨ ∃ x, taches bd !! id = Some x ∧ Tache.utilisateur_id x = moi
         ∧ bd' = tacheRepository.supprimer id bd.
Proof.
  cbn zeta. unfold taskController.supprimerTache, tacheRepository.trouverParId.
  destruct (taches bd !! id) as [x|] eqn:Hx; cbn; [|by left].
  case_bool_decide; cbn; [|by left]. right. eauto.
Qed.

Lemma creerListe_effet erreurs moi nom couleur ordre uuid bd :
  let bd' := (taskController.creerListe erreurs moi nom couleur ordre uuid bd).2 in
  bd' = bd
  ∨ ∃ r, listes bd !! uuid = None ∧ Liste.utilisateur_id r = moi
         ∧ bd' = MkBD (utilisateurs bd) (<[uuid := r]> (listes bd)) (taches bd)
                   (historique bd) (journal bd ++ [InsertListe uuid]).
Proof.
  cbn zeta. unfold taskController.creerListe, listeRepository.creer.
  destruct erreurs; [|by left].
  destruct (listes bd !! uuid) eqn:Hu; [by left|].
  destruct (utilisateurs bd !! _); [|by left].
  right.
  exists (Liste.Build nom (if vrai couleur then default "" couleur else "#3B82F6")
            (taskController.ou_defaut ordre 0) moi).
  done.
Qed.

Lemma modifierListe_effet erreurs moi id corps bd :
  let bd' := (taskController.modifierListe erreurs moi id corps bd).2 in
  bd' = bd
  ∨ ∃ r, listes bd !! id = Some r ∧ Liste.utilisateur_id r = moi
         ∧ bd' = MkBD (utilisateurs bd)
                   (<[id := listeRepository.appliquer corps r]> (listes bd)) (taches bd)
                   (historique bd) (journal bd ++ [UpdateListe id]).
Proof.
  cbn zeta. unfold taskController.modifierListe, listeRepository.trouverParId.
  destruct erreurs; [|by left].
  destruct (listes bd !! id) as [r|] eqn:Hr; [|by left].
  case_bool_decide; cbn; [|by left]. right. exists r. split; [done|]. split; [done|].
  unfold avec_listes. by rewrite (alter_lookup_Some _ _ _ _ Hr).
Qed.

Lemma supprimerListe_effet moi id bd :
  let bd' := (taskController.supprimerListe moi id bd).2 in
  bd' = bd
  ∨ ∃ r, listes bd !! id = Some r ∧ Liste.utilisateur_id r = moi
         ∧ bd' = MkBD (utilisateurs bd) (delete id (listes bd))
                   ((λ x, if decide (Tache.liste_id x = Some id)
                          then Tache.avec_liste_id None x else x) <$> taches bd)
                   (historique bd)
                   (journal bd ++ [UpdateTachesDeListe id; DeleteListe id]).
Proof.
  cbn zeta. unfold taskController.supprimerListe, listeRepository.trouverParId.
  destruct (listes bd !! id) as [r|] eqn:Hr; [|by left].
  case_bool_decide; cbn; [|by left]. right. exists r. split; [done|]. split; [done|].
  unfold listeRepository.supprimer, tacheRepository.dissocierListe, avec_taches.
  cbn [utilisateurs listes taches historique journal].
  rewrite dissocier_deux_fois. by rewrite <- app_assoc.
Qed.

(** The handlers of the authentication controller write to the users
    table only. *)
Lemma auth_autres_tables `{!Externe} op bd :
  match op with
  | OpRegister _ _ _ _ _ _ _ | OpLogin _ _ _ _
  | OpUpdateProfil _ _ _ | OpChangePassword _ _ _ _ _ => True
  | _ => False
  end →
  listes (executer op bd).2 = listes bd
  ∧ taches (executer op bd).2 = taches bd
  ∧ historique (executer op bd).2 = historique bd.
Proof.
  destruct op; try done; intros _; cbn [executer].
  - unfold authController.register, utilisateurRepository.creer.
    destruct erreurs; [|done].
    destruct (utilisateurRepository.trouverParEmail _ _); [done|].
    by destruct (utilisateurs bd !! uuid).
  - unfold authController.login.
    destruct erreurs; [|done].
    destruct (utilisateurRepository.trouverParEmail _ _) as [[i u]|]; [|done].
    case_bool_decide; [done|].
    destruct (negb _); [|done]. cbn.
    destruct (alter _ _ _ !! i); [case_bool_decide|]; done.
  - unfold authController.updateProfil. by destruct erreurs.
  - unfold authController.changePassword.
    destruct erreurs; [|done].
    destruct (utilisateurRepository.trouverParIdAvecMotDePasse _ _); [|done].
    by destruct (negb _).
Qed.

(** ** Tasks and their lists *)

Lemma reference_coherente_memes_tables bd bd' :
  listes bd' = listes bd → taches bd' = taches bd →
  reference_coherente bd → reference_coherente bd'.
Proof. unfold reference_coherente. intros -> ->. done. Qed.

Lemma modifierTache_reference erreurs moi id corps t bd :
  reference_coherente bd →
  reference_coherente (taskController.modifierTache erreurs moi id corps t bd).2.
Proof.
  intros Hinv.
  destruct (modification_acceptee_dec erreurs moi id corps bd) as [[x Hacc]|Hnon];
    [|by rewrite modifierTache_refusee].
  rewrite (modifierTache_acceptee _ _ _ _ t _ _ Hacc).
  destruct Hacc as (_ & Hx & Ho & Hl).
  intros j y l. cbn [snd taches listes]. rewrite lookup_insert.
  destruct (decide (id = j)) as [<-|Hj]; [|intros ??; by eapply Hinv].
  intros Hy. apply (inj Some) in Hy. rewrite <- Hy. clear Hy.
  assert (Hliste : tacheRepository.liste_id_maj (donneesMAJ_de corps t x)
                   = taskController.m_liste_id corps).
  { unfold donneesMAJ_de.
    destruct (taskController.m_statut corps); [case_bool_decide|]; done. }
  cbn. rewrite Hliste. unfold liste_demandee in Hl.
  destruct (taskController.m_liste_id corps) as [[l'|]|]; cbn.
  - intros [= <-]. destruct (Hl l' eq_refl) as (r & Hr & Hor). exists r. by rewrite Ho.
  - done.
  - intros Hlx. exact (Hinv id x l Hx Hlx).
Qed.

Lemma executer_reference `{!Externe} op bd :
  reference_coherente bd → reference_coherente (executer op bd).2.
Proof.
  intros Hinv.
  destruct op;
    try (match goal with
         | |- context [executer ?op _] =>
             destruct (auth_autres_tables op bd I) as (Hl & Ht & _)
         end;
         by apply (reference_coherente_memes_tables bd));
    cbn [executer].
  - destruct (creerTache_effet erreurs moi corps uuid maintenant bd)
      as [->|(x & Hfrais & Ho & _ & Hl & ->)]; [done|].
    intros j y l. cbn [taches listes]. rewrite lookup_insert.
    destruct (decide (uuid = j)) as [<-|Hj]; [|intros ??; by eapply Hinv].
    intros Hy Hly. apply (inj Some) in Hy. subst y.
    destruct (Hl l Hly) as (r & Hr & Hor). exists r. by rewrite Ho.
  - by rewrite listerTaches_inchange.
  - by rewrite detailTache_inchange.
  - by apply modifierTache_reference.
  - destruct (supprimerTache_effet moi id bd) as [->|(x & Hx & Ho & ->)]; [done|].
    intros j y l. cbn [taches listes tacheRepository.supprimer].
    intros Hy Hly. apply lookup_delete_Some in Hy as [_ Hy]. by eapply Hinv.
  - by rewrite rechercher_inchange.
  - destruct (creerListe_effet erreurs moi nom couleur ordre uuid bd)
      as [->|(r & Hfrais & Ho & ->)]; [done|].
    intros j y l Hy Hly. cbn [taches listes] in *.
    destruct (Hinv j y l Hy Hly) as (r' & Hr' & Hor').
    exists r'. split; [|done]. rewrite lookup_insert_ne; [done|congruence].
  - destruct (modifierListe_effet erreurs moi id corps bd)
      as [->|(r & Hr & Ho & ->)]; [done|].
    intros j y l Hy Hly. cbn [taches listes] in *.
    destruct (Hinv j y l Hy Hly) as (r' & Hr' & Hor').
    rewrite lookup_insert. destruct (decide (id = l)) as [->|Hne]; [|eauto].
    eexists. split; [done|]. cbn. congruence.
  - destruct (supprimerListe_effet moi id bd) as [->|(r & Hr & Ho & ->)]; [done|].
    intros j y l Hy Hly. cbn [taches listes] in *.
    apply lookup_fmap_Some in Hy as (z & <- & Hz).
    destruct (decide (Tache.liste_id z = Some id)) as [Hd|Hd]; [done|].
    destruct (Hinv j z l Hz Hly) as (r' & Hr' & Hor').
    exists r'. split; [|done]. rewrite lookup_delete_ne; [done|congruence].
Qed.

(** X7.  Every request keeps this invariant: a task that names a list
    names a stored list that belongs to the owner of the task.  It holds
    in every database reached from the empty one. *)
Theorem reference_coherente_toujours `{!Externe} :
  (∀ op bd, reference_coherente bd → reference_coherente (executer op bd).2)
  ∧ (∀ ops, reference_coherente (derouler ops bd_vide)).
Proof.
  split; [apply @executer_reference|].
  intros ops. induction ops as [|op ops IH] using rev_ind.
  - intros i x l Hx. cbn in Hx. by rewrite lookup_empty in Hx.
  - rewrite derouler_snoc. by apply executer_reference.
Qed.

(** ** Isolation between users *)

Lemma isolation_taches_identiques (m m' : gmap string Tache.t) (qui : option string) :
  m' = m →
  ∀ j x, Some (Tache.utilisateur_id x) ≠ qui → (m' !! j = Some x ↔ m !! j = Some x).
Proof. by intros ->. Qed.

Lemma isolation_insert {A} (proprietaire : A → string) (m : gmap string A) i y
    (qui : option string) :
  Some (proprietaire y) = qui →
  (∀ z, m !! i = Some z → Some (proprietaire z) = qui) →
  ∀ j x, Some (proprietaire x) ≠ qui → (<[i := y]> m !! j = Some x ↔ m !! j = Some x).
Proof.
  intros Hy Hz j x Hx. rewrite lookup_insert.
  destruct (decide (i = j)) as [<-|]; [|done].
  split; intros Hl.
  - apply (inj Some) in Hl. by subst.
  - by destruct Hx, (Hz x Hl).
Qed.

Lemma isolation_delete {A} (proprietaire : A → string) (m : gmap string A) i z
    (qui : option string) :
  m !! i = Some z → Some (proprietaire z) = qui →
  ∀ j x, Some (proprietaire x) ≠ qui → (delete i m !! j = Some x ↔ m !! j = Some x).
Proof.
  intros Hz Hq j x Hx. rewrite lookup_delete_Some. split; [by intros [_ ?]|].
  intros Hl. split; [|done]. intros <-. by simplify_eq.
Qed.

(** X8.  A request made on behalf of a user changes nothing that belongs
    to somebody else.  On a database where every task that names a list
    names a list of its own owner, and for every request: a task whose
    owner is not the requester is stored after the request exactly if it
    was stored before, unchanged; so is a list whose owner is not the
    requester; and the row of every other user is as it was. *)
Theorem isolation_des_utilisateurs `{!Externe} (op : Operation) (bd : BD) :
  reference_coherente bd →
  let bd' := (executer op bd).2 in
  (∀ j x, Some (Tache.utilisateur_id x) ≠ demandeur op →
          (taches bd' !! j = Some x ↔ taches bd !! j = Some x))
  ∧ (∀ k r, Some (Liste.utilisateur_id r) ≠ demandeur op →
            (listes bd' !! k = Some r ↔ listes bd !! k = Some r))
  ∧ (∀ moi k, demandeur op = Some moi → k ≠ moi →
              utilisateurs bd' !! k = utilisateurs bd !! k).
Proof.
  intros Hinv bd'. subst bd'.
  destruct op; cbn [demandeur].
  - destruct (auth_autres_tables (OpRegister erreurs email mot_de_passe nom_affichage
                                    uuid sel maintenant) bd I) as (-> & -> & _).
    done.
  - destruct (auth_autres_tables (OpLogin erreurs email mot_de_passe maintenant) bd I)
      as (-> & -> & _).
    done.
  - destruct (auth_autres_tables (OpUpdateProfil erreurs moi nom_affichage) bd I)
      as (-> & -> & _).
    split; [done|]. split; [done|]. intros ? k [= <-] Hk. cbn [executer].
    unfold authController.updateProfil. destruct erreurs; [|done].
    cbn. by rewrite lookup_alter_ne.
  - destruct (auth_autres_tables (OpChangePassword erreurs moi ancien nouveau sel) bd I)
      as (-> & -> & _).
    split; [done|]. split; [done|]. intros ? k [= <-] Hk. cbn [executer].
    unfold authController.changePassword. destruct erreurs; [|done].
    destruct (utilisateurRepository.trouverParIdAvecMotDePasse _ _); [|done].
    destruct (negb _); [done|]. cbn. by rewrite lookup_alter_ne.
  - cbn [executer]. rewrite creerTache_utilisateurs.
    destruct (creerTache_effet erreurs moi corps uuid maintenant bd)
      as [->|(x & Hfrais & Ho & _ & _ & ->)]; [done|].
    cbn [taches listes]. split; [|done].
    apply (isolation_insert Tache.utilisateur_id); [by rewrite Ho|].
    intros z Hz. congruence.
  - cbn [executer]. by rewrite listerTaches_inchange.
  - cbn [executer]. by rewrite detailTache_inchange.
  - cbn [executer].
    destruct (modification_acceptee_dec erreurs moi id corps bd) as [[x Hacc]|Hnon];
      [|by rewrite modifierTache_refusee].
    rewrite (modifierTache_acceptee _ _ _ _ maintenant _ _ Hacc).
    destruct Hacc as (_ & Hx & Ho & _). cbn [snd taches listes utilisateurs].
    split; [|done].
    apply (isolation_insert Tache.utilisateur_id); [cbn; by rewrite Ho|].
    intros z Hz. congruence.
  - cbn [executer]. rewrite supprimerTache_utilisateurs.
    destruct (supprimerTache_effet moi id bd) as [->|(x & Hx & Ho & ->)]; [done|].
    cbn [taches listes tacheRepository.supprimer]. split; [|done].
    apply (isolation_delete Tache.utilisateur_id _ _ x); [done|by rewrite Ho].
  - cbn [executer]. by rewrite rechercher_inchange.
  - cbn [executer]. rewrite creerListe_utilisateurs.
    destruct (creerListe_effet erreurs moi nom couleur ordre uuid bd)
      as [->|(r & Hfrais & Ho & ->)]; [done|].
    cbn [taches listes]. split; [done|]. split; [|done].
    apply (isolation_insert Liste.utilisateur_id); [by rewrite Ho|].
    intros z Hz. congruence.
  - cbn [executer]. rewrite modifierListe_utilisateurs.
    destruct (modifierListe_effet erreurs moi id corps bd)
      as [->|(r & Hr & Ho & ->)]; [done|].
    cbn [taches listes]. split; [done|]. split; [|done].
    apply (isolation_insert Liste.utilisateur_id); [cbn; by rewrite Ho|].
    intros z Hz. congruence.
  - cbn [executer]. rewrite supprimerListe_utilisateurs.
    destruct (supprimerListe_effet moi id bd) as [->|(r & Hr & Ho & ->)]; [done|].
    cbn [taches listes]. split; [|split; [|done]].
    + intros j x Hx. rewrite lookup_fmap_Some. split.
      * intros (y & Hy & Hl).
        destruct (decide (Tache.liste_id y = Some id)) as [Hd|Hd]; [|by subst].
        destruct (Hinv j y id Hl Hd) as (r' & Hr' & Hor'). simplify_eq.
        cbn in Hx. by destruct Hx; f_equal.
      * intros Hl. exists x. split; [|done].
        destruct (decide (Tache.liste_id x = Some id)) as [Hd|Hd]; [|done].
        destruct (Hinv j x id Hl Hd) as (r' & Hr' & Hor'). simplify_eq.
        by destruct Hx; f_equal.
    + apply (isolation_delete Liste.utilisateur_id _ _ r); [done|by rewrite Ho].
Qed.

Lemma reference_coherente_bd_essai : reference_coherente bd_essai.
Proof.
  intros id x l Hx Hl. cbn [taches bd_essai] in Hx. cbn [listes bd_essai].
  apply lookup_insert_Some in Hx as [[<- <-]|[? Hx]];
    [|apply lookup_insert_Some in Hx as [[<- <-]|[? Hx]];
      [|apply lookup_singleton_Some in Hx as [<- <-]]];
    cbn in Hl; simplify_eq; by eexists.
Qed.

Lemma isolation_des_utilisateurs_temoin :
  reference_coherente bd_essai
  ∧ taches (@executer externe_essai (OpSupprimerListe "u1" "l1") bd_essai).2 !! "t3"
    = Some (Tache.Build "Pay rent" None EN_COURS BASSE (Some 19754) 2002 None "u2" None).
Proof.
  split; [exact reference_coherente_bd_essai|].
  destruct (@isolation_des_utilisateurs externe_essai (OpSupprimerListe "u1" "l1") bd_essai
              reference_coherente_bd_essai) as (Htaches & _ & _).
  apply Htaches; [discriminate|reflexivity].
Defined.

(** ** The history and the statuses *)

Lemma rejouer_snoc id l e :
  rejouer id (l ++ [e])
  = if decide (HistoriqueModification.tache_id e = id)
    then HistoriqueModification.nouveau_statut e else rejouer id l.
Proof. unfold rejouer. by rewrite foldl_app. Qed.

Lemma rejouer_filter id d l :
  id ≠ d →
  rejouer id (filter (λ h, HistoriqueModification.tache_id h ≠ d) l) = rejouer id l.
Proof.
  intros Hne. unfold rejouer. generalize A_FAIRE.
  induction l as [|e l IH]; intros s; [done|].
  rewrite filter_cons.
  destruct (decide (HistoriqueModification.tache_id e ≠ d)) as [Hd|Hd]; cbn [foldl].
  - apply IH.
  - rewrite IH. rewrite decide_False; [done|]. intros He. apply Hd. congruence.
Qed.

Lemma rejouer_absent id l :
  (∀ e, e ∈ l → HistoriqueModification.tache_id e ≠ id) → rejouer id l = A_FAIRE.
Proof.
  induction l as [|e l IH] using rev_ind; [done|]. intros Hl.
  rewrite rejouer_snoc, decide_False by (apply Hl; set_solver).
  apply IH. intros e' He'. apply Hl. set_solver.
Qed.

(** An element of a filtered list, and what comes before it. *)
Lemma filter_lookup_prefixe {A} (P : A → Prop) `{!∀ x, Decision (P x)} (l : list A)
    (i : nat) e :
  filter P l !! i = Some e →
  ∃ k, l !! k = Some e ∧ P e ∧ take i (filter P l) = filter P (take k l).
Proof.
  revert i. induction l as [|a l IH]; intros i; [done|].
  rewrite filter_cons. destruct (decide (P a)) as [Ha|Ha].
  - destruct i as [|i].
    + intros [= <-]. exists 0%nat. done.
    + intros Hi. destruct (IH i Hi) as (k & Hk & HP & Ht).
      exists (S k). split; [done|]. split; [done|].
      change (take (S k) (a :: l)) with (a :: take k l).
      change (take (S i) (a :: filter P l)) with (a :: take i (filter P l)).
      rewrite filter_cons, decide_True by done. by rewrite Ht.
  - intros Hi. destruct (IH i Hi) as (k & Hk & HP & Ht).
    exists (S k). split; [done|]. split; [done|].
    change (take (S k) (a :: l)) with (a :: take k l).
    rewrite filter_cons, decide_False by done. done.
Qed.

Lemma historique_fidele_memes_statuts bd bd' :
  historique bd' = historique bd →
  (∀ id, Tache.statut <$> taches bd' !! id = Tache.statut <$> taches bd !! id) →
  historique_fidele bd → historique_fidele bd'.
Proof.
  intros Hh Hs [HA HB]. split.
  - intros i e. rewrite Hh. intros He. destruct (HA i e He) as ([x Hx] & Hne & Hr).
    split; [|done].
    specialize (Hs (HistoriqueModification.tache_id e)). rewrite Hx in Hs.
    destruct (taches bd' !! _); [by eexists|done].
  - intros id x Hx. rewrite Hh. specialize (Hs id). rewrite Hx in Hs.
    destruct (taches bd !! id) as [y|] eqn:Hy; [|done].
    cbn in Hs. injection Hs as ->. by apply HB.
Qed.

Lemma modifierTache_fidele erreurs moi id corps t bd :
  historique_fidele bd →
  historique_fidele (taskController.modifierTache erreurs moi id corps t bd).2.
Proof.
  intros Hinv.
  destruct (modification_acceptee_dec erreurs moi id corps bd) as [[x Hacc]|Hnon];
    [|by rewrite modifierTache_refusee].
  rewrite (modifierTache_acceptee _ _ _ _ t _ _ Hacc).
  destruct Hacc as (_ & Hx & _ & _). cbn [snd].
  destruct (changement_statut corps x) as [[a s]|] eqn:Hc.
  - assert (a = Tache.statut x ∧ s ≠ a
            ∧ Tache.statut (tacheRepository.appliquer (donneesMAJ_de corps t x) x) = s)
      as (-> & Hsa & Hnew).
    { unfold changement_statut, donneesMAJ_de in *.
      destruct (taskController.m_statut corps) as [s'|]; [|done].
      case_bool_decide; [|done]. by simplify_eq. }
    destruct Hinv as [HA HB].
    split; cbn [historique taches];
      change (option_list (Some ?e)) with [e].
    + intros i e He. apply lookup_snoc_Some in He as [[Hi He]|[Hi <-]].
      * destruct (HA i e He) as ([y Hy] & Hne & Hr).
        split; [|split; [done|]].
        -- rewrite lookup_insert. case_decide; by eexists.
        -- by rewrite take_app_le by lia.
      * cbn. split; [rewrite lookup_insert_eq; by eexists|]. split; [done|].
        rewrite take_app_length' by done. symmetry. by apply HB.
    + intros j y. rewrite rejouer_snoc, lookup_insert. cbn.
      destruct (decide (id = j)) as [<-|Hj].
      * intros Hy. apply (inj Some) in Hy. rewrite <- Hy. done.
      * intros Hy. by apply HB.
  - apply (historique_fidele_memes_statuts bd); [by rewrite app_nil_r| |done].
    intros j. cbn [taches]. rewrite lookup_insert.
    destruct (decide (id = j)) as [<-|Hj]; [|done]. rewrite Hx. cbn. f_equal.
    unfold changement_statut, donneesMAJ_de in *.
    destruct (taskController.m_statut corps) as [s'|]; [|done].
    case_bool_decide; [done|]. done.
Qed.

Lemma executer_fidele `{!Externe} op bd :
  historique_fidele bd → historique_fidele (executer op bd).2.
Proof.
  intros Hinv.
  destruct op;
    try (match goal with
         | |- context [executer ?op _] =>
             destruct (auth_autres_tables op bd I) as (_ & Ht & Hh)
         end;
         apply (historique_fidele_memes_statuts bd); [done|by rewrite Ht|done]);
    cbn [executer].
  - destruct (creerTache_effet erreurs moi corps uuid maintenant bd)
      as [->|(x & Hfrais & _ & Hs & _ & ->)]; [done|].
    destruct Hinv as [HA HB]. split; cbn [historique taches].
    + intros i e He. destruct (HA i e He) as ([y Hy] & Hne & Hr).
      split; [|done]. rewrite lookup_insert. case_decide; by eexists.
    + intros j y. rewrite lookup_insert. destruct (decide (uuid = j)) as [<-|Hj].
      * intros Hy. apply (inj Some) in Hy. subst y. rewrite Hs.
        apply rejouer_absent. intros e He Hid.
        apply list_elem_of_lookup in He as [i He].
        destruct (HA i e He) as ([z Hz] & _). congruence.
      * apply HB.
  - by rewrite listerTaches_inchange.
  - by rewrite detailTache_inchange.
  - by apply modifierTache_fidele.
  - destruct (supprimerTache_effet moi id bd) as [->|(x & Hx & _ & ->)]; [done|].
    destruct Hinv as [HA HB].
    split; cbn [historique taches tacheRepository.supprimer].
    + intros i e He.
      apply filter_lookup_prefixe in He as (k & He & Hid & Ht).
      destruct (HA k e He) as ([y Hy] & Hne & Hr).
      split; [|split; [done|]].
      * rewrite lookup_delete_ne by done. by eexists.
      * rewrite Ht, rejouer_filter; done.
    + intros j y Hy. apply lookup_delete_Some in Hy as [Hj Hy].
      rewrite rejouer_filter by done. by apply HB.
  - by rewrite rechercher_inchange.
  - destruct (creerListe_effet erreurs moi nom couleur ordre uuid bd)
      as [->|(r & _ & _ & ->)]; [done|].
    by apply (historique_fidele_memes_statuts bd).
  - destruct (modifierListe_effet erreurs moi id corps bd)
      as [->|(r & _ & _ & ->)]; [done|].
    by apply (historique_fidele_memes_statuts bd).
  - destruct (supprimerListe_effet moi id bd) as [->|(r & _ & _ & ->)]; [done|].
    apply (historique_fidele_memes_statuts bd); [done| |done].
    intros j. cbn [taches]. rewrite lookup_fmap.
    destruct (taches bd !! j) as [y|]; [|done]. cbn. by case_decide.
Qed.

(** X9.  Every request keeps the history faithful to the statuses: each
    entry is about a stored task, records two different statuses, and its
    previous status is the one that the entries before it give the task
    ([A_FAIRE] when there is none); and the status of each stored task is
    the new status of its last entry, [A_FAIRE] when it has none.  This
    holds in every database reached from the empty one. *)
Theorem historique_fidele_toujours `{!Externe} :
  (∀ op bd, historique_fidele bd → historique_fidele (executer op bd).2)
  ∧ (∀ ops, historique_fidele (derouler ops bd_vide)).
Proof.
  split; [apply @executer_fidele|].
  intros ops. induction ops as [|op ops IH] using rev_ind.
  - split; [intros i e He; by cbn in He|].
    intros id x Hx. cbn in Hx. by rewrite lookup_empty in Hx.
  - rewrite derouler_snoc. by apply executer_fidele.
Qed.

(** ** Deleting a task *)

Lemma supprimerTache_resultat moi id bd x :
  taches bd !! id = Some x → Tache.utilisateur_id x = moi →
  taskController.supprimerTache moi id bd
  = (Succes 200 (DonneesMessage "Tâche supprimée avec succès."),
     tacheRepository.supprimer id bd).
Proof.
  intros Hx Ho. unfold taskController.supprimerTache, tacheRepository.trouverParId.
  rewrite Hx. cbn. by rewrite bool_decide_eq_true_2.
Qed.

(** X10.  DeleteTask by the owner answers 200, removes the task and the
    history entries about it, and leaves every other task, every other
    history entry, the lists and the users as they were.  GetTask,
    UpdateTask and a second DeleteTask on the same identifier are then
    answered 404. *)
Theorem suppression_tache (moi id : string) (bd : BD) (x : Tache.t)
    (corps : taskController.CorpsModification) (t : Z) :
  taches bd !! id = Some x → Tache.utilisateur_id x = moi →
  let res := taskController.supprimerTache moi id bd in
  res.1 = Succes 200 (DonneesMessage "Tâche supprimée avec succès.")
  ∧ taches res.2 !! id = None
  ∧ (∀ j, j ≠ id → taches res.2 !! j = taches bd !! j)
  ∧ (∀ e, e ∈ historique res.2
          ↔ e ∈ historique bd ∧ HistoriqueModification.tache_id e ≠ id)
  ∧ listes res.2 = listes bd ∧ utilisateurs res.2 = utilisateurs bd
  ∧ (taskController.detailTache moi id res.2).1 = Echec 404 "Tâche non trouvée."
  ∧ (taskController.modifierTache [] moi id corps t res.2).1 = Echec 404 "Tâche non trouvée."
  ∧ taskController.supprimerTache moi id res.2 = (Echec 404 "Tâche non trouvée.", res.2).
Proof.
  intros Hx Ho res. subst res.
  rewrite (supprimerTache_resultat _ _ _ _ Hx Ho).
  cbn [fst snd taches listes utilisateurs historique tacheRepository.supprimer].
  split; [done|]. split; [apply lookup_delete_eq|].
  split; [intros j Hj; by apply lookup_delete_ne|].
  split; [intros e; rewrite list_elem_of_filter; naive_solver|].
  split; [done|]. split; [done|].
  unfold taskController.detailTache, taskController.modifierTache,
    taskController.supprimerTache, tacheRepository.trouverParId.
  cbn [taches tacheRepository.supprimer]. rewrite lookup_delete_eq. done.
Qed.

Lemma suppression_tache_temoin :
  taches bd_essai !! "t2"
  = Some (Tache.Build "abc" (Some "Call Bob") TERMINEE HAUTE None 2001 (Some 2500) "u1"
            (Some "l1"))
  ∧ (taskController.detailTache "u1" "t2"
       (taskController.supprimerTache "u1" "t2" bd_essai).2).1
    = Echec 404 "Tâche non trouvée.".
Proof.
  split; [reflexivity|].
  exact (proj1 (proj2 (proj2 (proj2 (proj2 (proj2 (proj2
           (suppression_tache "u1" "t2" bd_essai _
              (taskController.MkCorpsModification None None None None None None) 0
              eq_refl eq_refl)))))))).
Defined.

(** ** Creating, then deleting *)

Lemma filter_tout {A} (P : A → Prop) `{!∀ x, Decision (P x)} (l : list A) :
  (∀ x, x ∈ l → P x) → filter P l = l.
Proof.
  induction l as [|a l IH]; intros Hl; [done|].
  rewrite filter_cons, decide_True by (apply Hl; left).
  rewrite IH; [done|]. intros x Hx. apply Hl. by right.
Qed.

(** X11.  Creating a task and deleting it again gives back the tables.  On
    a database with no history entry about the fresh identifier (as is the
    case when the history is faithful), after a creation that is carried
    out and the deletion of the new task by the same user, the users, the
    lists, the tasks and the history are what they were before. *)
Theorem creation_puis_suppression (moi : string) (corps : taskController.CorpsCreation)
    (uuid : string) (t : Z) (bd : BD) :
  is_Some (utilisateurs bd !! moi) → taches bd !! uuid = None →
  (∀ l, liste_fournie corps = Some l → liste_de moi l bd) →
  (∀ e, e ∈ historique bd → HistoriqueModification.tache_id e ≠ uuid) →
  let bd1 := (taskController.creerTache [] moi corps uuid t bd).2 in
  let res := taskController.supprimerTache moi uuid bd1 in
  res.1 = Succes 200 (DonneesMessage "Tâche supprimée avec succès.")
  ∧ utilisateurs res.2 = utilisateurs bd ∧ listes res.2 = listes bd
  ∧ taches res.2 = taches bd ∧ historique res.2 = historique bd.
Proof.
  intros Hmoi Hfrais Hl Hh bd1 res. subst bd1 res.
  rewrite (creerTache_resultat _ _ _ t _ Hmoi Hfrais).
  assert (match liste_fournie corps with
          | Some l => taskController.liste_interdite moi l bd
          | None => false
          end = false) as Hok.
  { destruct (liste_fournie corps) as [l|]; [|done].
    apply liste_interdite_false. by apply Hl. }
  set (ligne := Tache.Build _ _ _ _ _ _ _ _ _).
  assert (Hcree :
    (match liste_fournie corps with
     | Some l =>
         if taskController.liste_interdite moi l bd
         then (Echec 403 "Liste non trouvée ou non autorisée.", bd)
         else (Succes 201 (DonneesTache (Some (tacheRepository.instance bd uuid ligne))),
               MkBD (utilisateurs bd) (listes bd) (<[uuid := ligne]> (taches bd))
                 (historique bd) (journal bd ++ [InsertTache uuid]))
     | None =>
         (Succes 201 (DonneesTache (Some (tacheRepository.instance bd uuid ligne))),
          MkBD (utilisateurs bd) (listes bd) (<[uuid := ligne]> (taches bd))
            (historique bd) (journal bd ++ [InsertTache uuid]))
     end).2
    = MkBD (utilisateurs bd) (listes bd) (<[uuid := ligne]> (taches bd))
        (historique bd) (journal bd ++ [InsertTache uuid])).
  { destruct (liste_fournie corps) as [l|]; [by rewrite Hok|done]. }
  rewrite Hcree.
  rewrite (supprimerTache_resultat moi uuid _ ligne); [|apply lookup_insert_eq|done].
  cbn [fst snd utilisateurs listes taches historique tacheRepository.supprimer].
  split; [done|]. split; [done|]. split; [done|]. split.
  - by apply delete_insert_id.
  - by apply filter_tout.
Qed.

Lemma creation_puis_suppression_temoin :
  let corps :=
    taskController.MkCorpsCreation "Call Bob" None None None (Some "l1") [] in
  is_Some (utilisateurs bd_essai !! "u1") ∧ taches bd_essai !! "t9" = None
  ∧ taches (taskController.supprimerTache "u1" "t9"
              (taskController.creerTache [] "u1" corps "t9" 3000 bd_essai).2).2
    = taches bd_essai.
Proof.
  cbn zeta.
  assert (H1 : is_Some (utilisateurs bd_essai !! "u1")) by (by eexists).
  split; [exact H1|]. split; [reflexivity|].
  refine (proj1 (proj2 (proj2 (proj2
            (creation_puis_suppression "u1"
               (taskController.MkCorpsCreation "Call Bob" None None None (Some "l1") [])
               "t9" 3000 bd_essai H1 eq_refl _ _))))).
  - intros l [= <-]. by eexists.
  - intros e He. cbn in He. by apply elem_of_nil in He.
Defined.

Lemma fmap_inchange {A} (f : A → A) (m : gmap string A) :
  (∀ i x, m !! i = Some x → f x = x) → f <$> m = m.
Proof.
  intros Hf. apply map_eq. intros i. rewrite lookup_fmap.
  destruct (m !! i) as [x|] eqn:Hx; [|done]. cbn. by rewrite (Hf i x Hx).
Qed.

(** X12.  Creating a list and deleting it again gives back the tables.
    For a stored user and a fresh identifier that no task names (as is the
    case when every task names a stored list), the creation is answered
    201 with the defaults "#3B82F6" and 0 for a colour and an order that
    are absent, and after the deletion of the new list by the same user
    the users, the lists, the tasks and the history are what they were
    before. *)
Theorem liste_creee_puis_supprimee (moi nom : string) (couleur : option string)
    (ordre : option Z) (uuid : string) (bd : BD) :
  is_Some (utilisateurs bd !! moi) → listes bd !! uuid = None →
  (∀ j x, taches bd !! j = Some x → Tache.liste_id x ≠ Some uuid) →
  let cree := taskController.creerListe [] moi nom couleur ordre uuid bd in
  let res := taskController.supprimerListe moi uuid cree.2 in
  cree.1 = Succes 201
             (DonneesListe
                (Some (uuid,
                       Liste.Build nom
                         (match couleur with
                          | Some c => if String.eqb c "" then "#3B82F6" else c
                          | None => "#3B82F6"
                          end)
                         (match ordre with
                          | Some o => if o =? 0 then 0 else o
                          | None => 0
                          end) moi)))
  ∧ res.1 = Succes 200 (DonneesMessage "Liste supprimée avec succès.")
  ∧ utilisateurs res.2 = utilisateurs bd ∧ listes res.2 = listes bd
  ∧ taches res.2 = taches bd ∧ historique res.2 = historique bd.
Proof.
  intros [u Hu] Hfrais Hnon cree res. subst cree res.
  unfold taskController.creerListe, listeRepository.creer.
  rewrite Hfrais. cbn [Liste.utilisateur_id]. rewrite Hu. cbn [fst snd].
  unfold taskController.supprimerListe, listeRepository.trouverParId, avec_listes.
  cbn [listes]. rewrite lookup_insert_eq. cbn [Liste.utilisateur_id].
  rewrite bool_decide_eq_true_2 by done.
  cbn [negb fst snd]. unfold listeRepository.supprimer, tacheRepository.dissocierListe,
    avec_taches.
  cbn [utilisateurs listes taches historique].
  split.
  { unfold vrai, taskController.ou_defaut.
    destruct couleur as [c|]; [destruct (String.eqb c "")|]; done. }
  split; [done|]. split; [done|]. split; [by apply delete_insert_id|].
  split; [|done].
  rewrite dissocier_deux_fois. apply fmap_inchange.
  intros i x Hx. rewrite decide_False; [done|]. by apply (Hnon i x).
Qed.

Lemma liste_creee_puis_supprimee_temoin :
  is_Some (utilisateurs bd_essai !! "u2") ∧ listes bd_essai !! "l2" = None
  ∧ listes (taskController.supprimerListe "u2" "l2"
              (taskController.creerListe [] "u2" "Home" None None "l2" bd_essai).2).2
    = listes bd_essai.
Proof.
  assert (H1 : is_Some (utilisateurs bd_essai !! "u2")) by (by eexists).
  split; [exact H1|]. split; [reflexivity|].
  refine (proj1 (proj2 (proj2 (proj2
            (liste_creee_puis_supprimee "u2" "Home" None None "l2" bd_essai
               H1 eq_refl _))))).
  intros j x Hx Hl.
  destruct (reference_coherente_bd_essai j x "l2" Hx Hl) as (r & Hr & _).
  discriminate Hr.
Defined.

(** ** The counters along the requests *)

Section comptage.
Context (P : string * Tache.t → Prop) `{!∀ p, Decision (P p)}.

Lemma nombre_cle m i : nombre P m = nombre P (delete i m) + poids P i (m !! i).
Proof.
  unfold nombre, poids. destruct (m !! i) as [x|] eqn:Hx.
  - rewrite <- (map_to_list_delete m i x Hx), filter_cons.
    destruct (decide (P (i, x))); cbn [length]; lia.
  - rewrite (delete_id m i Hx). lia.
Qed.

(** Two tables that differ at the key [i] at most. *)
Lemma nombre_une_cle m m' i :
  (∀ j, j ≠ i → m' !! j = m !! j) →
  nombre P m' - poids P i (m' !! i) = nombre P m - poids P i (m !! i).
Proof.
  intros Hj. rewrite (nombre_cle m i), (nombre_cle m' i).
  replace (delete i m') with (delete i m); [lia|].
  apply map_eq. intros j. rewrite !lookup_delete.
  case_decide; [done|]. symmetry. apply Hj. congruence.
Qed.

End comptage.

Lemma compterParStatut_nombre moi bd :
  total (tacheRepository.compterParStatut moi bd)
  = nombre (λ p, Tache.utilisateur_id p.2 = moi) (taches bd)
  ∧ ∀ s, compte_de (tacheRepository.compterParStatut moi bd) s
         = nombre (λ p, Tache.statut p.2 = s ∧ Tache.utilisateur_id p.2 = moi) (taches bd).
Proof.
  rewrite compterParStatut_valeur. split; [done|].
  intros s. unfold nombre, nombre_avec_statut, possedees.
  destruct s; cbn [compte_de nb_A_FAIRE nb_EN_COURS nb_TERMINEE];
    by rewrite list_filter_filter.
Qed.

Lemma poids_proprietaire qui i x :
  poids (λ p, Tache.utilisateur_id p.2 = qui) i x = part_total qui x.
Proof. by destruct x. Qed.

Lemma poids_statut qui s i x :
  poids (λ p, Tache.statut p.2 = s ∧ Tache.utilisateur_id p.2 = qui) i x
  = part_statut qui s x.
Proof.
  unfold poids, part_statut, un_si. destruct x as [x|]; [|done]. cbn.
  destruct (decide (Tache.utilisateur_id x = qui)) as [Ho|Ho],
           (decide (Tache.statut x = s)) as [Hs|Hs].
  - by rewrite decide_True.
  - rewrite decide_False; [done|]. by intros [? _].
  - rewrite decide_False; [done|]. by intros [_ ?].
  - rewrite decide_False; [done|]. by intros [_ ?].
Qed.

(** The counters of [qui] before and after a change of the tasks table at
    the key [i] alone. *)
Lemma compteurs_une_cle qui bd bd' i :
  (∀ j, j ≠ i → taches bd' !! j = taches bd !! j) →
  let c := tacheRepository.compterParStatut qui bd in
  let c' := tacheRepository.compterParStatut qui bd' in
  total c' = total c - part_total qui (taches bd !! i) + part_total qui (taches bd' !! i)
  ∧ ∀ s, compte_de c' s
         = compte_de c s - part_statut qui s (taches bd !! i)
           + part_statut qui s (taches bd' !! i).
Proof.
  intros Hj c c'. subst c c'.
  destruct (compterParStatut_nombre qui bd) as [Ht Hs].
  destruct (compterParStatut_nombre qui bd') as [Ht' Hs'].
  split.
  - rewrite Ht, Ht'.
    pose proof (nombre_une_cle (λ p, Tache.utilisateur_id p.2 = qui) _ _ i Hj) as Hn.
    rewrite !poids_proprietaire in Hn. lia.
  - intros s. rewrite Hs, Hs'.
    pose proof (nombre_une_cle
                  (λ p, Tache.statut p.2 = s ∧ Tache.utilisateur_id p.2 = qui) _ _ i Hj)
      as Hn.
    rewrite !poids_statut in Hn. lia.
Qed.

Lemma creerTache_cree moi corps uuid t bd :
  is_Some (utilisateurs bd !! moi) → taches bd !! uuid = None →
  (∀ l, liste_fournie corps = Some l → liste_de moi l bd) →
  ∃ x, Tache.utilisateur_id x = moi ∧ Tache.statut x = A_FAIRE
       ∧ (taskController.creerTache [] moi corps uuid t bd).2
         = MkBD (utilisateurs bd) (listes bd) (<[uuid := x]> (taches bd))
             (historique bd) (journal bd ++ [InsertTache uuid]).
Proof.
  intros Hmoi Hfrais Hl. rewrite (creerTache_resultat _ _ _ t _ Hmoi Hfrais).
  exists (Tache.Build (taskController.titre corps)
            (taskController.ou_null (taskController.description corps)) A_FAIRE
            (default MOYENNE (taskController.priorite corps))
            (taskController.date_echeance corps) t None moi (liste_fournie corps)).
  split; [reflexivity|]. split; [reflexivity|].
  destruct (liste_fournie corps) as [l|] eqn:Hf; [|done].
  assert (Hok : taskController.liste_interdite moi l bd = false)
    by (apply liste_interdite_false; by apply Hl).
  by rewrite Hok.
Qed.

(** X13.  The counters follow the tasks.  For the counters that
    [compterParStatut] gives a user [qui]: a creation that is carried out
    adds 1 to [total] and to [A_FAIRE] when [qui] is the requester; a
    modification that is carried out leaves [total] as it is and moves 1
    from the counter of the stored status to the counter of the new one;
    a deletion by the owner takes 1 from [total] and from the counter of
    the status of the task; and none of the three changes the counters of
    a user other than the requester. *)
Theorem compteurs_suivent (qui : string) :
  (∀ moi corps uuid t bd,
     is_Some (utilisateurs bd !! moi) → taches bd !! uuid = None →
     (∀ l, liste_fournie corps = Some l → liste_de moi l bd) →
     let c := tacheRepository.compterParStatut qui bd in
     let c' :=
       tacheRepository.compterParStatut qui
         (taskController.creerTache [] moi corps uuid t bd).2 in
     total c' = total c + (if decide (moi = qui) then 1 else 0)
     ∧ ∀ s, compte_de c' s = compte_de c s + (if decide (moi = qui) then un_si A_FAIRE s else 0))
  ∧ (∀ erreurs moi id corps t bd x,
       modification_acceptee erreurs moi id corps bd x →
       let c := tacheRepository.compterParStatut qui bd in
       let c' :=
         tacheRepository.compterParStatut qui
           (taskController.modifierTache erreurs moi id corps t bd).2 in
       let nouveau := default (Tache.statut x) (taskController.m_statut corps) in
       total c' = total c
       ∧ ∀ s, compte_de c' s
              = compte_de c s
                + (if decide (moi = qui) then un_si nouveau s - un_si (Tache.statut x) s
                   else 0))
  ∧ (∀ moi id bd x,
       taches bd !! id = Some x → Tache.utilisateur_id x = moi →
       let c := tacheRepository.compterParStatut qui bd in
       let c' :=
         tacheRepository.compterParStatut qui (taskController.supprimerTache moi id bd).2 in
       total c' = total c - (if decide (moi = qui) then 1 else 0)
       ∧ ∀ s, compte_de c' s
              = compte_de c s - (if decide (moi = qui) then un_si (Tache.statut x) s else 0)).
Proof.
  split; [|split].
  - intros moi corps uuid t bd Hmoi Hfrais Hl c c'. subst c c'.
    destruct (creerTache_cree moi corps uuid t bd Hmoi Hfrais Hl) as (x & Ho & Hs & ->).
    destruct (compteurs_une_cle qui bd
                (MkBD (utilisateurs bd) (listes bd) (<[uuid := x]> (taches bd))
                   (historique bd) (journal bd ++ [InsertTache uuid])) uuid)
      as [Ht Hc].
    { intros j Hj. cbn. by rewrite lookup_insert_ne. }
    cbn [taches] in Ht, Hc. rewrite lookup_insert_eq, Hfrais in Ht, Hc.
    cbn [part_total part_statut] in Ht, Hc. rewrite Ho, Hs in *.
    split; [lia|]. intros s. specialize (Hc s). lia.
  - intros erreurs moi id corps t bd x Hacc c c' nouveau. subst c c' nouveau.
    rewrite (modifierTache_acceptee _ _ _ _ t _ _ Hacc).
    destruct Hacc as (_ & Hx & Ho & _). cbn [snd].
    set (bd' := MkBD _ _ _ _ _).
    destruct (compteurs_une_cle qui bd bd' id) as [Ht Hc].
    { intros j Hj. cbn. by rewrite lookup_insert_ne. }
    subst bd'. cbn [taches] in Ht, Hc. rewrite lookup_insert_eq, Hx in Ht, Hc.
    cbn [part_total part_statut tacheRepository.appliquer Tache.utilisateur_id
           Tache.statut] in Ht, Hc.
    assert (Hn : default (Tache.statut x)
                   (tacheRepository.statut_maj (donneesMAJ_de corps t x))
                 = default (Tache.statut x) (taskController.m_statut corps)).
    { unfold donneesMAJ_de. destruct (taskController.m_statut corps) as [s'|]; [|done].
      case_bool_decide as Hs; [done|]. cbn. by rewrite Hs. }
    rewrite Hn, Ho in *.
    split; [lia|]. intros s. specialize (Hc s).
    destruct (decide (moi = qui)); lia.
  - intros moi id bd x Hx Ho c c'. subst c c'.
    rewrite (supprimerTache_resultat _ _ _ _ Hx Ho). cbn [snd].
    destruct (compteurs_une_cle qui bd (tacheRepository.supprimer id bd) id) as [Ht Hc].
    { intros j Hj. cbn. by rewrite lookup_delete_ne. }
    cbn [taches tacheRepository.supprimer] in Ht, Hc.
    rewrite lookup_delete_eq, Hx in Ht, Hc.
    cbn [part_total part_statut] in Ht, Hc. rewrite Ho in *.
    split; [lia|]. intros s. specialize (Hc s). lia.
Qed.

(** The counters of "u1" on the sample database, and after "Buy milk" is
    completed. *)
Example compteurs_suivent_exemple :
  tacheRepository.compterParStatut "u1" bd_essai = MkCompteurs 2 1 0 1
  ∧ tacheRepository.compterParStatut "u1"
      (taskController.modifierTache [] "u1" "t1"
         (taskController.MkCorpsModification None None (Some TERMINEE) None None None)
         3000 bd_essai).2
    = MkCompteurs 2 0 0 2.
Proof. by vm_compute. Qed.

(** ** The page that ListTasks returns *)

Lemma arrondi_exact z : Z.abs z ≤ 2 ^ 53 → tacheRepository.arrondi z = z.
Proof.
  intros Hz. unfold tacheRepository.arrondi. cbn zeta.
  destruct (Z.leb_spec (Z.abs z) (2 ^ 53)); [done|lia].
Qed.

Lemma offset_de_exact q :
  Z.abs (page_de q - 1) ≤ 2 ^ 53 →
  Z.abs ((page_de q - 1) * limit_de q) ≤ 2 ^ 53 →
  offset_de q = (page_de q - 1) * limit_de q.
Proof.
  intros Hp Ho. unfold offset_de.
  rewrite (arrondi_exact (page_de q - 1)) by done. by apply arrondi_exact.
Qed.

Lemma listerParUtilisateur_page moi (q : taskController.RequeteListe) page limit bd rows n :
  tacheRepository.listerParUtilisateur moi
    (tacheRepository.MkOptions page limit (taskController.q_statut q)
       (taskController.q_priorite q) (taskController.q_liste_id q)) bd
  = Some (rows, n) →
  let offset := tacheRepository.arrondi (tacheRepository.arrondi (page - 1) * limit) in
  let reste := Z.max 0 (nombre_correspondant moi q bd - Z.max 0 offset) in
  NoDup rows
  ∧ (∀ i, i ∈ rows →
       ∃ id x, taches bd !! id = Some x ∧ i = tacheRepository.instance bd id x
               ∧ correspond moi q x)
  ∧ Z.of_nat (length rows) = (if limit <? 0 then reste else Z.min limit reste)
  ∧ (offset ≤ 0 → limit < 0 ∨ nombre_correspondant moi q bd ≤ limit →
     ∀ id x, taches bd !! id = Some x → correspond moi q x →
       tacheRepository.instance bd id x ∈ rows).
Proof.
  intros Hl. pose proof (listerParUtilisateur_total _ _ _ _ _ _ _ Hl) as Hn.
  revert Hl. unfold tacheRepository.listerParUtilisateur.
  cbn [tacheRepository.page tacheRepository.limit]. cbn zeta.
  set (offset := tacheRepository.arrondi (tacheRepository.arrondi (page - 1) * limit)).
  set (trouvees := filter _ _).
  destruct (_ && _); [|done].
  intros Hrows. apply (inj Some) in Hrows.
  set (suite := drop (Z.to_nat offset)
                  (merge_sort tacheRepository.ordre_liste trouvees)) in *.
  assert (Hr : rows = if limit <? 0 then suite else take (Z.to_nat limit) suite)
    by (by injection Hrows).
  assert (Hlen : Z.of_nat (length trouvees) = nombre_correspondant moi q bd)
    by (rewrite <- Hn; by injection Hrows).
  clear Hrows Hn.
  pose proof (merge_sort_Permutation tacheRepository.ordre_liste trouvees) as Hperm.
  assert (Hnd : NoDup (merge_sort tacheRepository.ordre_liste trouvees)).
  { rewrite Hperm. apply NoDup_filter, instances_NoDup. }
  assert (Hsub : sublist rows (merge_sort tacheRepository.ordre_liste trouvees)).
  { rewrite Hr. destruct (limit <? 0).
    - apply sublist_drop.
    - etrans; [apply sublist_take|apply sublist_drop]. }
  assert (Hsuite : Z.of_nat (length suite)
                   = Z.max 0 (nombre_correspondant moi q bd - Z.max 0 offset)).
  { unfold suite. rewrite length_drop, (Permutation_length Hperm). lia. }
  split; [by eapply sublist_NoDup|]. split; [|split].
  - intros i Hi. apply (elem_of_sublist _ _ _ Hi) in Hsub as Hi'.
    rewrite Hperm in Hi'. apply list_elem_of_filter in Hi' as [Hw Hi'].
    apply instances_elem in Hi' as (id & x & Hx & ->).
    exists id, x. split; [done|]. split; [done|].
    by apply (where_liste_correspond moi q page limit bd id x).
  - rewrite Hr. destruct (Z.ltb_spec limit 0); [done|].
    rewrite length_take. lia.
  - intros Hoff Hgrand id x Hx Hc.
    assert (rows = merge_sort tacheRepository.ordre_liste trouvees) as ->.
    { rewrite Hr. unfold suite in *.
      replace (Z.to_nat offset) with 0%nat in * by lia. rewrite drop_0 in *.
      destruct (Z.ltb_spec limit 0); [done|].
      apply take_ge. lia. }
    rewrite Hperm. apply list_elem_of_filter. split.
    + by apply (where_liste_correspond moi q page limit bd id x).
    + apply instances_elem. eauto.
Qed.

(** X14.  The page of ListTasks.  When ListTasks answers with tasks, no
    task comes twice, and each is a stored task, joined with its list,
    that the requester owns and that satisfies every filter of the query.
    Their number is what is left of the matching tasks after the offset
    (a negative offset counting as 0), cut down to the page size unless
    the page size is negative, which lifts the limit.  The offset is the
    product of the page minus one and the page size, as long as both fit
    in 2 ^ 53; in that range a page beyond the last, for a positive page
    size, is empty.  When the offset is 0 or less and the page size is
    negative or as large as the number of matching tasks, every matching
    task is in the answer. *)
Theorem page_de_listerTaches (moi : string) (q : taskController.RequeteListe) (bd : BD)
    (resultat : list TacheInstance) (c : Compteurs) (p : Pagination) :
  (taskController.listerTaches moi q bd).1 = Succes 200 (DonneesTaches resultat c p) →
  let reste := Z.max 0 (nombre_correspondant moi q bd - Z.max 0 (offset_de q)) in
  NoDup resultat
  ∧ (∀ i, i ∈ resultat →
       ∃ id x, taches bd !! id = Some x ∧ i = tacheRepository.instance bd id x
               ∧ correspond moi q x)
  ∧ Z.of_nat (length resultat)
    = (if limit_de q <? 0 then reste else Z.min (limit_de q) reste)
  ∧ (Z.abs (page_de q - 1) ≤ 2 ^ 53 → Z.abs ((page_de q - 1) * limit_de q) ≤ 2 ^ 53 →
     offset_de q = (page_de q - 1) * limit_de q)
  ∧ (1 ≤ limit_de q → 1 ≤ page_de q ≤ 2 ^ 53 → (page_de q - 1) * limit_de q ≤ 2 ^ 53 →
     pg_totalPages p < page_de q → resultat = [])
  ∧ (offset_de q ≤ 0 → limit_de q < 0 ∨ nombre_correspondant moi q bd ≤ limit_de q →
     ∀ id x, taches bd !! id = Some x → correspond moi q x →
       tacheRepository.instance bd id x ∈ resultat).
Proof.
  intros Hrep reste. subst reste.
  destruct (listerTaches_succes _ _ _ _ _ _ Hrep) as (_ & Hp).
  revert Hrep. rewrite listerTaches_reponse. cbn zeta.
  destruct (tacheRepository.listerParUtilisateur _ _ _) as [[rows n]|] eqn:Hl; [|done].
  cbn [fst]. intros Hrep. assert (rows = resultat) as -> by (by injection Hrep).
  destruct (listerParUtilisateur_page _ _ _ _ _ _ _ Hl) as (Hnd & Hin & Hlen & Htout).
  fold (offset_de q) in Hlen, Htout.
  split; [done|]. split; [done|]. split; [done|].
  split; [apply offset_de_exact|]. split; [|done].
  intros Hlim Hpage Hoff Hloin. apply length_zero_iff_nil.
  pose proof (plafond_quotient_plafond (nombre_correspondant moi q bd) (limit_de q) Hlim)
    as Hpl. cbn zeta in Hpl.
  rewrite Hp in Hloin. cbn [pg_totalPages] in Hloin.
  rewrite offset_de_exact in Hlen by nia.
  destruct (Z.ltb_spec (limit_de q) 0); [lia|]. nia.
Qed.

Lemma page_de_listerTaches_temoin :
  let q := taskController.MkRequeteListe (Some 1) (Some 1) None None None in
  ∃ resultat c p,
    (taskController.listerTaches "u1" q bd_essai).1
    = Succes 200 (DonneesTaches resultat c p)
    ∧ NoDup resultat
    ∧ Z.of_nat (length resultat) = 1.
Proof.
  cbn zeta.
  destruct (listerTaches_repond "u1"
              (taskController.MkRequeteListe (Some 1) (Some 1) None None None) bd_essai)
    as (resultat & c & p & Hrep); [done|done|].
  exists resultat, c, p. split; [exact Hrep|].
  destruct (page_de_listerTaches _ _ _ _ _ _ Hrep) as (Hnd & _ & Hlen & _).
  split; [exact Hnd|]. rewrite Hlen. reflexivity.
Defined.

(** ** The authentication middleware *)

Lemma commence_par_prefixe k s :
  commence_par k s = true ↔ ∃ reste, s = k +:+ reste.
Proof.
  revert s. induction k as [|c k IH]; intros s; cbn.
  - split; [eauto|done].
  - destruct s as [|d s].
    + split; [done|]. by intros [r Hr].
    + rewrite andb_true_iff, IH. split.
      * intros [Hc [r ->]]. apply Ascii.eqb_eq in Hc as ->. by exists r.
      * intros [r Hr]. injection Hr as -> ->. split; [apply Ascii.eqb_refl|by exists r].
Qed.

Lemma deuxieme_segment_Bearer reste :
  authMiddleware.deuxieme_segment ("Bearer " +:+ reste)
  = Some (authMiddleware.avant_espace reste).
Proof. reflexivity. Qed.

(** X15.  The authentication middleware lets a request through, as the
    user [id] with [email], exactly when the header [Authorization] is
    [Bearer ] followed by some text and [jwt.verify] accepts, under the
    secret of the application, that text up to its first space, with a
    payload that carries [id] and [email]; what follows that space is
    ignored.  Otherwise it answers 401, or 500 when [jwt.verify] fails
    with an error that is neither [TokenExpiredError] nor
    [JsonWebTokenError]; with no header, or one that does not start with
    [Bearer ], the answer does not depend on [jwt.verify]. *)
Theorem authMiddleware_laisse_passer `{!Externe}
    (jwt_verify : string → string → authMiddleware.Verdict)
    (authorization : option string) :
  (∀ id email,
     authMiddleware.authMiddleware jwt_verify authorization = authMiddleware.Suivant id email
     ↔ ∃ reste, authorization = Some ("Bearer " +:+ reste)
                ∧ jwt_verify (authMiddleware.avant_espace reste) jwtSecret
                  = authMiddleware.Valide id email)
  ∧ (∀ r,
       authMiddleware.authMiddleware jwt_verify authorization = authMiddleware.Refus r →
       status_de r = 401
       ∨ (status_de r = 500
          ∧ ∃ reste, authorization = Some ("Bearer " +:+ reste)
                     ∧ jwt_verify (authMiddleware.avant_espace reste) jwtSecret
                       = authMiddleware.AutreErreur))
  ∧ ((∀ reste, authorization ≠ Some ("Bearer " +:+ reste)) →
     authMiddleware.authMiddleware jwt_verify authorization
     = authMiddleware.Refus (Echec 401 "Token d'authentification manquant ou invalide.")).
Proof.
  unfold authMiddleware.authMiddleware.
  destruct authorization as [h|]; cbn [vrai].
  2:{ cbn. split; [|split]; [| |done].
      - intros id email. split; [done|]. by intros (r & Hr & _).
      - intros r Hr. left. by injection Hr as <-. }
  change (default "" (Some h)) with h.
  destruct (commence_par "Bearer " h) eqn:Hb.
  - apply commence_par_prefixe in Hb as [reste ->].
    change (negb (negb (("Bearer " +:+ reste) =? ""))%string) with false.
    cbn [negb orb]. rewrite deuxieme_segment_Bearer.
    split; [|split].
    + intros id email. split.
      * intros Hp. exists reste. split; [done|].
        destruct (jwt_verify _ _); try done. by injection Hp as -> ->.
      * intros (r & Hr & Hv). apply (inj Some) in Hr.
        assert (r = reste) as ->.
        { revert Hr. generalize "Bearer ". intros k.
          induction k as [|a k IH]; cbn; [done|]. intros Hk. injection Hk. done. }
        by rewrite Hv.
    + intros r. destruct (jwt_verify _ _) eqn:Hv; try done; intros Hr;
        injection Hr as <-; cbn; eauto.
    + intros Hnon. by destruct (Hnon reste).
  - rewrite orb_true_r. split; [|split]; [| |done].
    + intros id email. split; [done|]. intros (r & Hr & _).
      apply (inj Some) in Hr. subst h.
      assert (commence_par "Bearer " ("Bearer " +:+ r) = true)
        by (apply commence_par_prefixe; eauto).
      congruence.
    + intros r Hr. left. by injection Hr as <-.
Qed.

(** ** Requests that are refused *)

(** X16.  A request that is answered with an error writes nothing: the
    database after it is the database before it.  The one exception is a
    login with the wrong password for a stored account that is not
    locked, which counts the failure on that account and touches nothing
    else. *)
Theorem refus_sans_ecriture `{!Externe} (op : Operation) (bd : BD) :
  400 ≤ status_de (executer op bd).1 →
  (executer op bd).2 = bd
  ∨ ∃ erreurs email mot_de_passe maintenant id u,
      op = OpLogin erreurs email mot_de_passe maintenant
      ∧ utilisateurRepository.trouverParEmail email bd = Some (id, u)
      ∧ Utilisateur.tentatives_echec u < appConfig.maxLoginAttempts
      ∧ bcrypt_compare mot_de_passe (Utilisateur.mot_de_passe_hash u) = false
      ∧ (executer op bd).2 = utilisateurRepository.incrementerTentativesEchec id bd.
Proof.
  destruct op; cbn [executer].
  - unfold authController.register. destruct erreurs; [|by left].
    destruct (utilisateurRepository.trouverParEmail _ _); [by left|].
    cbn zeta. destruct (utilisateurRepository.creer _ _ _ _ _ _) as [[u bd']|]; [|by left].
    cbn. lia.
  - unfold authController.login. destruct erreurs; [|by left].
    destruct (utilisateurRepository.trouverParEmail _ _) as [[id u]|] eqn:Hu; [|by left].
    case_bool_decide as Hmax; [by left|].
    destruct (bcrypt_compare _ _) eqn:Hc; cbn [negb]; [cbn; lia|].
    intros _. right. exists [], email, mot_de_passe, maintenant, id, u.
    split; [done|]. split; [done|]. split; [lia|]. split; [done|].
    cbn zeta. destruct (utilisateurs _ !! id); [|done]. by case_bool_decide.
  - unfold authController.updateProfil. destruct erreurs; [|by left].
    destruct (utilisateurRepository.mettreAJour _ _ _). cbn. lia.
  - unfold authController.changePassword. destruct erreurs; [|by left].
    destruct (utilisateurRepository.trouverParIdAvecMotDePasse _ _); [|by left].
    destruct (negb _); [by left|]. cbn. lia.
  - unfold taskController.creerTache. destruct erreurs; [|by left].
    destruct (_ && _); [by left|].
    destruct (tacheRepository.creer _ _ _); [|by left]. cbn. lia.
  - rewrite listerTaches_inchange. by left.
  - rewrite detailTache_inchange. by left.
  - unfold taskController.modifierTache. destruct erreurs; [|by left].
    destruct (tacheRepository.trouverParId _ _); [|by left].
    destruct (negb _); [by left|]. cbn zeta.
    match goal with |- context [if ?b then (taskController.liste_refusee, bd) else _] =>
      destruct b end; [by left|].
    match goal with |- context [let '(_, _) := ?e in _] => destruct e as [d bd1] end.
    destruct (tacheRepository.mettreAJour _ _ _). cbn. lia.
  - unfold taskController.supprimerTache.
    destruct (tacheRepository.trouverParId _ _); [|by left].
    destruct (negb _); [by left|]. cbn. lia.
  - rewrite rechercher_inchange. by left.
  - unfold taskController.creerListe. destruct erreurs; [|by left].
    cbn zeta. destruct (listeRepository.creer _ _ _); [|by left]. cbn. lia.
  - unfold taskController.modifierListe. destruct erreurs; [|by left].
    destruct (listeRepository.trouverParId _ _); [|by left].
    destruct (negb _); [by left|].
    destruct (listeRepository.mettreAJour _ _ _). cbn. lia.
  - unfold taskController.supprimerListe.
    destruct (listeRepository.trouverParId _ _); [|by left].
    destruct (negb _); [by left|]. cbn. lia.
Qed.

Lemma refus_sans_ecriture_temoin :
  status_de (executer (H := externe_essai) (OpSupprimerTache "u1" "t3") bd_essai).1 = 403
  ∧ (executer (H := externe_essai) (OpSupprimerTache "u1" "t3") bd_essai).2 = bd_essai.
Proof.
  split; [reflexivity|].
  destruct (refus_sans_ecriture (H := externe_essai) (OpSupprimerTache "u1" "t3") bd_essai)
    as [Hbd|(e & email & mdp & t & id & u & Hop & _)]; [by vm_compute|exact Hbd|done].
Defined.

(** ** A modification sent twice *)

Lemma appliquer_deux_fois corps t t' x :
  let x' := tacheRepository.appliquer (donneesMAJ_de corps t x) x in
  tacheRepository.appliquer (donneesMAJ_de corps t' x') x' = x'
  ∧ changement_statut corps x' = None.
Proof.
  cbn zeta. unfold donneesMAJ_de, changement_statut.
  destruct x as [ti de st pr ec cr co ow li].
  destruct corps as [mt md ms mp me ml]; cbn.
  destruct ms as [s|]; cbn.
  - destruct (decide (s = st)) as [->|Hs].
    + rewrite !(bool_decide_eq_false_2 (st ≠ st)) by naive_solver.
      unfold tacheRepository.appliquer. cbn.
      rewrite ?(bool_decide_eq_false_2 (st ≠ st)) by naive_solver.
      split; [|done].
      destruct mt, md, mp, me, ml; done.
    + rewrite (bool_decide_eq_true_2 (s ≠ st)) by done.
      unfold tacheRepository.appliquer. cbn.
      rewrite ?(bool_decide_eq_false_2 (s ≠ s)) by naive_solver. cbn.
      split; [|done].
      destruct mt, md, mp, me, ml; done.
  - unfold tacheRepository.appliquer. cbn.
    split; [|done]. destruct mt, md, mp, me, ml; done.
Qed.

(** X17.  A modification that is carried out and then sent again, at any
    later time, is answered as the first time, leaves every table as the
    first left it, and adds no entry to the status history: only the
    first of two equal requests changes a status or sets the completion
    time. *)
Theorem modification_repetee (erreurs : list string) (moi id : string)
    (corps : taskController.CorpsModification) (t t' : Z) (bd : BD) (x : Tache.t) :
  modification_acceptee erreurs moi id corps bd x →
  let r1 := taskController.modifierTache erreurs moi id corps t bd in
  let r2 := taskController.modifierTache erreurs moi id corps t' r1.2 in
  r2.1 = r1.1
  ∧ taches r2.2 = taches r1.2
  ∧ historique r2.2 = historique r1.2
  ∧ listes r2.2 = listes r1.2
  ∧ utilisateurs r2.2 = utilisateurs r1.2.
Proof.
  intros Hacc. cbn zeta.
  rewrite (modifierTache_acceptee _ _ _ _ t _ _ Hacc). cbn [fst snd].
  set (x' := tacheRepository.appliquer (donneesMAJ_de corps t x) x).
  set (bd1 := MkBD _ _ _ _ _).
  destruct (appliquer_deux_fois corps t t' x) as [Hx' Hch]. fold x' in Hx', Hch.
  assert (Hacc' : modification_acceptee erreurs moi id corps bd1 x').
  { destruct Hacc as (He & Hx & Ho & Hl). split; [done|]. split.
    - subst bd1. cbn [taches]. by rewrite lookup_insert_eq.
    - split; [by subst x'|]. intros l Hd. exact (Hl l Hd). }
  rewrite (modifierTache_acceptee _ _ _ _ t' _ _ Hacc'). cbn [fst snd].
  rewrite Hx', Hch. cbn [option_list taches historique listes utilisateurs].
  split; [done|]. split.
  - subst bd1. cbn [taches]. by rewrite insert_insert_eq.
  - split; [by rewrite app_nil_r|]. done.
Qed.

Lemma modification_repetee_temoin :
  let corps :=
    taskController.MkCorpsModification None None (Some TERMINEE) None None None in
  let r1 := taskController.modifierTache [] "u1" "t1" corps 3000 bd_essai in
  let r2 := taskController.modifierTache [] "u1" "t1" corps 4000 r1.2 in
  modification_acceptee [] "u1" "t1" corps bd_essai
    (Tache.Build "Buy milk" None A_FAIRE MOYENNE (Some 19723) 2000 None "u1" (Some "l1"))
  ∧ r2.1 = r1.1 ∧ historique r2.2 = historique r1.2.
Proof.
  cbn zeta.
  assert (Hacc : modification_acceptee [] "u1" "t1"
            (taskController.MkCorpsModification None None (Some TERMINEE) None None None)
            bd_essai
            (Tache.Build "Buy milk" None A_FAIRE MOYENNE (Some 19723) 2000 None "u1"
               (Some "l1"))).
  { split; [done|]. split; [by vm_compute|]. split; [done|]. intros l Hl. discriminate Hl. }
  split; [exact Hacc|].
  destruct (modification_repetee _ _ _ _ 3000 4000 _ _ Hacc) as (Hr & _ & Hh & _).
  split; [exact Hr|exact Hh].
Defined.
